(** * Greenhouse backend: ingestion, cache, derived fields and alerts

    A shallow embedding of [python_backend/app.py]: the payload
    normalisation and sort of [fetch_apex_readings], the poller and the
    smart cache, [build_derived_from_reading], and the handlers
    [get_sensor_data], [get_sensor_analysis] and [get_alerts]; further
    on, the status helpers, the figures of the report
    ([_calculate_health_score], [_generate_alert_summary]), the item
    list, the connection pool and [get_sensor_ai_only].

    Conventions of the embedding.
    - JSON / Python values are the inductive [pyval]; a dict with string
      keys is a [gmap string pyval], so [d.get(k)] is [d !! k] and
      [{**a, **b}] is [b ∪ a] (stdpp's union keeps the left operand).
    - A Python [float] is a [pyfloat]: [nan], the two infinities, or a
      finite value kept as a rational.  What enters as a float does so
      through [b64], the nearest double: [float(v)] of a text, of an
      integer (which raises past the largest double) and of a float of
      the payload, and [round(x, 1)], which yields the double nearest to
      a decimal.  The sums, products and quotients in between are exact,
      and [-0.0] is identified with [0.0].
    - A [str] is kept as the bytes of its UTF-8 encoding; [str.strip]
      and [float] know the white space of Unicode, and [float] its
      decimal digits.
    - Exceptions are the error half of [result]; wall-clock reads
      ([time.time()], [datetime.now()]) thread a tick counter through
      the monad [M], the n-th read returning [clock n].
    - What lies outside the file is a parameter: the upstream response
      of a request, and the AI service called by [get_sensor_ai_only]. *)

From Stdlib Require Import ZArith QArith Qabs Qpower String Ascii List Sorted Permutation Lqa Lia.
From stdpp Require Import gmap strings list fin_maps pretty.

Local Open Scope string_scope.
Local Open Scope Z_scope.

(* ===================================================================== *)
(** * Python values and builtins *)
(* ===================================================================== *)

Module Py.

Inductive exn :=
| KeyError | TypeError | ValueError | OverflowError
| AttributeError | ZeroDivisionError.

Inductive result (A : Type) :=
| Ok (a : A)
| Raise (e : exn).
Global Arguments Ok {A} a.
Global Arguments Raise {A} e.

Definition rbind {A B} (r : result A) (k : A -> result B) : result B :=
  match r with Ok a => k a | Raise e => Raise e end.

(** [try: r except Exception: d] *)
Definition try_except {A} (r : result A) (d : A) : A :=
  match r with Ok a => a | Raise _ => d end.

(** ** Floats *)

Inductive pyfloat := Fin (q : Q) | PInf | NInf | NaN.

Definition Qltb (a b : Q) : bool := negb (Qle_bool b a).

Definition Qsgn (q : Q) : Z := Z.sgn (Qnum q).

(** [a < b] on floats; every comparison with [nan] is false. *)
Definition f_lt (a b : pyfloat) : bool :=
  match a, b with
  | NaN, _ | _, NaN => false
  | Fin x, Fin y => Qltb x y
  | NInf, NInf => false
  | NInf, _ => true
  | _, PInf => match a with PInf => false | _ => true end
  | _, _ => false
  end.

Definition f_le (a b : pyfloat) : bool :=
  match a, b with
  | NaN, _ | _, NaN => false
  | Fin x, Fin y => Qle_bool x y
  | NInf, _ => true
  | _, PInf => true
  | _, _ => false
  end.

Definition f_eq (a b : pyfloat) : bool :=
  match a, b with
  | Fin x, Fin y => Qeq_bool x y
  | PInf, PInf | NInf, NInf => true
  | _, _ => false
  end.

Definition f_of_Z (z : Z) : pyfloat := Fin (inject_Z z).

Definition f_add (a b : pyfloat) : pyfloat :=
  match a, b with
  | NaN, _ | _, NaN => NaN
  | Fin x, Fin y => Fin (x + y)
  | PInf, NInf | NInf, PInf => NaN
  | PInf, _ | _, PInf => PInf
  | NInf, _ | _, NInf => NInf
  end.

(** Sign of a float that is not [nan]: -1, 0 or 1. *)
Definition f_sgn (a : pyfloat) : Z :=
  match a with
  | Fin x => Qsgn x
  | PInf => 1
  | NInf => -1
  | NaN => 0
  end.

Definition f_inf_of_sign (s : Z) : pyfloat :=
  if s =? 0 then NaN else if s <? 0 then NInf else PInf.

Definition f_mul (a b : pyfloat) : pyfloat :=
  match a, b with
  | NaN, _ | _, NaN => NaN
  | Fin x, Fin y => Fin (x * y)
  | _, _ => f_inf_of_sign (f_sgn a * f_sgn b)
  end.

(** [a / b]; a zero divisor raises. *)
Definition f_div (a b : pyfloat) : result pyfloat :=
  match a, b with
  | NaN, Fin y => if Qeq_bool y 0 then Raise ZeroDivisionError else Ok NaN
  | NaN, _ | _, NaN => Ok NaN
  | Fin x, Fin y =>
      if Qeq_bool y 0 then Raise ZeroDivisionError else Ok (Fin (x / y))
  | Fin _, _ => Ok (Fin 0)
  | _, Fin y =>
      if Qeq_bool y 0 then Raise ZeroDivisionError
      else Ok (f_inf_of_sign (f_sgn a * Qsgn y))
  | _, _ => Ok NaN
  end.

(** ** Rounding *)

(** Nearest integer, ties to the even neighbour. *)
Definition round_half_even (q : Q) : Z :=
  let n := Qnum q in
  let d := Zpos (Qden q) in
  let fl := n / d in
  match 2 * (n mod d) ?= d with
  | Lt => fl
  | Gt => fl + 1
  | Eq => if Z.even fl then fl else fl + 1
  end.

(** ** binary64 *)

(** [2 ^ e] for any integer [e] *)
Definition pow2 (e : Z) : Q := (2 ^ e)%Q.

(** The binade of a positive [q]: the [l] with [2 ^ l <= q < 2 ^ (l + 1)]. *)
Definition ilog2 (q : Q) : Z :=
  let l := Z.log2 (Qnum q) - Z.log2 (Zpos (Qden q)) in
  if Qle_bool (pow2 l) q then l else l - 1.

(** The double nearest to [q]: 53 significant bits, exponents down to
    that of the subnormals, ties to the even significand; past the
    largest double the result is an infinity. *)
Definition b64 (q : Q) : pyfloat :=
  let e := Z.max (ilog2 (Qabs q) - 52) (-1074) in
  let m := round_half_even (q / pow2 e) in
  let x := Qred (inject_Z m * pow2 e) in
  if Qle_bool (pow2 1024) (Qabs x) then (if Qltb x 0 then NInf else PInf)
  else Fin x.

(** A float read as a double. *)
Definition f_double (a : pyfloat) : pyfloat :=
  match a with Fin x => b64 x | _ => a end.

(** [round(x, 1)] on a float: the double nearest to the nearest decimal
    with one place, a tie between two decimals going to the even digit;
    [nan] and the infinities round to themselves. *)
Definition f_round1 (a : pyfloat) : pyfloat :=
  match a with
  | Fin x => b64 (round_half_even (x * 10) # 10)
  | _ => a
  end.

(** [round(x, 0)] on a float (the result is still a float). *)
Definition f_round0 (a : pyfloat) : pyfloat :=
  match a with
  | Fin x => Fin (inject_Z (round_half_even x))
  | _ => a
  end.

(** [round(x)] on a float: an [int], or an exception when there is no
    integer to convert to. *)
Definition f_round_int (a : pyfloat) : result Z :=
  match a with
  | Fin x => Ok (round_half_even x)
  | PInf | NInf => Raise OverflowError
  | NaN => Raise ValueError
  end.

(** ** Numbers: [int] or [float] *)

Inductive number := NInt (z : Z) | NFloat (f : pyfloat).

Definition n_float (n : number) : pyfloat :=
  match n with NInt z => f_of_Z z | NFloat f => f end.

Definition n_lt (a b : number) : bool := f_lt (n_float a) (n_float b).
Definition n_le (a b : number) : bool := f_le (n_float a) (n_float b).
Definition n_eq (a b : number) : bool := f_eq (n_float a) (n_float b).

Definition n_add (a b : number) : number :=
  match a, b with
  | NInt x, NInt y => NInt (x + y)
  | _, _ => NFloat (f_add (n_float a) (n_float b))
  end.

Definition n_mul (a b : number) : number :=
  match a, b with
  | NInt x, NInt y => NInt (x * y)
  | _, _ => NFloat (f_mul (n_float a) (n_float b))
  end.

(** True division [a / b] always yields a float. *)
Definition n_truediv (a b : number) : result pyfloat :=
  f_div (n_float a) (n_float b).

(** [round(n, 1)]: an [int] is returned unchanged. *)
Definition n_round1 (n : number) : number :=
  match n with NInt z => NInt z | NFloat f => NFloat (f_round1 f) end.

(** [round(n)] *)
Definition n_round_int (n : number) : result Z :=
  match n with NInt z => Ok z | NFloat f => f_round_int f end.

(** ** Values *)

(** The values a decoded JSON payload and the handlers' dicts hold. *)
#[warnings="-register-all"]
Inductive pyval :=
| VNone
| VBool (b : bool)
| VInt (z : Z)
| VFloat (f : pyfloat)
| VStr (s : string)
| VList (l : list pyval)
| VDict (d : gmap string pyval).

Definition of_number (n : number) : pyval :=
  match n with NInt z => VInt z | NFloat f => VFloat f end.

(** A Python number seen as such: [bool] is a subclass of [int]. *)
Definition as_number (v : pyval) : option number :=
  match v with
  | VBool b => Some (NInt (if b then 1 else 0))
  | VInt z => Some (NInt z)
  | VFloat f => Some (NFloat f)
  | _ => None
  end.

(** Truth value, as tested by [if v:] and [bool(v)]. *)
Definition truthy (v : pyval) : bool :=
  match v with
  | VNone => false
  | VBool b => b
  | VInt z => negb (z =? 0)
  | VFloat (Fin q) => negb (Qeq_bool q 0)
  | VFloat _ => true
  | VStr s => negb (String.eqb s "")
  | VList l => match l with [] => false | _ => true end
  | VDict d => match map_to_list d with [] => false | _ => true end
  end.

(** ** Strings *)

(** A [str] is kept as the bytes of its UTF-8 encoding. *)

Definition code (c : ascii) : N := N_of_ascii c.

(** [str.isspace] on a character of one byte. *)
Definition is_space (c : ascii) : bool :=
  let n := code c in
  ((9 <=? n) && (n <=? 13) || (28 <=? n) && (n <=? 32))%N.

(** The code point of a character of two, three or four bytes. *)
Definition cp2 (a b : ascii) : N :=
  ((code a - 192) * 64 + (code b - 128))%N.
Definition cp3 (a b c : ascii) : N :=
  ((code a - 224) * 4096 + (code b - 128) * 64 + (code c - 128))%N.
Definition cp4 (a b c d : ascii) : N :=
  ((code a - 240) * 262144 + (code b - 128) * 4096
   + (code c - 128) * 64 + (code d - 128))%N.

(** [str.isspace] on a code point past the one-byte characters:
    U+0085, U+00A0, U+1680, U+2000 to U+200A, U+2028, U+2029, U+202F,
    U+205F, U+3000. *)
Definition unicode_space (cp : N) : bool :=
  ((cp =? 133) || (cp =? 160) || (cp =? 5760)
   || (8192 <=? cp) && (cp <=? 8202)
   || (cp =? 8232) || (cp =? 8233) || (cp =? 8239) || (cp =? 8287)
   || (cp =? 12288))%N.

Definition is_space2 (a b : ascii) : bool :=
  ((192 <=? code a) && (code a <? 224) && (128 <=? code b))%N
  && unicode_space (cp2 a b).

Definition is_space3 (a b c : ascii) : bool :=
  ((224 <=? code a) && (code a <? 240) && (128 <=? code b)
   && (128 <=? code c))%N
  && unicode_space (cp3 a b c).

Definition is_digit (c : ascii) : bool :=
  let n := code c in ((48 <=? n) && (n <=? 57))%N.

Definition digit_value (c : ascii) : Z := Z.of_N (code c) - 48.

Definition lower_char (c : ascii) : ascii :=
  let n := code c in
  if ((65 <=? n) && (n <=? 90))%N then ascii_of_N (n + 32) else c.

(** [s.lower()] as the tests of the source see it: the letters A to Z,
    and the two other characters whose lower case holds an ASCII letter,
    U+0130 (an i and U+0307) and U+212A (a k).  Any other character is
    kept; its lower case holds none of the characters of the words the
    source looks for. *)
Fixpoint lower (s : string) : string :=
  match s with
  | EmptyString => EmptyString
  | String a r =>
      match r with
      | String b r1 =>
          if ((code a =? 196) && (code b =? 176))%N
          then String "i" (String (ascii_of_N 204)
                             (String (ascii_of_N 135) (lower r1)))
          else
            match r1 with
            | String c r2 =>
                if ((code a =? 226) && (code b =? 132) && (code c =? 170))%N
                then String "k" (lower r2)
                else String (lower_char a) (lower r)
            | EmptyString => String (lower_char a) (lower r)
            end
      | EmptyString => String (lower_char a) EmptyString
      end
  end.

(** [s.lstrip()]: white space of one, two or three bytes is dropped from
    the front. *)
Fixpoint lstrip (s : string) : string :=
  match s with
  | EmptyString => EmptyString
  | String a r =>
      if is_space a then lstrip r
      else
        match r with
        | String b r1 =>
            if is_space2 a b then lstrip r1
            else
              match r1 with
              | String c r2 => if is_space3 a b c then lstrip r2 else s
              | EmptyString => s
              end
        | EmptyString => s
        end
  end.

(** The same from the back, on the reversed text. *)
Fixpoint lstrip_reversed (s : string) : string :=
  match s with
  | EmptyString => EmptyString
  | String c r =>
      if is_space c then lstrip_reversed r
      else
        match r with
        | String b r1 =>
            if is_space2 b c then lstrip_reversed r1
            else
              match r1 with
              | String a r2 =>
                  if is_space3 a b c then lstrip_reversed r2 else s
              | EmptyString => s
              end
        | EmptyString => s
        end
  end.

(** [s.rstrip()] *)
Definition rstrip (s : string) : string :=
  String.rev (lstrip_reversed (String.rev s)).

(** [s.strip()] *)
Definition strip (s : string) : string := rstrip (lstrip s).

(** [sub in s] for a non-empty [sub] *)
Definition contains (sub s : string) : bool :=
  match index 0 sub s with Some _ => true | None => false end.

(** [s.startswith(p)] *)
Definition startswith (p s : string) : bool := String.prefix p s.

(** [s.replace(c, '')] for a one-character [c] *)
Fixpoint remove_char (c : ascii) (s : string) : string :=
  match s with
  | EmptyString => EmptyString
  | String a r =>
      if Ascii.eqb a c then remove_char c r else String a (remove_char c r)
  end.

(** ** [float(str)] *)

(** An underscore may only stand between two digits. *)
Fixpoint underscores_ok (prev : ascii) (s : string) : bool :=
  match s with
  | EmptyString => negb (Ascii.eqb prev "_")
  | String c r =>
      (if Ascii.eqb c "_" then is_digit prev
       else negb (Ascii.eqb prev "_") || is_digit c)
      && underscores_ok c r
  end.

Fixpoint take_digits (s : string) : list Z * string :=
  match s with
  | String c r =>
      if is_digit c
      then let '(ds, rest) := take_digits r in (digit_value c :: ds, rest)
      else ([], s)
  | EmptyString => ([], EmptyString)
  end.

Definition digits_value (ds : list Z) : Z :=
  fold_left (fun acc d => acc * 10 + d) ds 0.

Definition take_sign (s : string) : Z * string :=
  match s with
  | String "-" r => (-1, r)
  | String "+" r => (1, r)
  | _ => (1, s)
  end.

(** [m * 10 ^ e] as an exact rational *)
Definition scale10 (m e : Z) : Q :=
  if 0 <=? e then inject_Z (m * 10 ^ e) else m # Z.to_pos (10 ^ (- e)).

(** An unsigned decimal literal: digits, an optional fraction, an
    optional exponent; the whole string must be consumed. *)
Definition parse_decimal (s : string) : option Q :=
  let '(ip, r1) := take_digits s in
  let '(fp, r2) :=
    match r1 with
    | String "." r => take_digits r
    | _ => ([], r1)
    end in
  match (ip ++ fp)%list with
  | [] => None
  | ds =>
      let m := digits_value ds in
      let k := Z.of_nat (length fp) in
      match r2 with
      | EmptyString => Some (scale10 m (- k))
      | String c r =>
          if Ascii.eqb (lower_char c) "e" then
            let '(sg, r') := take_sign r in
            match take_digits r' with
            | ((_ :: _) as ed, EmptyString) =>
                Some (scale10 m (sg * digits_value ed - k))
            | _ => None
            end
          else None
      end
  end.

(** The first code points of the runs of ten decimal digits of Unicode
    14.0 past the ASCII digits. *)
Definition decimal_zeros : list N :=
  [ 1632; 1776; 1984; 2406; 2534; 2662; 2790; 2918; 3046; 3174; 3302;
    3430; 3558; 3664; 3792; 3872; 4160; 4240; 6112; 6160; 6470; 6608;
    6784; 6800; 6992; 7088; 7232; 7248; 42528; 43216; 43264; 43472;
    43504; 43600; 44016; 65296; 66720; 68912; 69734; 69872; 69942;
    70096; 70384; 70736; 70864; 71248; 71360; 71472; 71904; 72016;
    72784; 73040; 73120; 92768; 92864; 93008; 120782; 120792; 120802;
    120812; 120822; 123200; 123632; 125264; 130032 ]%N.

(** The decimal digit a code point stands for, if any. *)
Definition unicode_decimal (cp : N) : option N :=
  match List.find (fun z => (z <=? cp) && (cp <? z + 10))%N decimal_zeros with
  | Some z => Some (cp - z)%N
  | None => None
  end.

(** What [float] makes of a character of more than one byte: a space for
    white space, the ASCII digit for a decimal digit; at any other the
    text is cut with a ["?"], which no number holds. *)
Definition to_ascii_char (cp : N) (rest : string) : string :=
  if unicode_space cp then String " " rest
  else
    match unicode_decimal cp with
    | Some d => String (ascii_of_N (48 + d)) rest
    | None => "?"
    end.

Fixpoint to_ascii (s : string) : string :=
  match s with
  | EmptyString => EmptyString
  | String a r =>
      if (code a <? 127)%N then String a (to_ascii r)
      else if (code a <? 192)%N then "?"
      else
        match r with
        | String b r1 =>
            if (code a <? 224)%N then to_ascii_char (cp2 a b) (to_ascii r1)
            else
              match r1 with
              | String c r2 =>
                  if (code a <? 240)%N
                  then to_ascii_char (cp3 a b c) (to_ascii r2)
                  else
                    match r2 with
                    | String d r3 =>
                        to_ascii_char (cp4 a b c d) (to_ascii r3)
                    | EmptyString => "?"
                    end
              | EmptyString => "?"
              end
        | EmptyString => "?"
        end
  end.

(** The white space [float] trims: tab to carriage return, and the
    space. *)
Definition is_float_space (c : ascii) : bool :=
  let n := code c in ((9 <=? n) && (n <=? 13) || (n =? 32))%N.

Fixpoint float_lstrip (s : string) : string :=
  match s with
  | String c r => if is_float_space c then float_lstrip r else s
  | EmptyString => EmptyString
  end.

Definition float_strip (s : string) : string :=
  String.rev (float_lstrip (String.rev (float_lstrip s))).

(** [float(s)] for a [str]: [None] stands for [ValueError].  A literal
    too large for a double is an infinity. *)
Definition parse_float (s : string) : option pyfloat :=
  let t := float_strip (to_ascii s) in
  if negb (underscores_ok "000" t) then None
  else
    let '(sg, body) := take_sign (remove_char "_" t) in
    let name := lower body in
    if String.eqb name "inf" || String.eqb name "infinity"
    then Some (if sg <? 0 then NInf else PInf)
    else if String.eqb name "nan" then Some NaN
    else match parse_decimal body with
         | Some q => Some (b64 (inject_Z sg * q))
         | None => None
         end.

(** The builtin [float(v)]: an [int] too large for a double raises. *)
Definition py_float (v : pyval) : result pyfloat :=
  match v with
  | VNone => Raise TypeError
  | VBool b => Ok (f_of_Z (if b then 1 else 0))
  | VInt z =>
      match b64 (inject_Z z) with
      | Fin x => Ok (Fin x)
      | _ => Raise OverflowError
      end
  | VFloat f => Ok (f_double f)
  | VStr s =>
      match parse_float s with
      | Some f => Ok f
      | None => Raise ValueError
      end
  | VList _ | VDict _ => Raise TypeError
  end.

(** ** Builtins on values *)

(** [round(v, 1)] *)
Definition py_round1 (v : pyval) : result pyval :=
  match as_number v with
  | Some n => Ok (of_number (n_round1 n))
  | None => Raise TypeError
  end.

(** [round(v, 0)] *)
Definition py_round0 (v : pyval) : result pyval :=
  match as_number v with
  | Some (NInt z) => Ok (VInt z)
  | Some (NFloat f) => Ok (VFloat (f_round0 f))
  | None => Raise TypeError
  end.

(** [round(v)] *)
Definition py_round (v : pyval) : result pyval :=
  match as_number v with
  | Some n => rbind (n_round_int n) (fun z => Ok (VInt z))
  | None => Raise TypeError
  end.

(** [a < b].  Numbers compare by value and strings by code units; any
    other pairing raises.  (Python also orders two lists; no comparison
    of the source has a list on both sides.) *)
Definition py_lt (a b : pyval) : result bool :=
  match as_number a, as_number b with
  | Some x, Some y => Ok (n_lt x y)
  | _, _ =>
      match a, b with
      | VStr s, VStr t => Ok (String.ltb s t)
      | _, _ => Raise TypeError
      end
  end.

Definition py_gt (a b : pyval) : result bool := py_lt b a.

(** [a <= b] *)
Definition py_le (a b : pyval) : result bool :=
  match as_number a, as_number b with
  | Some x, Some y => Ok (n_le x y)
  | _, _ =>
      match a, b with
      | VStr s, VStr t => Ok (String.leb s t)
      | _, _ => Raise TypeError
      end
  end.

(** [max(a, b)]: [b] when [b > a], else [a]. *)
Definition py_max (a b : pyval) : result pyval :=
  rbind (py_gt b a) (fun c => Ok (if c then b else a)).

(** [a + b]: numeric addition, or concatenation of two strings or of
    two lists. *)
Definition py_add (a b : pyval) : result pyval :=
  match as_number a, as_number b with
  | Some x, Some y => Ok (of_number (n_add x y))
  | _, _ =>
      match a, b with
      | VStr s, VStr t => Ok (VStr (s +:+ t))
      | VList l, VList k => Ok (VList (l ++ k))
      | _, _ => Raise TypeError
      end
  end.

(** [a * b] where one operand is a float, as in every product of the
    source: anything but two numbers raises. *)
Definition py_mul (a b : pyval) : result pyval :=
  match as_number a, as_number b with
  | Some x, Some y => Ok (of_number (n_mul x y))
  | _, _ => Raise TypeError
  end.

(** [a / b] *)
Definition py_truediv (a b : pyval) : result pyval :=
  match as_number a, as_number b with
  | Some x, Some y => rbind (n_truediv x y) (fun f => Ok (VFloat f))
  | _, _ => Raise TypeError
  end.

(** [v == s] for a string literal [s] *)
Definition py_eq_str (v : pyval) (s : string) : bool :=
  match v with VStr t => String.eqb t s | _ => false end.

Definition is_none (v : pyval) : bool :=
  match v with VNone => true | _ => false end.

(** [d.get(k, default)] *)
Definition dict_get (d : gmap string pyval) (k : string) (dflt : pyval)
  : pyval :=
  default dflt (d !! k).

(** [d[k]] *)
Definition dict_item (d : gmap string pyval) (k : string) : result pyval :=
  match d !! k with Some v => Ok v | None => Raise KeyError end.

(** [k in d] *)
Definition dict_has (d : gmap string pyval) (k : string) : bool :=
  match d !! k with Some _ => true | None => false end.

Definition VReal (q : Q) : pyval := VFloat (Fin q).

End Py.
Export Py.

(* ===================================================================== *)
(** * Effects: exceptions and the wall clock *)
(* ===================================================================== *)

(** A computation reads the clock some number of times and returns or
    raises; the state is the number of reads made so far. *)
Definition M (A : Type) : Type := nat -> result A * nat.

Definition ret {A} (a : A) : M A := fun n => (Ok a, n).

Definition raise {A} (e : exn) : M A := fun n => (Raise e, n).

Definition lift {A} (r : result A) : M A := fun n => (r, n).

Definition bind {A B} (m : M A) (k : A -> M B) : M B :=
  fun n =>
    match m n with
    | (Ok a, n') => k a n'
    | (Raise e, n') => (Raise e, n')
    end.

(** [try: m except Exception: h] *)
Definition catch {A} (m : M A) (h : M A) : M A :=
  fun n =>
    match m n with
    | (Ok a, n') => (Ok a, n')
    | (Raise _, n') => h n'
    end.

Notation "'let*' x ':=' m 'in' k" := (bind m (fun x => k))
  (at level 10, x name, m at level 100, k at level 200).

#[global] Instance result_ret : MRet result := @Ok.
#[global] Instance result_bind : MBind result := fun A B k r => rbind r k.

(** One upstream record, and any dict built from it. *)
Abbreviation reading := (gmap string pyval).

(* ===================================================================== *)
(** * The program *)
(* ===================================================================== *)

(** [_smart_cache]: the batch of the last successful poll and when it
    was captured.  (Its two constant entries, [ttl_seconds] and
    [fetch_interval], take no part in what follows.) *)
Record smart_cache := {
  data : option (list reading);
  timestamp : option Q
}.

(** A JSON response: status code and body. *)
Record http_response := {
  status : Z;
  body : reading
}.

(** The pieces of an f-string: literal text and formatted fields. *)
Inductive msg_part :=
| Lit (s : string)
| Fmt0f (v : pyval)      (* {v:.0f} *)
| Fmt1f (v : pyval)      (* {v:.1f} *)
| FmtStr (v : pyval).    (* {v} *)

Module Alert.
Record t := {
  title : string;
  message : list msg_part;
  timestamp : pyval;
  sensor_type : string;
  severity : string;
  value : pyval;
  unit : string;
  sound : bool
}.
End Alert.

(** The body of the answer of [GET /api/alerts]. *)
Inductive alerts_response :=
| AlertsUnavailable
| AlertsOk (alerts : list Alert.t) (timestamp : pyval)
    (alert_count : nat) (should_alert : bool).

Module Point.
(** One entry of [historical_data]. *)
Record t := {
  value : pyval;
  timestamp : pyval
}.
End Point.

(** The part of the answer of [GET /api/sensor-analysis/<sensor_type>]
    that is computed from the cache.  ([status] and [analysis], which
    come from the status function and the AI service, both called under
    [try], are left out: nothing below depends on them.) *)
Inductive analysis_response :=
| AnalysisUnavailable
| AnalysisOk (key unit : string) (current_value : pyval)
    (historical_data : list Point.t) (timestamp : pyval)
    (raw_data : reading).

Section Greenhouse.

(** The wall clock: [clock n] is what the n-th read returns, in seconds. *)
Variable clock : nat -> Q.

(** [time.time()] *)
Definition time_time : M Q := fun n => (Ok (clock n), S n).

(** [datetime.now()], kept as seconds on the same clock. *)
Definition datetime_now : M Q := fun n => (Ok (clock n), S n).

(** ** Derived fields: [build_derived_from_reading] *)

(** The local helper [num(key, default)]. *)
Definition num (r : reading) (key : string) (dflt : pyval) : pyval :=
  try_except (f ← py_float (dict_get r key dflt); Ok (VFloat f)) dflt.

Definition temperature_of (r : reading) : result pyval :=
  let temp_b := num r "temperature_bmp280" VNone in
  let temp_d := num r "temperature_dht22" VNone in
  if negb (is_none temp_b) && negb (is_none temp_d) then
    s ← py_add temp_b temp_d;
    a ← py_truediv s (VReal 2);
    py_round1 a
  else if negb (is_none temp_b) then py_round1 temp_b
  else if negb (is_none temp_d) then py_round1 temp_d
  else Ok VNone.

(** [max(0, round(num(key, 0), 1))] *)
Definition gas_drop (r : reading) (key : string) : result pyval :=
  x ← py_round1 (num r key (VInt 0));
  py_max (VInt 0) x.

(** [round(num(key, 0), 1)] *)
Definition gas_baseline (r : reading) (key : string) : result pyval :=
  py_round1 (num r key (VInt 0)).

Definition light_intensity_of (r : reading) : result pyval :=
  let light_raw := num r "light_raw" VNone in
  if negb (is_none light_raw) then py_round0 light_raw
  else
    let light_percent := num r "light_percent" VNone in
    if negb (is_none light_percent) then
      x ← py_truediv light_percent (VReal 100);
      y ← py_mul x (VInt 4095);
      py_round0 y
    else Ok (VInt 0).

Definition isinstance_int_float (v : pyval) : bool :=
  match v with VBool _ | VInt _ | VFloat _ => true | _ => false end.

Definition isinstance_bool (v : pyval) : bool :=
  match v with VBool _ => true | _ => false end.

Definition flame_words : list string := ["yes"; "y"; "true"; "1"].

Definition flame_detected_of (r : reading) : result bool :=
  let flame_raw := num r "flame_raw" (VInt 4095) in
  let flame_detected_value := dict_get r "flame_detected" (VInt 0) in
  if isinstance_int_float flame_detected_value then
    Ok (truthy flame_detected_value)
  else if isinstance_bool flame_detected_value then
    Ok (truthy flame_detected_value)
  else
    match flame_detected_value with
    | VStr s => Ok (bool_decide (lower (strip s) ∈ flame_words))
    | _ => py_lt flame_raw (VInt 2000)
    end.

Definition flame_status_of (flame_detected : bool) : string :=
  if flame_detected then "Flame Detected" else "Flame Not Detected".

(** [round(400 + mq135_drop * 1.2, 1)] *)
Definition co2_level_of (mq135_drop : pyval) : result pyval :=
  x ← py_mul mq135_drop (VReal 1.2);
  y ← py_add (VInt 400) x;
  py_round1 y.

(** ["lo" if v <= a else ("hi" if v > b else "mid")] *)
Definition band3 (v : pyval) (a b : Z) (lo hi mid : string)
  : result pyval :=
  c ← py_le v (VInt a);
  if c : bool then Ok (VStr lo)
  else d ← py_gt v (VInt b); Ok (VStr (if d : bool then hi else mid)).

Definition build_derived_from_reading (r : reading) : M reading :=
  let* temperature := lift (temperature_of r) in
  let* mq135_drop := lift (gas_drop r "mq135_drop") in
  let* mq2_drop := lift (gas_drop r "mq2_drop") in
  let* mq7_drop := lift (gas_drop r "mq7_drop") in
  let* mq135_baseline := lift (gas_baseline r "mq135_baseline") in
  let* mq2_baseline := lift (gas_baseline r "mq2_baseline") in
  let* mq7_baseline := lift (gas_baseline r "mq7_baseline") in
  let* light_intensity := lift (light_intensity_of r) in
  let* flame_detected := lift (flame_detected_of r) in
  let flame_status := flame_status_of flame_detected in
  let* co2_level := lift (co2_level_of mq135_drop) in
  let* humidity := lift (py_round1 (num r "humidity" (VReal 0))) in
  let* pressure := lift (py_round1 (num r "pressure" (VReal 0))) in
  let* altitude := lift (py_round1 (num r "altitude" (VReal 0))) in
  let* soil_moisture := lift (py_round (num r "soil_moisture" (VInt 45))) in
  let* air_quality :=
    lift (band3 mq135_drop 200 500 "Good" "Poor" "Moderate") in
  let* flammable_gas :=
    lift (band3 mq2_drop 300 750 "Safe" "High" "Elevated") in
  let* co_level := lift (band3 mq7_drop 300 750 "Safe" "High" "Elevated") in
  let* now := time_time in
  ret (list_to_map
    [ ("temperature", temperature);
      ("humidity", humidity);
      ("co2_level", co2_level);
      ("light", light_intensity);
      ("light_raw", light_intensity);
      ("pressure", pressure);
      ("altitude", altitude);
      ("soil_moisture", soil_moisture);
      ("flame_detected", VBool flame_detected);
      ("flame_status", VStr flame_status);
      ("mq135_drop", mq135_drop);
      ("mq2_drop", mq2_drop);
      ("mq7_drop", mq7_drop);
      ("mq135_baseline", mq135_baseline);
      ("mq2_baseline", mq2_baseline);
      ("mq7_baseline", mq7_baseline);
      ("air_quality", air_quality);
      ("flammable_gas", flammable_gas);
      ("co_level", co_level);
      ("timestamp",
        dict_get r "timestamp" (dict_get r "_ts_num" (VReal now)));
      ("co2_air_quality",
        VDict (list_to_map
          [("co2", co2_level); ("air_quality", air_quality)]));
      ("pressure_altitude",
        VDict (list_to_map
          [("pressure", pressure); ("altitude", altitude)])) ]).

(** ** The fetcher: [fetch_apex_readings] *)

(** What the HTTP exchange, the gzip step and the JSON decoder hand to
    the normalisation code. *)
Inductive response_body :=
| GzipError
| NotJson
| Json (data : pyval).

Inductive upstream_response :=
| TransportError
| Status (code : Z) (body : response_body).

(** [datetime.strptime(s, "%Y-%m-%dT%H:%M:%S.%f").timestamp()] in the
    process's time zone; [None] when either call raises. *)
Variable strptime_timestamp : string -> option Q.

(** Whether [datetime.fromtimestamp(t)] returns (it raises outside the
    platform's range). *)
Variable fromtimestamp_ok : Q -> bool.

(** ** [list.sort(key=...)] *)

Section Sort.
Context {A : Type} (key : A -> pyval).

(** [before y x]: must [y] be moved in front of the earlier element
    [x]?  Ties keep their original order, also under [reverse=True]. *)
Definition before (reverse : bool) (y x : A) : result bool :=
  if reverse then py_lt (key x) (key y) else py_lt (key y) (key x).

Fixpoint insert_sorted (reverse : bool) (x : A) (l : list A)
  : result (list A) :=
  match l with
  | [] => Ok [x]
  | y :: l' =>
      c ← before reverse y x;
      if c : bool then r ← insert_sorted reverse x l'; Ok (y :: r)
      else Ok (x :: l)
  end.

Fixpoint list_sort (reverse : bool) (l : list A) : result (list A) :=
  match l with
  | [] => Ok []
  | x :: l' => s ← list_sort reverse l'; insert_sorted reverse x s
  end.
End Sort.

(** The three payload shapes: [{"items": [...]}], a bare list, a single
    object. *)
Definition payload_items (data : pyval) : option (list pyval) :=
  match data with
  | VDict d =>
      match d !! "items" with
      | Some (VList l) => Some l
      | _ => Some [data]
      end
  | VList l => Some l
  | _ => None
  end.

(** The fallback [time.time() - (idx * 10)]. *)
Definition fallback_timestamp (idx : nat) : M Q :=
  let* now := time_time in
  ret (now - inject_Z (Z.of_nat idx * 10))%Q.

Definition resolve_timestamp (idx : nat) (it : reading) : M Q :=
  let apex_ts_str := dict_get it "timestamp_reading" (VStr "") in
  if truthy apex_ts_str then
    match apex_ts_str with
    | VStr s =>
        match strptime_timestamp (remove_char "Z" s) with
        | Some t => ret t
        | None => fallback_timestamp idx
        end
    | _ => fallback_timestamp idx
    end
  else
    let* _ := fallback_timestamp idx in
    fallback_timestamp idx.

(** One turn of the loop over [enumerate(items)]; an item that is not an
    object makes [dict(it)] or [it.get] raise. *)
Definition normalize_item (idx : nat) (it : pyval) : M reading :=
  match it with
  | VDict d =>
      let* ts := resolve_timestamp idx d in
      let* pull := time_time in
      ret (<["_pull_time" := VReal pull]>
             (<["_ts_num" := VReal ts]> (<["timestamp" := VReal ts]> d)))
  | _ => raise TypeError
  end.

Fixpoint normalize_items (idx : nat) (items : list pyval)
  : M (list reading) :=
  match items with
  | [] => ret []
  | it :: rest =>
      let* x := normalize_item idx it in
      let* xs := normalize_items (S idx) rest in
      ret (x :: xs)
  end.

Definition ts_num (x : reading) : pyval := dict_get x "_ts_num" (VInt 0).

(** The log line about the three newest readings formats their
    timestamps with [datetime.fromtimestamp]. *)
Definition log_latest (normalized : list reading) : result unit :=
  match normalized with
  | a :: b :: c :: _ =>
      if forallb
           (fun x =>
              match as_number (dict_get x "timestamp" (VInt 0)) with
              | Some n =>
                  match n_float n with
                  | Fin t => fromtimestamp_ok t
                  | _ => false
                  end
              | None => false
              end) [a; b; c]
      then Ok tt else Raise ValueError
  | _ => Ok tt
  end.

Definition normalize_payload (data : pyval) : M (list reading) :=
  match payload_items data with
  | None => ret []
  | Some items =>
      let* normalized := normalize_items 0 items in
      let* sorted := lift (list_sort ts_num true normalized) in
      let* _ := lift (log_latest sorted) in
      ret sorted
  end.

(** Every failure is absorbed into an empty batch. *)
Definition fetch_apex_readings (resp : upstream_response)
  : M (list reading) :=
  match resp with
  | Status 200 (Json data) => catch (normalize_payload data) (ret [])
  | _ => ret []
  end.

(** ** The smart cache and its poller *)

(** [_smart_cache] at start-up. *)
Definition empty_cache : smart_cache :=
  {| data := None; timestamp := None |}.

Definition nonempty {A} (l : list A) : bool :=
  match l with [] => false | _ => true end.

(** One turn of the loop of [continuous_apex_poller]. *)
Definition poll_cycle (resp : upstream_response) (c : smart_cache)
  : M smart_cache :=
  catch
    (let* readings := fetch_apex_readings resp in
     if nonempty readings then
       let* now := datetime_now in
       ret {| data := Some readings; timestamp := Some now |}
     else ret c)
    (ret c).

(** The poller run over the responses of successive cycles. *)
Fixpoint continuous_apex_poller (resps : list upstream_response)
  (c : smart_cache) : M smart_cache :=
  match resps with
  | [] => ret c
  | resp :: rest =>
      let* c' := poll_cycle resp c in
      continuous_apex_poller rest c'
  end.

(** The format [{x:.0f}] of a finite float. *)
Definition fmt0f (x : Q) : string :=
  (if Qltb x 0 then "-" else "") +:+ pretty (Z.abs (round_half_even x)).

Definition get_cached_apex_or_fetch (c : smart_cache)
  : M (option (list reading) * string) :=
  match data c, timestamp c with
  | Some d, Some t =>
      let* now := datetime_now in
      let age := (now - t)%Q in
      if Qltb age 10 then ret (Some d, "cache_age_" +:+ fmt0f age +:+ "s")
      else ret (Some d, "cache_stale_" +:+ fmt0f age +:+ "s")
  | _, _ => ret (None, "no_data")
  end.

(** ** [GET /api/sensor-data] *)

(** [{k: v for k, v in latest.items() if not k.startswith("_")}] *)
Definition public_fields (latest : reading) : reading :=
  filter (fun kv => startswith "_" (fst kv) = false) latest.

Definition get_sensor_data (c : smart_cache) : M http_response :=
  let* got := get_cached_apex_or_fetch c in
  match got with
  | (Some (latest :: _), cache_status) =>
      let* derived := build_derived_from_reading latest in
      let merged := derived ∪ public_fields latest in
      ret {| status := 200;
             body := <["_data_source" := VStr "apex"]>
                       (<["_cache_status" := VStr cache_status]> merged) |}
  | _ =>
      ret {| status := 503;
             body := list_to_map
               [ ("error", VStr "APEX data not available yet");
                 ("message",
                   VStr "Waiting for APEX to respond. Please wait...");
                 ("_data_source", VStr "none") ] |}
  end.

(** ** [GET /api/alerts] *)

Definition mk_alert (current_data : reading) (title : string)
  (message : list msg_part) (sensor_type severity : string)
  (value : pyval) (unit : string) (sound : bool) : result Alert.t :=
  ts ← dict_item current_data "timestamp";
  Ok {| Alert.title := title; Alert.message := message;
        Alert.timestamp := ts; Alert.sensor_type := sensor_type;
        Alert.severity := severity; Alert.value := value;
        Alert.unit := unit; Alert.sound := sound |}.

Definition one (a : result Alert.t) : result (list Alert.t) :=
  x ← a; Ok [x].

Definition flame_rule (cd : reading) : result (list Alert.t) :=
  if py_eq_str (dict_get cd "flame_detected" VNone) "Yes" then
    one (mk_alert cd "🔥 FIRE HAZARD"
      [Lit "Flame or strong IR source detected. Inspect all heating equipment immediately!"]
      "flame" "critical" (dict_get cd "flame_raw" (VInt 0)) "raw" true)
  else Ok [].

Definition co_rule (cd : reading) : result (list Alert.t) :=
  let mq7_drop := dict_get cd "mq7_drop" (VInt 0) in
  c ← py_gt mq7_drop (VInt 750);
  if c : bool then
    one (mk_alert cd "⚠️ CO CRITICAL"
      [Lit "Carbon monoxide at "; Fmt0f mq7_drop;
       Lit " ppm exceeds safe levels (>750). Ventilate immediately!"]
      "carbon_monoxide" "critical" mq7_drop "ppm" true)
  else
    d ← py_gt mq7_drop (VInt 300);
    if d : bool then
      one (mk_alert cd "CO Elevated"
        [Lit "Carbon monoxide at "; Fmt0f mq7_drop;
         Lit " ppm. Monitor heating equipment closely."]
        "carbon_monoxide" "high" mq7_drop "ppm" true)
    else Ok [].

Definition gas_rule (cd : reading) : result (list Alert.t) :=
  let mq2_drop := dict_get cd "mq2_drop" (VInt 0) in
  c ← py_gt mq2_drop (VInt 750);
  if c : bool then
    one (mk_alert cd "⚠️ GAS CRITICAL"
      [Lit "Flammable gas at "; Fmt0f mq2_drop;
       Lit " ppm (>750). Check for leaks immediately!"]
      "flammable_gas" "critical" mq2_drop "ppm" true)
  else
    d ← py_gt mq2_drop (VInt 300);
    if d : bool then
      one (mk_alert cd "Gas Elevated"
        [Lit "Flammable gas at "; Fmt0f mq2_drop;
         Lit " ppm. Increase ventilation."]
        "flammable_gas" "high" mq2_drop "ppm" true)
    else Ok [].

(** [a or b] on two comparisons, the second evaluated only if needed. *)
Definition or_else (a : result bool) (b : result bool) : result bool :=
  c ← a; if c : bool then Ok true else b.

Definition temperature_rule (cd : reading) : result (list Alert.t) :=
  b ← dict_item cd "temperature_bmp280";
  d ← dict_item cd "temperature_dht22";
  s ← py_add b d;
  avg_temp ← py_truediv s (VInt 2);
  c1 ← py_lt avg_temp (VInt 18);
  if c1 : bool then
    one (mk_alert cd "Temperature Critical Low"
      [Lit "Temperature at "; Fmt1f avg_temp;
       Lit "°C is critically low (<18°C). Plants may suffer cold damage."]
      "temperature" "high" avg_temp "°C" true)
  else
    c2 ← py_gt avg_temp (VInt 30);
    if c2 : bool then
      one (mk_alert cd "Temperature Critical High"
        [Lit "Temperature at "; Fmt1f avg_temp;
         Lit "°C is dangerously high (>30°C). Risk of heat stress."]
        "temperature" "high" avg_temp "°C" true)
    else
      c3 ← or_else (py_lt avg_temp (VInt 20)) (py_gt avg_temp (VInt 27));
      if c3 : bool then
        one (mk_alert cd "Temperature Outside Optimal"
          [Lit "Temperature at "; Fmt1f avg_temp;
           Lit "°C is outside optimal range (20-27°C)."]
          "temperature" "medium" avg_temp "°C" false)
      else Ok [].

Definition humidity_rule (cd : reading) : result (list Alert.t) :=
  let humidity := dict_get cd "humidity" (VInt 0) in
  c1 ← py_lt humidity (VInt 45);
  if c1 : bool then
    one (mk_alert cd "Humidity Critical Low"
      [Lit "Humidity at "; FmtStr humidity;
       Lit "% is critically low (<45%). Too dry - recommend shading to reduce evaporation."]
      "humidity" "high" humidity "%" true)
  else
    c2 ← py_gt humidity (VInt 80);
    if c2 : bool then
      one (mk_alert cd "Humidity Critical High"
        [Lit "Humidity at "; FmtStr humidity;
         Lit "% is dangerously high (>80%). Risk of fungal growth - run all ventilation and open vents!"]
        "humidity" "high" humidity "%" true)
    else
      c3 ← or_else (py_lt humidity (VInt 45)) (py_gt humidity (VInt 70));
      if c3 : bool then
        one (mk_alert cd "Humidity Outside Optimal"
          [Lit "Humidity at "; FmtStr humidity;
           Lit "% is outside optimal range (45-70%). Adjust vents/fans."]
          "humidity" "medium" humidity "%" false)
      else Ok [].

Definition air_quality_rule (cd : reading) : result (list Alert.t) :=
  let mq135_drop := dict_get cd "mq135_drop" (VInt 0) in
  c ← py_gt mq135_drop (VInt 500);
  if c : bool then
    one (mk_alert cd "Air Quality Poor"
      [Lit "Air quality at "; Fmt0f mq135_drop;
       Lit " ppm indicates poor conditions (>500). Increase ventilation."]
      "air_quality" "medium" mq135_drop "ppm" true)
  else
    d ← py_gt mq135_drop (VInt 200);
    if d : bool then
      one (mk_alert cd "Air Quality Moderate"
        [Lit "Air quality at "; Fmt0f mq135_drop;
         Lit " ppm is outside optimal range (>200)."]
        "air_quality" "low" mq135_drop "ppm" false)
    else Ok [].

(** The rules in the order the handler runs them; each appends to
    [alerts]. *)
Definition evaluate_rules (cd : reading) : result (list Alert.t) :=
  a1 ← flame_rule cd;
  a2 ← co_rule cd;
  a3 ← gas_rule cd;
  a4 ← temperature_rule cd;
  a5 ← humidity_rule cd;
  a6 ← air_quality_rule cd;
  Ok (a1 ++ a2 ++ a3 ++ a4 ++ a5 ++ a6)%list.

Definition get_alerts (c : smart_cache) : M alerts_response :=
  let* got := get_cached_apex_or_fetch c in
  match fst got with
  | Some (latest :: _) =>
      let* derived := build_derived_from_reading latest in
      let current_data := derived ∪ latest in
      let* alerts := lift (evaluate_rules current_data) in
      let should_alert := existsb Alert.sound alerts in
      let* ts := lift (dict_item current_data "timestamp") in
      ret (AlertsOk alerts ts (length alerts) should_alert)
  | _ => ret AlertsUnavailable
  end.

(** ** [GET /api/sensor-analysis/<sensor_type>] *)

(** [data_points.get(time_range, 30)] *)
Definition data_points (time_range : string) : nat :=
  if String.eqb time_range "seconds" then 60
  else if String.eqb time_range "minutes" then 60
  else if String.eqb time_range "hours" then 24
  else if String.eqb time_range "days" then 30
  else if String.eqb time_range "weeks" then 52
  else if String.eqb time_range "months" then 12
  else if String.eqb time_range "years" then 5
  else 30%nat.

(** The field and the unit a requested sensor name stands for, chosen by
    substring tests on the lower-cased name. *)
Definition sensor_key (sensor_type : string) : string * string :=
  let st := lower sensor_type in
  let has w := contains w st in
  if has "temp" then ("temperature", "°C")
  else if has "humid" then ("humidity", "%")
  else if has "co2" || has "co₂" || has "air quality" || has "mq135" then
    if has "mq135" || has "air quality" then ("mq135_drop", "ppm")
    else ("co2_level", "ppm")
  else if has "light" then ("light", "lux")
  else if has "soil" then ("soil_moisture", "%")
  else if has "flame" then ("flame_detected", "")
  else if has "mq2" || has "smoke" || has "lpg" || has "flammable" then
    ("mq2_drop", "ppm")
  else if has "mq7" || (has "co" && negb (has "co2"))
          || has "carbon monoxide" then
    ("mq7_drop", "ppm")
  else if has "pressure" && has "altitude" then ("pressure", "hPa")
  else if has "pressure" then ("pressure", "hPa")
  else if has "altitude" then ("altitude", "m")
  else ("temperature", "°C").

(** [float(v)] as a value *)
Definition float_of (v : pyval) : result pyval :=
  f ← py_float v; Ok (VFloat f).

(** The local helper [extract_value_for_sensor]: a float, or [None]
    (also when a conversion raises). *)
Definition extract_value_for_sensor (rd : reading) (key : string) : pyval :=
  try_except
    (if String.eqb key "temperature" then
       let a := dict_get rd "temperature" VNone in
       if negb (is_none a) then float_of a
       else
         let b1 := dict_get rd "temperature_bmp280" VNone in
         let b2 := dict_get rd "temperature_dht22" VNone in
         if negb (is_none b1) && negb (is_none b2) then
           x ← float_of b1;
           y ← float_of b2;
           s ← py_add x y;
           py_truediv s (VReal 2)
         else if negb (is_none b1) then float_of b1
         else if negb (is_none b2) then float_of b2
         else Ok VNone
     else if String.eqb key "light" then
       let lr := dict_get rd "light_raw" VNone in
       let l := dict_get rd "light" VNone in
       let lp := dict_get rd "light_percent" VNone in
       if negb (is_none lr) then float_of lr
       else if negb (is_none l) then float_of l
       else if negb (is_none lp) then
         x ← float_of lp;
         y ← py_mul x (VReal 4095);
         py_truediv y (VReal 100)
       else Ok VNone
     else
       if dict_has rd key then
         x ← dict_item rd key; float_of x
       else if dict_has rd (key +:+ "_raw") then
         x ← dict_item rd (key +:+ "_raw"); float_of x
       else Ok VNone)
    VNone.

(** The loop that builds [historical_data] from [historical_raw]. *)
Fixpoint history_points (key : string) (rs : list reading)
  : M (list Point.t) :=
  match rs with
  | [] => ret []
  | r :: rest =>
      let* now := time_time in
      let ts := dict_get r "timestamp" (dict_get r "_ts_num" (VReal now)) in
      let val := extract_value_for_sensor r key in
      let val :=
        if is_none val
        then try_except (float_of (dict_get r key (VReal 0))) (VReal 0)
        else val in
      let* ps := history_points key rest in
      ret ({| Point.value := val; Point.timestamp := ts |} :: ps)
  end.

(** The two made-up points that stand in for a series too short to
    chart. *)
Definition minimal_dataset (current_value : pyval) : M (list Point.t) :=
  let* now_ts := time_time in
  let val := if is_none current_value then VReal 0 else current_value in
  ret [ {| Point.value := val; Point.timestamp := VReal (now_ts - 10) |};
        {| Point.value := val; Point.timestamp := VReal now_ts |} ].

Definition get_sensor_analysis (sensor_type time_range : string)
  (c : smart_cache) : M analysis_response :=
  let num_points := data_points time_range in
  let* got := get_cached_apex_or_fetch c in
  match got with
  | (Some ((latest :: _) as readings), cache_status) =>
      let* derived := build_derived_from_reading latest in
      let current_data :=
        <["_cache_status" := VStr cache_status]>
          (<["_data_source" := VStr "apex"]>
             (derived ∪ public_fields latest)) in
      let historical_raw := take num_points readings in
      let '(key, unit) := sensor_key sensor_type in
      let current_value := extract_value_for_sensor current_data key in
      let current_value :=
        if is_none current_value && dict_has current_data key
        then try_except (float_of (dict_get current_data key VNone))
               (VReal 0)
        else current_value in
      let* built := history_points key historical_raw in
      let* sorted := lift (list_sort Point.timestamp false built) in
      let* historical_data :=
        if (length sorted <? 2)%nat then minimal_dataset current_value
        else ret sorted in
      let* now := time_time in
      ret (AnalysisOk key unit current_value historical_data
             (dict_get current_data "timestamp" (VReal now)) current_data)
  | _ => ret AnalysisUnavailable
  end.

End Greenhouse.

(* ===================================================================== *)
(** * Status helpers, report figures, items and the connection pool *)
(* ===================================================================== *)

(** [a and b] on two comparisons, the second evaluated only if needed. *)
Definition and_then (a : result bool) (b : result bool) : result bool :=
  c ← a; if c : bool then b else Ok false.

(** ** The status helpers *)

Definition _get_temperature_status (value : pyval) : result string :=
  c ← and_then (py_le (VInt 20) value) (py_le value (VInt 27));
  if c : bool then Ok "Optimal"
  else
    d ← or_else
          (and_then (py_le (VInt 18) value) (py_lt value (VInt 20)))
          (and_then (py_lt (VInt 27) value) (py_le value (VInt 30)));
    Ok (if d : bool then "Acceptable" else "Critical").

Definition _get_humidity_status (value : pyval) : result string :=
  c ← and_then (py_le (VInt 45) value) (py_le value (VInt 70));
  if c : bool then Ok "Optimal"
  else
    d ← and_then (py_le (VInt 71) value) (py_le value (VInt 80));
    Ok (if d : bool then "Acceptable" else "Critical").

Definition _get_co2_status (value : pyval) : result string :=
  c ← and_then (py_le (VInt 300) value) (py_le value (VInt 800));
  if c : bool then Ok "Good"
  else
    d ← and_then (py_lt (VInt 800) value) (py_le value (VInt 1500));
    Ok (if d : bool then "Acceptable" else "High").

Definition _get_light_status (value : pyval) : result string :=
  c1 ← py_le value (VInt 300);
  if c1 : bool then Ok "Dark Night"
  else
    c2 ← py_le value (VInt 819);
    if c2 : bool then Ok "Low Light"
    else
      c3 ← py_le value (VInt 1638);
      if c3 : bool then Ok "Dim Indoor"
      else
        c4 ← py_le value (VInt 2457);
        Ok (if c4 : bool then "Moderate" else "Bright").

Definition _get_soil_moisture_status (value : pyval) : result string :=
  c ← and_then (py_le (VInt 40) value) (py_le value (VInt 60));
  if c : bool then Ok "Optimal"
  else
    d ← or_else
          (and_then (py_le (VInt 30) value) (py_lt value (VInt 40)))
          (and_then (py_lt (VInt 60) value) (py_le value (VInt 70)));
    Ok (if d : bool then "Acceptable" else "Critical").

(** ** The status of [get_sensor_analysis] *)

(** ["lo" if v <= a else ("hi" if v > b else "mid")], as a string *)
Definition band_label (v : pyval) (a b : Z) (lo hi mid : string)
  : result string :=
  c ← py_le v (VInt a);
  if c : bool then Ok lo
  else d ← py_gt v (VInt b); Ok (if d : bool then hi else mid).

(** A status text: a label, or the f-string of the altitude branch. *)
Definition label (r : result string) : result (list msg_part) :=
  s ← r; Ok [Lit s].

(** ["Normal" if 990 <= v <= 1030 else ("Low" if v < 990 else "High")] *)
Definition pressure_status (v : pyval) : result string :=
  c ← and_then (py_le (VInt 990) v) (py_le v (VInt 1030));
  if c : bool then Ok "Normal"
  else d ← py_lt v (VInt 990); Ok (if d : bool then "Low" else "High").

(** [f"{v:.1f}m"]: only a number has the format [.1f]. *)
Definition altitude_status (v : pyval) : result (list msg_part) :=
  match as_number v with
  | Some _ => Ok [Fmt1f v; Lit "m"]
  | None => match v with VStr _ => Raise ValueError | _ => Raise TypeError end
  end.

(** The [status_fn] picked together with the key, by the same tests as
    [sensor_key]. *)
Definition status_fn (sensor_type : string) (v : pyval)
  : result (list msg_part) :=
  let st := lower sensor_type in
  let has w := contains w st in
  if has "temp" then label (_get_temperature_status v)
  else if has "humid" then label (_get_humidity_status v)
  else if has "co2" || has "co₂" || has "air quality" || has "mq135" then
    if has "mq135" || has "air quality"
    then label (band_label v 200 500 "Good" "Poor" "Moderate")
    else label (_get_co2_status v)
  else if has "light" then label (_get_light_status v)
  else if has "soil" then label (_get_soil_moisture_status v)
  else if has "flame" then
    Ok [Lit (if truthy v then "Flame Detected" else "Flame Not Detected")]
  else if has "mq2" || has "smoke" || has "lpg" || has "flammable" then
    label (band_label v 300 750 "Safe" "High" "Elevated")
  else if has "mq7" || (has "co" && negb (has "co2"))
          || has "carbon monoxide" then
    label (band_label v 300 750 "Safe" "High" "Elevated")
  else if has "pressure" && has "altitude" then label (pressure_status v)
  else if has "pressure" then label (pressure_status v)
  else if has "altitude" then altitude_status v
  else label (_get_temperature_status v).

(** The [status] entry of the answer: ['Unknown'] without a value or
    when the status function raises. *)
Definition analysis_status (sensor_type : string) (current_value : pyval)
  : list msg_part :=
  if negb (is_none current_value)
  then try_except (status_fn sensor_type current_value) [Lit "Unknown"]
  else [Lit "Unknown"].

(** ** The figures of the report: [export_greenhouse_report] *)

(** [(sensor_data.get('temperature_bmp280', 0)
      + sensor_data.get('temperature_dht22', 0)) / 2] *)
Definition temp_avg_of (sensor_data : reading) : result pyval :=
  s ← py_add (dict_get sensor_data "temperature_bmp280" (VInt 0))
             (dict_get sensor_data "temperature_dht22" (VInt 0));
  py_truediv s (VInt 2).

Definition analysis_entry (value : pyval) (status : pyval) (unit : string)
  : pyval :=
  VDict (list_to_map
    [("value", value); ("status", status); ("unit", VStr unit)]).

(** The dict [all_analysis] of the report. *)
Definition all_analysis (sensor_data : reading) : result reading :=
  temp_avg ← temp_avg_of sensor_data;
  temp_status ← _get_temperature_status temp_avg;
  let humidity := dict_get sensor_data "humidity" (VInt 0) in
  humidity_status ← _get_humidity_status humidity;
  let mq135_drop := dict_get sensor_data "mq135_drop" (VInt 0) in
  air_status ← band_label mq135_drop 200 500 "Good" "Poor" "Moderate";
  let light := dict_get sensor_data "light" (VInt 0) in
  light_status ← _get_light_status light;
  Ok (list_to_map
    [ ("temperature", analysis_entry temp_avg (VStr temp_status) "°C");
      ("humidity", analysis_entry humidity (VStr humidity_status) "%");
      ("air_quality", analysis_entry mq135_drop (VStr air_status) "ppm");
      ("light", analysis_entry light (VStr light_status) "lux") ]).

(** [analysis.get(name, {}).get('status', '')] *)
Definition status_entry (analysis : reading) (name : string)
  : result pyval :=
  match dict_get analysis name (VDict ∅) with
  | VDict d => Ok (dict_get d "status" (VStr ""))
  | _ => Raise AttributeError
  end.

Definition _calculate_health_score (analysis : reading) : result Z :=
  let score := 100 in
  temp_status ← status_entry analysis "temperature";
  let score :=
    if py_eq_str temp_status "Critical" then score - 30
    else if py_eq_str temp_status "Acceptable" then score - 10
    else score in
  humidity_status ← status_entry analysis "humidity";
  let score :=
    if py_eq_str humidity_status "Critical" then score - 30
    else if py_eq_str humidity_status "Acceptable" then score - 10
    else score in
  air_status ← status_entry analysis "air_quality";
  let score :=
    if py_eq_str air_status "Poor" then score - 20
    else if py_eq_str air_status "Moderate" then score - 10
    else score in
  light_status ← status_entry analysis "light";
  let score :=
    if py_eq_str light_status "Dark Night"
       || py_eq_str light_status "Low Light" then score - 15
    else if py_eq_str light_status "Dim Indoor" then score - 5
    else score in
  Ok (Z.max 0 (Z.min 100 score)).

(** ** [_generate_alert_summary] *)

Module Summary.
Record alert := {
  level : string;
  type : string;
  message : list msg_part
}.

Record t := {
  total_alerts : nat;
  critical_count : nat;
  warning_count : nat;
  alerts : list alert
}.
End Summary.

Definition summary_alert (level type : string) (message : list msg_part)
  : list Summary.alert :=
  [ {| Summary.level := level; Summary.type := type;
       Summary.message := message |} ].

Definition summary_temperature (sensor_data : reading)
  : result (list Summary.alert) :=
  temp_avg ← temp_avg_of sensor_data;
  c1 ← py_lt temp_avg (VInt 18);
  if c1 : bool then
    Ok (summary_alert "CRITICAL" "Temperature"
          [Lit "Temperature too low: "; Fmt1f temp_avg; Lit "°C"])
  else
    c2 ← py_gt temp_avg (VInt 30);
    if c2 : bool then
      Ok (summary_alert "CRITICAL" "Temperature"
            [Lit "Temperature too high: "; Fmt1f temp_avg; Lit "°C"])
    else
      c3 ← or_else (py_lt temp_avg (VInt 20)) (py_gt temp_avg (VInt 27));
      if c3 : bool then
        Ok (summary_alert "WARNING" "Temperature"
              [Lit "Temperature suboptimal: "; Fmt1f temp_avg; Lit "°C"])
      else Ok [].

Definition summary_humidity (sensor_data : reading)
  : result (list Summary.alert) :=
  let humidity := dict_get sensor_data "humidity" (VInt 0) in
  c1 ← py_lt humidity (VInt 45);
  if c1 : bool then
    Ok (summary_alert "CRITICAL" "Humidity"
          [Lit "Too dry: "; FmtStr humidity; Lit "% - Add shading"])
  else
    c2 ← py_gt humidity (VInt 80);
    if c2 : bool then
      Ok (summary_alert "CRITICAL" "Humidity"
            [Lit "Too humid: "; FmtStr humidity; Lit "% - Run ventilation"])
    else
      c3 ← py_gt humidity (VInt 70);
      if c3 : bool then
        Ok (summary_alert "WARNING" "Humidity"
              [Lit "Slightly high: "; FmtStr humidity; Lit "%"])
      else Ok [].

Definition summary_air_quality (sensor_data : reading)
  : result (list Summary.alert) :=
  let mq135 := dict_get sensor_data "mq135_drop" (VInt 0) in
  c ← py_gt mq135 (VInt 500);
  if c : bool then
    Ok (summary_alert "WARNING" "Air Quality"
          [Lit "Poor air quality: "; Fmt0f mq135; Lit " PPM"])
  else
    d ← py_gt mq135 (VInt 200);
    if d : bool then
      Ok (summary_alert "INFO" "Air Quality"
            [Lit "Moderate air quality: "; Fmt0f mq135; Lit " PPM"])
    else Ok [].

Definition summary_gas (sensor_data : reading)
  : result (list Summary.alert) :=
  let mq2 := dict_get sensor_data "mq2_drop" (VInt 0) in
  c ← py_gt mq2 (VInt 750);
  if c : bool then
    Ok (summary_alert "CRITICAL" "Flammable Gas"
          [Lit "High gas level: "; Fmt0f mq2; Lit " PPM"])
  else
    d ← py_gt mq2 (VInt 300);
    if d : bool then
      Ok (summary_alert "WARNING" "Flammable Gas"
            [Lit "Elevated gas: "; Fmt0f mq2; Lit " PPM"])
    else Ok [].

Definition summary_co (sensor_data : reading)
  : result (list Summary.alert) :=
  let mq7 := dict_get sensor_data "mq7_drop" (VInt 0) in
  c ← py_gt mq7 (VInt 750);
  if c : bool then
    Ok (summary_alert "CRITICAL" "Carbon Monoxide"
          [Lit "High CO: "; Fmt0f mq7; Lit " PPM"])
  else
    d ← py_gt mq7 (VInt 300);
    if d : bool then
      Ok (summary_alert "WARNING" "Carbon Monoxide"
            [Lit "Elevated CO: "; Fmt0f mq7; Lit " PPM"])
    else Ok [].

Definition summary_flame (sensor_data : reading) : list Summary.alert :=
  if truthy (dict_get sensor_data "flame_detected" VNone)
  then summary_alert "CRITICAL" "FIRE" [Lit "⚠️ FIRE DETECTED"]
  else [].

(** [sum(1 for a in alerts if a['level'] == l)] *)
Definition count_level (l : string) (alerts : list Summary.alert) : nat :=
  length (List.filter (fun a => String.eqb (Summary.level a) l) alerts).

(** The checks in the order the function runs them; each appends to
    [alerts]. *)
Definition _generate_alert_summary (sensor_data : reading)
  : result Summary.t :=
  a1 ← summary_temperature sensor_data;
  a2 ← summary_humidity sensor_data;
  a3 ← summary_air_quality sensor_data;
  a4 ← summary_gas sensor_data;
  a5 ← summary_co sensor_data;
  let alerts := (a1 ++ a2 ++ a3 ++ a4 ++ a5 ++ summary_flame sensor_data)%list in
  Ok {| Summary.total_alerts := length alerts;
        Summary.critical_count := count_level "CRITICAL" alerts;
        Summary.warning_count := count_level "WARNING" alerts;
        Summary.alerts := alerts |}.

(** ** The item list: [get_item] and [add_item] *)

(** [items] at start-up. *)
Definition initial_items : list pyval :=
  [ VDict (list_to_map
      [ ("id", VInt 1); ("name", VStr "Item 1");
        ("description", VStr "Description for item 1") ]);
    VDict (list_to_map
      [ ("id", VInt 2); ("name", VStr "Item 2");
        ("description", VStr "Description for item 2") ]) ].

(** [v == z] for an [int] [z] *)
Definition py_eq_int (v : pyval) (z : Z) : bool :=
  match as_number v with
  | Some n => n_eq n (NInt z)
  | None => false
  end.

(** ['id' in v]: a key of a dict, an element of a list, a substring of a
    string; nothing else can be searched. *)
Definition has_id (v : pyval) : result bool :=
  match v with
  | VDict d => Ok (dict_has d "id")
  | VList l => Ok (existsb (fun x => py_eq_str x "id") l)
  | VStr s => Ok (contains "id" s)
  | _ => Raise TypeError
  end.

(** [v['id']] *)
Definition get_id (v : pyval) : result pyval :=
  match v with
  | VDict d => dict_item d "id"
  | _ => Raise TypeError
  end.

(** [v['id'] = x], returning the updated object *)
Definition set_id (v : pyval) (x : pyval) : result pyval :=
  match v with
  | VDict d => Ok (VDict (<["id" := x]> d))
  | _ => Raise TypeError
  end.

(** [next((item for item in items if item['id'] == item_id), None)] *)
Fixpoint find_item (item_id : Z) (items : list pyval)
  : result (option pyval) :=
  match items with
  | [] => Ok None
  | item :: rest =>
      v ← get_id item;
      if py_eq_int v item_id then Ok (Some item)
      else find_item item_id rest
  end.

Definition item_not_found : pyval :=
  VDict {[ "error" := VStr "Item not found" ]}.

(** The status code and the body of the answer. *)
Definition get_item (item_id : Z) (items : list pyval)
  : result (Z * pyval) :=
  item ← find_item item_id items;
  match item with
  | Some x => if truthy x then Ok (200, x) else Ok (404, item_not_found)
  | None => Ok (404, item_not_found)
  end.

(** The list after the call, and the answer. *)
Definition add_item (new_item : pyval) (items : list pyval)
  : result (list pyval * (Z * pyval)) :=
  c ← has_id new_item;
  new_item ←
    (if c : bool then Ok new_item
     else set_id new_item (VInt (Z.of_nat (length items) + 1)));
  Ok ((items ++ [new_item])%list, (201, new_item)).

(** ** The connection pool *)

(** An [HTTPSConnection]: how it was made, and which object it is (the
    n-th connection the process created). *)
Record connection := {
  conn_host : string;
  conn_timeout : Z;
  conn_blocksize : Z;
  conn_serial : nat
}.

(** [_apex_connection_pool], keyed by host name, and the number of
    connections created so far. *)
Record pool_state := {
  pool : gmap string connection;
  created : nat
}.

(** [http.client.HTTPSConnection(host, timeout=..., blocksize=...)] *)
Definition new_connection (host : string) (timeout blocksize : Z)
  (s : pool_state) : connection * pool_state :=
  ({| conn_host := host; conn_timeout := timeout;
      conn_blocksize := blocksize; conn_serial := created s |},
   {| pool := pool s; created := S (created s) |}).

(** Takes the host name of the URL. *)
Definition get_apex_connection (host : string) (s : pool_state)
  : connection * pool_state :=
  match pool s !! host with
  | Some c => (c, s)
  | None =>
      let '(c, s') := new_connection host 5 8192 s in
      (c, {| pool := <[host := c]> (pool s'); created := created s' |})
  end.

(** [if host in pool: close it; del pool[host]] *)
Definition drop_connection (host : string) (s : pool_state) : pool_state :=
  {| pool := delete host (pool s); created := created s |}.

Section Pool.

Variable clock : nat -> Q.
Variable strptime_timestamp : string -> option Q.
Variable fromtimestamp_ok : Q -> bool.

(** What a [GET] sent over a connection brings back. *)
Variable exchange : connection -> upstream_response.

(** The code of [fetch_apex_readings] after [getresponse()]: an
    exception drops the pooled connection on its way to the empty
    batch, the other failures leave the pool alone. *)
Definition read_response (host : string) (code : Z) (body : response_body)
  (s : pool_state) : M (list reading * pool_state) :=
  if code =? 200 then
    match body with
    | GzipError => ret ([], s)
    | NotJson => ret ([], drop_connection host s)
    | Json data =>
        catch
          (let* normalized :=
             normalize_payload clock strptime_timestamp fromtimestamp_ok
               data in
           ret (normalized, s))
          (ret ([], drop_connection host s))
    end
  else ret ([], s).

(** [fetch_apex_readings] with its connection handling: the request
    over the pooled connection, and one retry over a fresh one. *)
Definition fetch_through_pool (host : string) (timeout : Z)
  (s : pool_state) : M (list reading * pool_state) :=
  let '(conn, s1) := get_apex_connection host s in
  match exchange conn with
  | Status code body => read_response host code body s1
  | TransportError =>
      let '(conn, s2) :=
        new_connection host timeout 8192 (drop_connection host s1) in
      match exchange conn with
      | Status code body => read_response host code body s2
      | TransportError => ret ([], drop_connection host s2)
      end
  end.

End Pool.

(** ** [GET /api/sensor-analysis/<sensor_type>/ai] *)

(** The answer: 503 without data, 200 with the text of the AI service,
    500 when anything raised. *)
Inductive ai_response :=
| AiUnavailable
| AiOk (analysis : string) (timestamp : Q) (sensor_type : string)
| AiFailed.

(** The current value, the unit and the status handed to the AI
    service, chosen by substring tests on the lower-cased name. *)
Definition ai_current (st : string) (sensor_data : reading)
  : result (pyval * string * string) :=
  let has w := contains w st in
  if has "temp" then
    let current_value := dict_get sensor_data "temperature" (VInt 0) in
    status ← _get_temperature_status current_value;
    Ok (current_value, "°C", status)
  else if has "humid" then
    let current_value := dict_get sensor_data "humidity" (VInt 0) in
    status ← _get_humidity_status current_value;
    Ok (current_value, "%", status)
  else if has "light" then
    let current_value := dict_get sensor_data "light" (VInt 0) in
    status ← _get_light_status current_value;
    Ok (current_value, "lux", status)
  else if has "co2" || has "air" || has "mq135" then
    let current_value := dict_get sensor_data "mq135_drop" (VInt 0) in
    status ← band_label current_value 200 500 "Good" "Poor" "Moderate";
    Ok (current_value, "ppm", status)
  else if has "pressure" then
    Ok (dict_get sensor_data "pressure" (VInt 0), "hPa", "Normal")
  else Ok (VInt 0, "", "Unknown").

(** One turn of the loop that collects [historical_values]. *)
Definition ai_history_value (st : string) (r : reading) : pyval :=
  let has w := contains w st in
  if has "temp" then dict_get r "temperature" (VInt 0)
  else if has "humid" then dict_get r "humidity" (VInt 0)
  else if has "light" then dict_get r "light" (VInt 0)
  else if has "co2" || has "air" then dict_get r "mq135_drop" (VInt 0)
  else if has "pressure" then dict_get r "pressure" (VInt 0)
  else VInt 0.

Section Ai.

Variable clock : nat -> Q.

(** [get_gemini_analysis(sensor_type, value, unit, status, history)] of
    the AI service: a text, or an exception. *)
Variable get_gemini_analysis :
  string -> pyval -> string -> string -> list pyval -> result string.

Definition get_sensor_ai_only (sensor_type : string) (c : smart_cache)
  : M ai_response :=
  catch
    (let* got := get_cached_apex_or_fetch clock c in
     match fst got with
     | Some ((latest :: _) as readings) =>
         let* derived := build_derived_from_reading clock latest in
         let sensor_data := derived ∪ latest in
         let st := lower sensor_type in
         let* current := lift (ai_current st sensor_data) in
         let '(current_value, unit, status) := current in
         let historical_values :=
           map (ai_history_value st) (take 10 readings) in
         let* analysis_text :=
           lift (get_gemini_analysis sensor_type current_value unit status
                   historical_values) in
         let* now := time_time clock in
         ret (AiOk analysis_text now sensor_type)
     | _ => ret AiUnavailable
     end)
    (ret AiFailed).

End Ai.

(* ===================================================================== *)
(** * Sample inputs *)
(* ===================================================================== *)

(** A clock that advances one second per read, starting at [1000]. *)
Definition sample_clock (n : nat) : Q := inject_Z (1000 + Z.of_nat n).

(** A [strptime] that knows one timestamp: its value is the epoch time
    of that instant in UTC. *)
Definition sample_strptime (s : string) : option Q :=
  if String.eqb s "2025-10-29T15:21:22.971802"
  then Some (1761751282971802 # 1000000)%Q
  else None.

Definition sample_fromtimestamp_ok (t : Q) : bool := true.

(** A healthy reading, as the fetcher leaves it in a batch, in which the
    flame sensor reports a flame. *)
Definition flame_reading : reading :=
  list_to_map
    [ ("timestamp_reading", VStr "2025-10-29T15:21:22.971802Z");
      ("temperature_bmp280", VReal 24.1);
      ("temperature_dht22", VReal 23.9);
      ("humidity", VReal 55);
      ("flame_detected", VInt 1);
      ("flame_raw", VInt 120);
      ("timestamp", VReal (1761751282971802 # 1000000));
      ("_ts_num", VReal (1761751282971802 # 1000000));
      ("_pull_time", VReal 1000) ].

(** A reading whose soil moisture is the string ["nan"]. *)
Definition nan_soil_reading : reading :=
  list_to_map
    [ ("temperature_bmp280", VReal 24.1);
      ("soil_moisture", VStr "nan") ].

(** A reading with a low raw flame value and no [flame_detected]. *)
Definition low_flame_raw_reading : reading :=
  {[ "flame_raw" := VInt 100 ]}.

(** The same, with an explicit JSON [null] for [flame_detected]. *)
Definition null_flame_reading : reading :=
  list_to_map [ ("flame_raw", VInt 100); ("flame_detected", VNone) ].

(** U+00A0, the no-break space, in UTF-8. *)
Definition nbsp : string :=
  String (ascii_of_N 194) (String (ascii_of_N 160) EmptyString).

(** U+001C, the file separator: white space for [str.strip], not for
    [float]. *)
Definition fs : string := String (ascii_of_N 28) EmptyString.

(** A low raw flame value next to a text that is none of the four
    words. *)
Definition off_flame_reading : reading :=
  list_to_map [ ("flame_raw", VInt 100); ("flame_detected", VStr "off") ].

(** A high raw flame value next to the word "yes", in capitals and
    padded with a space and a no-break space. *)
Definition yes_flame_reading : reading :=
  list_to_map
    [ ("flame_raw", VInt 4000);
      ("flame_detected", VStr (" YES" +:+ nbsp)) ].

Definition gas_reading : reading :=
  list_to_map
    [ ("mq135_drop", VReal (-3.2));
      ("mq2_drop", VStr "812.34");
      ("mq7_drop", VInt 0);
      ("mq135_baseline", VReal (-1.25));
      ("mq2_baseline", VInt 400) ].

(** Gas values that sit next to a rounding boundary as decimals, and
    on one side of it as doubles. *)
Definition boundary_reading : reading :=
  list_to_map
    [ ("mq135_drop", VReal 0.05);
      ("mq2_drop", VStr "750.0500000000000000001");
      ("mq7_drop", VReal 750.15);
      ("mq135_baseline", VReal 300.05);
      ("mq2_baseline", VStr (nbsp +:+ "800"));
      ("mq7_baseline", VStr "٨٠٠") ].

(** Gas values no double holds, or that [float] does not read. *)
Definition out_of_range_reading : reading :=
  list_to_map
    [ ("mq135_drop", VStr "1e400");
      ("mq2_drop", VStr (fs +:+ "800"));
      ("mq7_drop", VInt (10 ^ 400));
      ("soil_moisture", VInt (10 ^ 400)) ].

(** A reading whose soil moisture is a literal too large for a double. *)
Definition huge_soil_reading : reading :=
  {[ "soil_moisture" := VStr "1e400" ]}.

Definition stamped (s : string) : pyval :=
  VDict {[ "timestamp_reading" := VStr s ]}.

(** Two records that carry the same upstream timestamp. *)
Definition twin_payload : pyval :=
  VList [ stamped "2025-10-29T15:21:22.971802Z";
          stamped "2025-10-29T15:21:22.971802Z" ].

(** What the fetcher makes of one record of [twin_payload], pulled at
    second [pull]. *)
Definition twin_reading (pull : Q) : reading :=
  <["_pull_time" := VReal pull]>
    (<["_ts_num" := VReal (1761751282971802 # 1000000)]>
       (<["timestamp" := VReal (1761751282971802 # 1000000)]>
          {[ "timestamp_reading" := VStr "2025-10-29T15:21:22.971802Z" ]})).

(** The batch fetched from [twin_payload] under [sample_clock]. *)
Definition sample_batch : list reading :=
  [ twin_reading 1000; twin_reading 1001 ].

(** Responses of poll cycles that bring no data. *)
Definition failing_responses : list upstream_response :=
  [ TransportError; Status 500 NotJson; Status 200 GzipError;
    Status 200 NotJson; Status 200 (Json (VInt 5)) ].

(** A cache holding one batch, captured at second [t]. *)
Definition cache_of (batch : list reading) (t : Q) : smart_cache :=
  {| data := Some batch; timestamp := Some t |}.

(* ===================================================================== *)
(** * Vocabulary of the statements *)
(* ===================================================================== *)

(** What a snapshot is made of, once [build_derived_from_reading]
    returns. *)
Record derived_parts := {
  p_temperature : pyval;
  p_mq135_drop : pyval;
  p_mq2_drop : pyval;
  p_mq7_drop : pyval;
  p_mq135_baseline : pyval;
  p_mq2_baseline : pyval;
  p_mq7_baseline : pyval;
  p_light : pyval;
  p_flame : bool;
  p_co2_level : pyval;
  p_humidity : pyval;
  p_pressure : pyval;
  p_altitude : pyval;
  p_soil_moisture : pyval;
  p_air_quality : pyval;
  p_flammable_gas : pyval;
  p_co_level : pyval
}.

Definition snapshot (r : reading) (now : Q) (p : derived_parts) : reading :=
  list_to_map
    [ ("temperature", p_temperature p);
      ("humidity", p_humidity p);
      ("co2_level", p_co2_level p);
      ("light", p_light p);
      ("light_raw", p_light p);
      ("pressure", p_pressure p);
      ("altitude", p_altitude p);
      ("soil_moisture", p_soil_moisture p);
      ("flame_detected", VBool (p_flame p));
      ("flame_status", VStr (flame_status_of (p_flame p)));
      ("mq135_drop", p_mq135_drop p);
      ("mq2_drop", p_mq2_drop p);
      ("mq7_drop", p_mq7_drop p);
      ("mq135_baseline", p_mq135_baseline p);
      ("mq2_baseline", p_mq2_baseline p);
      ("mq7_baseline", p_mq7_baseline p);
      ("air_quality", p_air_quality p);
      ("flammable_gas", p_flammable_gas p);
      ("co_level", p_co_level p);
      ("timestamp",
        dict_get r "timestamp" (dict_get r "_ts_num" (VReal now)));
      ("co2_air_quality",
        VDict (list_to_map
          [("co2", p_co2_level p); ("air_quality", p_air_quality p)]));
      ("pressure_altitude",
        VDict (list_to_map
          [("pressure", p_pressure p); ("altitude", p_altitude p)])) ].

Definition parts_of (r : reading) (p : derived_parts) : Prop :=
  temperature_of r = Ok (p_temperature p) /\
  gas_drop r "mq135_drop" = Ok (p_mq135_drop p) /\
  gas_drop r "mq2_drop" = Ok (p_mq2_drop p) /\
  gas_drop r "mq7_drop" = Ok (p_mq7_drop p) /\
  gas_baseline r "mq135_baseline" = Ok (p_mq135_baseline p) /\
  gas_baseline r "mq2_baseline" = Ok (p_mq2_baseline p) /\
  gas_baseline r "mq7_baseline" = Ok (p_mq7_baseline p) /\
  light_intensity_of r = Ok (p_light p) /\
  flame_detected_of r = Ok (p_flame p) /\
  co2_level_of (p_mq135_drop p) = Ok (p_co2_level p) /\
  py_round1 (num r "humidity" (VReal 0)) = Ok (p_humidity p) /\
  py_round1 (num r "pressure" (VReal 0)) = Ok (p_pressure p) /\
  py_round1 (num r "altitude" (VReal 0)) = Ok (p_altitude p) /\
  py_round (num r "soil_moisture" (VInt 45)) = Ok (p_soil_moisture p).

(** The label [get_cached_apex_or_fetch] attaches to a batch of the
    given age. *)
Definition freshness_label (age : Q) : string :=
  (if Qltb age 10 then "cache_age_" else "cache_stale_")
  +:+ fmt0f age +:+ "s".

(** Python's [a <= b] holds. *)
Definition py_leq (a b : pyval) : Prop := py_le a b = Ok true.

(** Python's [a < b] holds. *)
Definition py_less (a b : pyval) : Prop := py_lt a b = Ok true.

(** Newest first: every reading is at least as recent as all that
    follow it. *)
Definition newest_first (batch : list reading) : Prop :=
  StronglySorted (fun x y => py_leq (ts_num y) (ts_num x)) batch.

(** The same with no two equal timestamps. *)
Definition strictly_newest_first (batch : list reading) : Prop :=
  StronglySorted (fun x y => py_less (ts_num y) (ts_num x)) batch.

(** Oldest first, for a history series. *)
Definition oldest_first (h : list Point.t) : Prop :=
  StronglySorted
    (fun x y => py_leq (Point.timestamp x) (Point.timestamp y)) h.

Definition strictly_oldest_first (h : list Point.t) : Prop :=
  StronglySorted
    (fun x y => py_less (Point.timestamp x) (Point.timestamp y)) h.

(** The sort key of [x] is a finite float, read off by [kq]. *)
Definition real_key {A} (key : A -> pyval) (kq : A -> Q) (x : A) : Prop :=
  key x = VReal (kq x).

(** The order a sort establishes between an element and a later one. *)
Definition qord {A} (kq : A -> Q) (reverse : bool) (x y : A) : Prop :=
  if reverse then (kq y <= kq x)%Q else (kq x <= kq y)%Q.

(** The finite float a value holds (0 for any other value). *)
Definition real_of (v : pyval) : Q :=
  match v with VFloat (Fin q) => q | _ => 0%Q end.

(** What the fetcher leaves in every reading of a batch. *)
Definition normalized (r : reading) : Prop :=
  exists t p : Q,
    r !! "timestamp" = Some (VReal t) /\
    r !! "_ts_num" = Some (VReal t) /\
    r !! "_pull_time" = Some (VReal p).

(** The sort keys of the two sorts, as rationals. *)
Definition ts_q (r : reading) : Q := real_of (ts_num r).
Definition point_q (p : Point.t) : Q := real_of (Point.timestamp p).

(** A poll cycle whose fetch comes back empty, whenever it runs. *)
Definition fetch_fails (clock : nat -> Q)
  (strptime_timestamp : string -> option Q) (fromtimestamp_ok : Q -> bool)
  (resp : upstream_response) : Prop :=
  forall m,
    fst (fetch_apex_readings clock strptime_timestamp fromtimestamp_ok
           resp m) = Ok [].

(** The clock-free part of [build_derived_from_reading]: the values of
    its locals and entries, computed in the same order. *)
Definition derive (r : reading) : result derived_parts :=
  temperature ← temperature_of r;
  mq135_drop ← gas_drop r "mq135_drop";
  mq2_drop ← gas_drop r "mq2_drop";
  mq7_drop ← gas_drop r "mq7_drop";
  mq135_baseline ← gas_baseline r "mq135_baseline";
  mq2_baseline ← gas_baseline r "mq2_baseline";
  mq7_baseline ← gas_baseline r "mq7_baseline";
  light_intensity ← light_intensity_of r;
  flame_detected ← flame_detected_of r;
  co2_level ← co2_level_of mq135_drop;
  humidity ← py_round1 (num r "humidity" (VReal 0));
  pressure ← py_round1 (num r "pressure" (VReal 0));
  altitude ← py_round1 (num r "altitude" (VReal 0));
  soil_moisture ← py_round (num r "soil_moisture" (VInt 45));
  air_quality ← band3 mq135_drop 200 500 "Good" "Poor" "Moderate";
  flammable_gas ← band3 mq2_drop 300 750 "Safe" "High" "Elevated";
  co_level ← band3 mq7_drop 300 750 "Safe" "High" "Elevated";
  Ok {| p_temperature := temperature; p_mq135_drop := mq135_drop;
        p_mq2_drop := mq2_drop; p_mq7_drop := mq7_drop;
        p_mq135_baseline := mq135_baseline;
        p_mq2_baseline := mq2_baseline; p_mq7_baseline := mq7_baseline;
        p_light := light_intensity; p_flame := flame_detected;
        p_co2_level := co2_level; p_humidity := humidity;
        p_pressure := pressure; p_altitude := altitude;
        p_soil_moisture := soil_moisture; p_air_quality := air_quality;
        p_flammable_gas := flammable_gas; p_co_level := co_level |}.

(** What the poller can leave in the cache: nothing yet, or a non-empty
    normalised batch with its capture time. *)
Definition cache_ok (c : smart_cache) : Prop :=
  c = empty_cache \/
  exists b t, c = cache_of b t /\ b <> [] /\ Forall normalized b.

(** The two made-up points of [minimal_dataset], read at time [now]. *)
Definition minimal_points (current_value : pyval) (now : Q)
  : list Point.t :=
  let val := if is_none current_value then VReal 0 else current_value in
  [ {| Point.value := val; Point.timestamp := VReal (now - 10) |};
    {| Point.value := val; Point.timestamp := VReal now |} ].

Definition history_of (r : analysis_response) : list Point.t :=
  match r with
  | AnalysisOk _ _ _ h _ _ => h
  | AnalysisUnavailable => []
  end.

Definition current_value_of (r : analysis_response) : pyval :=
  match r with
  | AnalysisOk _ _ cv _ _ _ => cv
  | AnalysisUnavailable => VNone
  end.

Definition key_of (r : analysis_response) : string :=
  match r with
  | AnalysisOk key _ _ _ _ _ => key
  | AnalysisUnavailable => ""
  end.

Definition unit_of (r : analysis_response) : string :=
  match r with
  | AnalysisOk _ unit _ _ _ _ => unit
  | AnalysisUnavailable => ""
  end.

Definition timestamp_of (r : analysis_response) : pyval :=
  match r with
  | AnalysisOk _ _ _ _ ts _ => ts
  | AnalysisUnavailable => VNone
  end.

Definition raw_data_of (r : analysis_response) : reading :=
  match r with
  | AnalysisOk _ _ _ _ _ raw => raw
  | AnalysisUnavailable => ∅
  end.

(** The value a computation returned, with a default for a raise. *)
Definition returned {A} (dflt : A) (r : result A) : A :=
  match r with Ok a => a | Raise _ => dflt end.

Definition is_ok {A} (r : result A) : bool :=
  match r with Ok _ => true | Raise _ => false end.

Definition is_analysis (r : analysis_response) : bool :=
  match r with AnalysisOk _ _ _ _ _ _ => true | AnalysisUnavailable => false end.

(** The snapshot of a sample reading under [sample_clock]. *)
Definition sample_derived (r : reading) : reading :=
  returned ∅ (fst (build_derived_from_reading sample_clock r 0%nat)).

(** The analysis of the temperature over a cache, asked at tick [n]. *)
Definition sample_analysis (c : smart_cache) (n : nat)
  : analysis_response :=
  returned AnalysisUnavailable
    (fst (get_sensor_analysis sample_clock "temperature" "hours" c n)).

(** The body of the answer given while there is nothing to serve. *)
Definition unavailable_body : reading :=
  list_to_map
    [ ("error", VStr "APEX data not available yet");
      ("message", VStr "Waiting for APEX to respond. Please wait...");
      ("_data_source", VStr "none") ].

(** A response with its [_cache_status] entry left out. *)
Definition without_cache_status (r : result http_response)
  : result http_response :=
  match r with
  | Ok x => Ok {| status := status x;
                  body := delete "_cache_status" (body x) |}
  | Raise e => Raise e
  end.

(** One entry of the snapshot a computation returned. *)
Definition snapshot_field (res : result reading) (key : string)
  : result (option pyval) :=
  match res with
  | Ok d => Ok (d !! key)
  | Raise e => Raise e
  end.

(** One entry of the body of a response. *)
Definition response_field (r : result http_response) (key : string)
  : result (option pyval) :=
  match r with
  | Ok x => Ok (body x !! key)
  | Raise e => Raise e
  end.

(** The three gas channels: delta field and baseline field. *)
Definition gas_channels : list (string * string) :=
  [ ("mq135_drop", "mq135_baseline");
    ("mq2_drop", "mq2_baseline");
    ("mq7_drop", "mq7_baseline") ].

(** [max(0, x)] for a float [x]. *)
Definition clamp (x : pyfloat) : pyval :=
  if f_lt (Fin 0) x then VFloat x else VInt 0.

(** [g] is [f] rounded to one decimal: the double nearest to the
    decimal [k / 10], where [k] is an integer nearest to [10 f], the
    even one when [10 f] lies half-way between two; [nan] and the
    infinities are kept. *)
Definition rounded_one_decimal (f g : pyfloat) : Prop :=
  match f with
  | Fin x =>
      exists k : Z,
        g = b64 (k # 10) /\
        (Qabs (x * 10 - inject_Z k) <= 1 # 2)%Q /\
        ((Qabs (x * 10 - inject_Z k) == 1 # 2)%Q -> Z.even k = true)
  | _ => g = f
  end.

(** Equality of two values as numbers (Python's [==] on numbers). *)
Definition num_equal (v w : pyval) : Prop :=
  exists x y, as_number v = Some x /\ as_number w = Some y /\
              n_eq x y = true.

(* ===================================================================== *)
(** * Vocabulary of the further statements *)
(* ===================================================================== *)

(** The entries the fetcher writes into every record. *)
Definition stamp_keys : list string := ["timestamp"; "_ts_num"; "_pull_time"].

(** [r] is the record [it] with nothing but the stamped entries changed. *)
Definition stamped_copy (it : pyval) (r : reading) : Prop :=
  exists d, it = VDict d /\ forall k, k ∉ stamp_keys -> r !! k = d !! k.

Definition is_dict (v : pyval) : bool :=
  match v with VDict _ => true | _ => false end.

(** What a gas delta of a snapshot can be: the integer 0 or a positive
    float. *)
Definition clamped (v : pyval) : Prop :=
  v = VInt 0 \/ exists f, v = VFloat f /\ f_lt (Fin 0) f = true.

(** What the rules look at in an alert. *)
Definition facts (a : Alert.t) : string * string * bool * pyval * pyval :=
  (Alert.sensor_type a, Alert.severity a, Alert.sound a, Alert.value a,
   Alert.timestamp a).

Definition severities (l : list Alert.t) : list string :=
  map Alert.severity l.

(** The severities of the alerts that go with each category label. *)
Definition gas_table : list (string * list string) :=
  [ ("Safe", []); ("Elevated", ["high"]); ("High", ["critical"]) ].

Definition air_table : list (string * list string) :=
  [ ("Good", []); ("Moderate", ["low"]); ("Poor", ["medium"]) ].

(** A category label of the snapshot and the alerts raised for the same
    channel are on the same row of the table. *)
Definition agree (table : list (string * list string))
  (label : option pyval) (alerts : list Alert.t) : Prop :=
  exists s sev,
    label = Some (VStr s) /\ (s, sev) ∈ table /\ severities alerts = sev.

(** The result of a rule: no alert, or one alert with the given facts. *)
Definition raises (l : list Alert.t)
  (x : option (string * string * bool * pyval * pyval)) : Prop :=
  map facts l = match x with Some f => [f] | None => [] end.

(** The alerts that make the client sound: the critical and the high
    ones, and poor air quality. *)
Definition loud (a : Alert.t) : Prop :=
  Alert.severity a = "critical" \/ Alert.severity a = "high" \/
  (Alert.sensor_type a = "air_quality" /\ Alert.severity a = "medium").

(** The sensors the rules of [get_alerts] can report, in the order the
    rules run. *)
Definition rule_order : list string :=
  [ "carbon_monoxide"; "flammable_gas"; "temperature"; "humidity";
    "air_quality" ].

(** The two gas channels with a critical level: the delta field and the
    sensor named in the alert. *)
Definition gas_alert_channels : list (string * string) :=
  [ ("mq2_drop", "flammable_gas"); ("mq7_drop", "carbon_monoxide") ].

(** The alert each rule raises, as facts: [g1] and [g2] are the outcomes
    of the two threshold tests of a gas rule, [f] the float a range rule
    looks at. *)
Definition co_alert (x ts : pyval) (g1 g2 : bool)
  : option (string * string * bool * pyval * pyval) :=
  if g1 then Some ("carbon_monoxide", "critical", true, x, ts)
  else if g2 then Some ("carbon_monoxide", "high", true, x, ts)
  else None.

Definition gas_alert (x ts : pyval) (g1 g2 : bool)
  : option (string * string * bool * pyval * pyval) :=
  if g1 then Some ("flammable_gas", "critical", true, x, ts)
  else if g2 then Some ("flammable_gas", "high", true, x, ts)
  else None.

Definition air_alert (x ts : pyval) (g1 g2 : bool)
  : option (string * string * bool * pyval * pyval) :=
  if g1 then Some ("air_quality", "medium", true, x, ts)
  else if g2 then Some ("air_quality", "low", false, x, ts)
  else None.

Definition temperature_alert (f : pyfloat) (ts : pyval)
  : option (string * string * bool * pyval * pyval) :=
  if f_lt f (Fin 18) then Some ("temperature", "high", true, VFloat f, ts)
  else if f_lt (Fin 30) f
       then Some ("temperature", "high", true, VFloat f, ts)
  else if f_lt f (Fin 20) || f_lt (Fin 27) f
       then Some ("temperature", "medium", false, VFloat f, ts)
  else None.

Definition humidity_alert (f : pyfloat) (ts : pyval)
  : option (string * string * bool * pyval * pyval) :=
  if f_lt f (Fin 45) then Some ("humidity", "high", true, VFloat f, ts)
  else if f_lt (Fin 80) f then Some ("humidity", "high", true, VFloat f, ts)
  else if f_lt (Fin 70) f
       then Some ("humidity", "medium", false, VFloat f, ts)
  else None.

(** The data [get_alerts] evaluates its rules on. *)
Definition alert_data (latest : reading) (now : Q) (p : derived_parts)
  : reading :=
  snapshot latest now p ∪ latest.

(** The keys of a snapshot. *)
Definition derived_keys : list string :=
  [ "temperature"; "humidity"; "co2_level"; "light"; "light_raw";
    "pressure"; "altitude"; "soil_moisture"; "flame_detected";
    "flame_status"; "mq135_drop"; "mq2_drop"; "mq7_drop";
    "mq135_baseline"; "mq2_baseline"; "mq7_baseline"; "air_quality";
    "flammable_gas"; "co_level"; "timestamp"; "co2_air_quality";
    "pressure_altitude" ].

Definition is_float (v : pyval) : Prop := exists f, v = VFloat f.

(** The severities of the range alerts that go with each status of the
    status helpers. *)
Definition range_table : list (string * list string) :=
  [ ("Optimal", []); ("Acceptable", ["medium"]); ("Critical", ["high"]) ].

Definition is_nan (f : pyfloat) : bool :=
  match f with NaN => true | _ => false end.

(** The labels a status function can produce. *)
Definition status_labels : list string :=
  [ "Optimal"; "Acceptable"; "Critical"; "Good"; "High"; "Dark Night";
    "Low Light"; "Dim Indoor"; "Moderate"; "Bright"; "Poor"; "Safe";
    "Elevated"; "Normal"; "Low"; "Flame Detected"; "Flame Not Detected" ].

(** A status text made of one of the known labels, or the formatted
    altitude. *)
Definition known_status (v : pyval) (parts : list msg_part) : Prop :=
  parts = [Fmt1f v; Lit "m"] \/
  exists s, parts = [Lit s] /\ s ∈ status_labels.

(** 1 when a rule raises its alert, 0 otherwise. *)
Definition fired {A} (x : option A) : nat :=
  match x with Some _ => 1%nat | None => 0%nat end.

(** The levels of the alerts of a report. *)
Definition summary_levels : list string := ["CRITICAL"; "WARNING"; "INFO"].

(** The outcome of one check of the alert summary: at most one alert,
    of a known level. *)
Definition summary_part (l : list Summary.alert) : Prop :=
  (length l <= 1)%nat /\
  Forall (fun a => Summary.level a ∈ summary_levels) l.

(** The batch and the clock of a fetch through the pool, without the
    state of the pool. *)
Definition batch_of (x : result (list reading * pool_state) * nat)
  : result (list reading) * nat :=
  (match fst x with Ok (l, _) => Ok l | Raise e => Raise e end, snd x).

(** The response a fetch through the pool works on: that of the pooled
    connection, or that of the retry when the first exchange failed. *)
Definition effective_response (exchange : connection -> upstream_response)
  (host : string) (timeout : Z) (s : pool_state) : upstream_response :=
  let '(conn, s1) := get_apex_connection host s in
  match exchange conn with
  | TransportError =>
      exchange (fst (new_connection host timeout 8192
                       (drop_connection host s1)))
  | r => r
  end.

(* ===================================================================== *)
(** * Further sample inputs *)
(* ===================================================================== *)

(** A payload in which one record is not an object. *)
Definition broken_payload : pyval :=
  VList [ stamped "2025-10-29T15:21:22.971802Z"; VInt 5 ].

(** A reading that trips several rules: hot, humid in the gap between
    70 and 71, flammable gas above the critical level, moderate air
    quality, and a flame. *)
Definition alarm_reading : reading :=
  list_to_map
    [ ("temperature_bmp280", VReal 31);
      ("temperature_dht22", VReal 33);
      ("humidity", VReal 70.5);
      ("mq2_drop", VInt 800);
      ("mq135_drop", VInt 250);
      ("flame_detected", VInt 1);
      ("timestamp", VReal 1000);
      ("_ts_num", VReal 1000);
      ("_pull_time", VReal 1000) ].

(** A reading whose carbon monoxide delta is the decimal 750.15, as a
    double just below it, and whose flammable gas delta is a text just
    above 750.05, read as the double just below 750.05. *)
Definition boundary_alarm_reading : reading :=
  list_to_map
    [ ("temperature_bmp280", VReal 24);
      ("temperature_dht22", VReal 24);
      ("humidity", VReal 55);
      ("mq7_drop", VReal 750.15);
      ("mq2_drop", VStr "750.0500000000000000001");
      ("timestamp", VReal 1000);
      ("_ts_num", VReal 1000);
      ("_pull_time", VReal 1000) ].

Definition alerts_of (r : alerts_response) : list Alert.t :=
  match r with AlertsOk l _ _ _ => l | AlertsUnavailable => [] end.

Definition alerts_timestamp_of (r : alerts_response) : pyval :=
  match r with AlertsOk _ ts _ _ => ts | AlertsUnavailable => VNone end.

Definition alert_count_of (r : alerts_response) : nat :=
  match r with AlertsOk _ _ n _ => n | AlertsUnavailable => 0%nat end.

Definition should_alert_of (r : alerts_response) : bool :=
  match r with AlertsOk _ _ _ b => b | AlertsUnavailable => false end.

Definition is_alerts (r : alerts_response) : bool :=
  match r with AlertsOk _ _ _ _ => true | AlertsUnavailable => false end.

(** The alerts over a cache, asked at tick [n] under [sample_clock]. *)
Definition sample_alerts (c : smart_cache) (n : nat) : alerts_response :=
  returned AlertsUnavailable (fst (get_alerts sample_clock c n)).

(** The answer of [get_sensor_data] over a cache under [sample_clock]. *)
Definition sample_response (c : smart_cache) (n : nat) : http_response :=
  returned {| status := 0; body := ∅ |}
    (fst (get_sensor_data sample_clock c n)).

Definition no_summary : Summary.t :=
  {| Summary.total_alerts := 0; Summary.critical_count := 0;
     Summary.warning_count := 0; Summary.alerts := [] |}.

(** An item posted with an id that is in use, and one posted without. *)
Definition duplicate_item : pyval := VDict {[ "id" := VInt 1 ]}.

Definition unnumbered_item : gmap string pyval :=
  {[ "name" := VStr "Item 3" ]}.

(** An AI service that always answers with the same text. *)
Definition sample_gemini (sensor_type : string) (value : pyval)
  (unit status : string) (history : list pyval) : result string :=
  Ok "steady".

(** Whether a lookup found an item. *)
Definition found (r : result (option pyval)) : bool :=
  match r with Ok (Some _) => true | _ => false end.

(* ===================================================================== *)
(** * Proof steps *)
(* ===================================================================== *)

(** Finds an element in a list that is written out. *)
Ltac pick_row :=
  first [ apply list_elem_of_here | apply list_elem_of_further; pick_row ].

(** Reads the facts of the one alert a rule raised and checks them. *)
Ltac rule_facts :=
  intros ? ? ? ? ? E;
  apply (f_equal (default ("", "", false, VNone, VNone))) in E;
  cbn [default] in E; apply pair_eq in E as [E <-];
  apply pair_eq in E as [E <-]; apply pair_eq in E as [E <-];
  apply pair_eq in E as [<- <-];
  (split; [reflexivity|]); (split; [reflexivity|]);
  split; [ intros ?; try discriminate; auto
         | intros [?|[?|[? ?]]]; try discriminate; auto ].

(** Splits on every comparison of rationals in the goal. *)
Ltac split_comparisons :=
  unfold Qltb in *;
  repeat match goal with
         | |- context [Qle_bool ?a ?b] =>
             let E := fresh "E" in
             destruct (Qle_bool a b) eqn:E;
             [ apply Qle_bool_iff in E
             | apply not_true_iff_false in E; rewrite Qle_bool_iff in E;
               apply Qnot_le_lt in E ]
         end;
  unfold inject_Z in *; cbn [negb andb orb].

(** Closes a goal that asks for a label of [status_labels]. *)
Ltac known_label :=
  eexists; split; [reflexivity | unfold status_labels; pick_row].

(** Closes a branch of a check of the alert summary. *)
Ltac summary_leaf :=
  intros E; injection E as <-;
  solve [ split; [cbn; lia | constructor]
        | split; [cbn; lia
                 | constructor;
                   [cbn; unfold summary_levels; pick_row | constructor]] ].

(* ===================================================================== *)
(** * Properties *)
(* ===================================================================== *)

Section Properties.

Variable clock : nat -> Q.
Variable strptime_timestamp : string -> option Q.
Variable fromtimestamp_ok : Q -> bool.

Local Abbreviation build_derived := (build_derived_from_reading clock).
Local Abbreviation fetch :=
  (fetch_apex_readings clock strptime_timestamp fromtimestamp_ok).
Local Abbreviation poll :=
  (poll_cycle clock strptime_timestamp fromtimestamp_ok).
Local Abbreviation poller :=
  (continuous_apex_poller clock strptime_timestamp fromtimestamp_ok).
Local Abbreviation read_cache := (get_cached_apex_or_fetch clock).

(** ** The monad *)

Lemma bind_lift {A B} (r : result A) (k : A -> M B) n :
  bind (lift r) k n = match r with Ok a => k a n | Raise e => (Raise e, n) end.
Proof. unfold bind, lift. by destruct r. Qed.

Lemma bind_time {B} (k : Q -> M B) n :
  bind (time_time clock) k n = k (clock n) (S n).
Proof. reflexivity. Qed.

Lemma bind_now {B} (k : Q -> M B) n :
  bind (datetime_now clock) k n = k (clock n) (S n).
Proof. reflexivity. Qed.

Lemma Ok_inj {A} (a b : A) : Ok a = Ok b -> a = b.
Proof. congruence. Qed.

Lemma bind_ok {A B} (m : M A) (k : A -> M B) n b :
  fst (bind m k n) = Ok b ->
  exists a n', m n = (Ok a, n') /\ fst (k a n') = Ok b.
Proof.
  unfold bind. destruct (m n) as [[a|e] n']; [eauto | discriminate].
Qed.

(** ** Derived fields *)

Lemma build_derived_inv r n d :
  fst (build_derived r n) = Ok d ->
  exists p, parts_of r p /\ d = snapshot r (clock n) p /\
            build_derived r n = (Ok d, S n).
Proof.
  unfold build_derived_from_reading. intros H.
  do 17 (rewrite bind_lift in H |- *;
         match type of H with
         | fst (match ?r with Ok _ => _ | Raise _ => _ end) = _ =>
             destruct r eqn:?; [cbv beta iota in H |- * | discriminate H]
         end).
  rewrite bind_time in H |- *. unfold ret in H |- *. cbn [fst] in H.
  apply Ok_inj in H. subst d.
  exists {| p_temperature := a; p_mq135_drop := a0; p_mq2_drop := a1;
            p_mq7_drop := a2; p_mq135_baseline := a3; p_mq2_baseline := a4;
            p_mq7_baseline := a5; p_light := a6; p_flame := a7;
            p_co2_level := a8; p_humidity := a9; p_pressure := a10;
            p_altitude := a11; p_soil_moisture := a12; p_air_quality := a13;
            p_flammable_gas := a14; p_co_level := a15 |}.
  split; [| split; reflexivity].
  unfold parts_of; cbn [p_temperature p_mq135_drop p_mq2_drop p_mq7_drop
    p_mq135_baseline p_mq2_baseline p_mq7_baseline p_light p_flame
    p_co2_level p_humidity p_pressure p_altitude p_soil_moisture].
  repeat split; assumption.
Qed.

(** The computation splits into a clock-free part and one clock read. *)
Lemma build_derived_eq r n :
  build_derived r n =
  match derive r with
  | Ok p => (Ok (snapshot r (clock n) p), S n)
  | Raise e => (Raise e, n)
  end.
Proof.
  unfold build_derived_from_reading, derive.
  do 17 (rewrite bind_lift;
         match goal with
         | |- match ?x with Ok _ => _ | Raise _ => _ end = _ =>
             destruct x;
             cbv beta iota delta [mbind result_bind rbind];
             [| reflexivity]
         end).
  reflexivity.
Qed.

(** Lookups in a snapshot. *)
Lemma snapshot_lookup r now p :
  let d := snapshot r now p in
  d !! "flame_detected" = Some (VBool (p_flame p)) /\
  d !! "mq135_drop" = Some (p_mq135_drop p) /\
  d !! "mq2_drop" = Some (p_mq2_drop p) /\
  d !! "mq7_drop" = Some (p_mq7_drop p) /\
  d !! "mq135_baseline" = Some (p_mq135_baseline p) /\
  d !! "mq2_baseline" = Some (p_mq2_baseline p) /\
  d !! "mq7_baseline" = Some (p_mq7_baseline p) /\
  d !! "humidity" = Some (p_humidity p) /\
  d !! "temperature" = Some (p_temperature p) /\
  d !! "timestamp" =
    Some (dict_get r "timestamp" (dict_get r "_ts_num" (VReal now))) /\
  d !! "temperature_bmp280" = None /\
  d !! "temperature_dht22" = None /\
  d !! "flame_raw" = None /\
  d !! "_cache_status" = None /\
  d !! "_data_source" = None.
Proof.
  intros d; subst d; unfold snapshot; destruct p.
  generalize (dict_get r "timestamp" (dict_get r "_ts_num" (VReal now))).
  intros v. repeat split; vm_compute; reflexivity.
Qed.

Lemma Qltb_lt a b : Qltb a b = true <-> (a < b)%Q.
Proof.
  unfold Qltb. rewrite negb_true_iff.
  split.
  - intros H. apply Qnot_le_lt. intros L. apply Qle_bool_iff in L. congruence.
  - intros H. destruct (Qle_bool b a) eqn:E; [|reflexivity].
    apply Qle_bool_iff in E. exfalso. by apply (Qlt_not_le a b).
Qed.

Lemma Qltb_ge a b : Qltb a b = false <-> (b <= a)%Q.
Proof.
  unfold Qltb. rewrite negb_false_iff. apply Qle_bool_iff.
Qed.

Lemma bind_ok_full {A B} (m : M A) (k : A -> M B) n b n2 :
  bind m k n = (Ok b, n2) ->
  exists a n1, m n = (Ok a, n1) /\ k a n1 = (Ok b, n2).
Proof.
  unfold bind. destruct (m n) as [[a|e] n1]; [eauto | discriminate].
Qed.

Lemma rbind_ok {A B} (r : result A) (k : A -> result B) b :
  (x ← r; k x) = Ok b -> exists a, r = Ok a /\ k a = Ok b.
Proof. destruct r; [eauto | discriminate]. Qed.

(** ** Sorting *)

Section SortProps.
Context {A : Type} (key : A -> pyval) (kq : A -> Q).

Lemma before_real reverse x y :
  real_key key kq x -> real_key key kq y ->
  before key reverse y x
  = Ok (if reverse then Qltb (kq x) (kq y) else Qltb (kq y) (kq x)).
Proof.
  unfold real_key, before. intros -> ->. by destruct reverse.
Qed.

Lemma insert_sorted_perm reverse x l l' :
  insert_sorted key reverse x l = Ok l' -> Permutation (x :: l) l'.
Proof.
  revert l'. induction l as [|y l IH]; intros l' H; cbn in H.
  - by apply Ok_inj in H as <-.
  - apply rbind_ok in H as (c & _ & H). destruct c.
    + apply rbind_ok in H as (r & Hr & H). apply Ok_inj in H as <-.
      rewrite perm_swap. constructor. by apply IH.
    + by apply Ok_inj in H as <-.
Qed.

Lemma list_sort_perm reverse l l' :
  list_sort key reverse l = Ok l' -> Permutation l l'.
Proof.
  revert l'. induction l as [|x l IH]; intros l' H; cbn in H.
  - by apply Ok_inj in H as <-.
  - apply rbind_ok in H as (s & Hs & H).
    apply insert_sorted_perm in H. rewrite <- H. constructor. by apply IH.
Qed.

Lemma list_sort_length reverse l l' :
  list_sort key reverse l = Ok l' -> length l' = length l.
Proof. intros H. symmetry. by apply list_sort_perm, Permutation_length in H. Qed.

Lemma insert_sorted_ok reverse x l :
  real_key key kq x -> Forall (real_key key kq) l ->
  exists l', insert_sorted key reverse x l = Ok l'.
Proof.
  intros Hx. induction 1 as [|y l Hy Hl [r IH]]; cbn; [eauto|].
  rewrite (before_real _ _ _ Hx Hy). cbn.
  destruct (if reverse then _ else _); [rewrite IH|]; cbn; eauto.
Qed.

Lemma list_sort_ok reverse l :
  Forall (real_key key kq) l -> exists l', list_sort key reverse l = Ok l'.
Proof.
  induction 1 as [|x l Hx Hl [s IH]]; cbn; [eauto|].
  rewrite IH. cbn. apply insert_sorted_ok; [done|].
  apply list_sort_perm in IH. by rewrite <- IH.
Qed.

Lemma qord_of_before (reverse : bool) x y :
  (if reverse then Qltb (kq x) (kq y) else Qltb (kq y) (kq x)) = true ->
  qord kq reverse y x.
Proof.
  unfold qord. destruct reverse; intros H; apply Qltb_lt in H;
    by apply Qlt_le_weak.
Qed.

Lemma qord_of_not_before (reverse : bool) x y :
  (if reverse then Qltb (kq x) (kq y) else Qltb (kq y) (kq x)) = false ->
  qord kq reverse x y.
Proof. unfold qord. destruct reverse; intros H; by apply Qltb_ge in H. Qed.

Lemma qord_trans reverse x y z :
  qord kq reverse x y -> qord kq reverse y z -> qord kq reverse x z.
Proof. unfold qord. destruct reverse; intros; lra. Qed.

Lemma insert_sorted_sorted reverse x l l' :
  real_key key kq x -> Forall (real_key key kq) l ->
  StronglySorted (qord kq reverse) l ->
  insert_sorted key reverse x l = Ok l' ->
  StronglySorted (qord kq reverse) l'.
Proof.
  intros Hx Hl. revert l'.
  induction Hl as [|y l Hy Hl IH]; intros l' S H; cbn in H.
  - apply Ok_inj in H as <-. repeat constructor.
  - rewrite (before_real _ _ _ Hx Hy) in H. cbn in H.
    apply StronglySorted_inv in S as [S F].
    destruct (if reverse then _ else _) eqn:C.
    + apply rbind_ok in H as (r & Hr & H). apply Ok_inj in H as <-.
      constructor; [by apply IH|].
      apply insert_sorted_perm in Hr. rewrite <- Hr.
      constructor; [by apply qord_of_before | done].
    + apply Ok_inj in H as <-. apply qord_of_not_before in C.
      constructor; [by constructor|].
      constructor; [done|].
      eapply Forall_impl; [exact F|]. intros z Hz. cbn in Hz.
      by eapply qord_trans.
Qed.

Lemma list_sort_sorted reverse l l' :
  Forall (real_key key kq) l ->
  list_sort key reverse l = Ok l' ->
  StronglySorted (qord kq reverse) l'.
Proof.
  intros Hl. revert l'.
  induction Hl as [|x l Hx Hl IH]; intros l' H; cbn in H.
  - apply Ok_inj in H as <-. constructor.
  - apply rbind_ok in H as (s & Hs & H).
    eapply insert_sorted_sorted; [done| |by apply IH|done].
    apply list_sort_perm in Hs. by rewrite <- Hs.
Qed.

(** With finite keys the order on [kq] is Python's [<=] on the keys. *)
Lemma sorted_py_leq l :
  Forall (real_key key kq) l ->
  (StronglySorted (qord kq true) l ->
   StronglySorted (fun x y => py_leq (key y) (key x)) l) /\
  (StronglySorted (qord kq false) l ->
   StronglySorted (fun x y => py_leq (key x) (key y)) l).
Proof.
  induction 1 as [|x l Hx Hl [IH1 IH2]]; [split; constructor|].
  split; intros [S F]%StronglySorted_inv; (constructor; [auto|]).
  - rewrite Forall_forall in F, Hl |- *. intros y Hy.
    unfold py_leq. rewrite Hx, (Hl y Hy). cbn. f_equal.
    apply Qle_bool_iff. by apply (F y).
  - rewrite Forall_forall in F, Hl |- *. intros y Hy.
    unfold py_leq. rewrite Hx, (Hl y Hy). cbn. f_equal.
    apply Qle_bool_iff. by apply (F y).
Qed.
End SortProps.

(** ** The fetcher *)

Local Abbreviation resolve :=
  (resolve_timestamp clock strptime_timestamp).
Local Abbreviation norm_item := (normalize_item clock strptime_timestamp).
Local Abbreviation norm_items := (normalize_items clock strptime_timestamp).
Local Abbreviation norm_payload :=
  (normalize_payload clock strptime_timestamp fromtimestamp_ok).

Lemma normalized_real_key r : normalized r -> real_key ts_num ts_q r.
Proof.
  intros (t & p & _ & E & _).
  unfold real_key, ts_q, ts_num, dict_get. by rewrite E.
Qed.

Lemma normalized_timestamp r dflt :
  normalized r -> exists t, dict_get r "timestamp" dflt = VReal t.
Proof. intros (t & p & E & _). exists t. unfold dict_get. by rewrite E. Qed.

Lemma resolve_timestamp_ok idx it n :
  exists t n', resolve idx it n = (Ok t, n').
Proof.
  unfold resolve_timestamp.
  destruct (truthy _); [| by eexists _, _].
  destruct (dict_get _ _ _); try by eexists _, _.
  destruct (strptime_timestamp _); by eexists _, _.
Qed.

Lemma normalize_item_normalized idx it n r n' :
  norm_item idx it n = (Ok r, n') -> normalized r.
Proof.
  unfold normalize_item. destruct it; try discriminate.
  intros H. apply bind_ok_full in H as (t & n1 & _ & H).
  rewrite bind_time in H. unfold ret in H.
  apply pair_eq in H as [H _]. apply Ok_inj in H as <-.
  exists t, (clock n1). repeat split.
  - rewrite lookup_insert_ne by done. rewrite lookup_insert_ne by done.
    by rewrite lookup_insert_eq.
  - rewrite lookup_insert_ne by done. by rewrite lookup_insert_eq.
  - by rewrite lookup_insert_eq.
Qed.

Lemma normalize_items_normalized items : forall idx n l n',
  norm_items idx items n = (Ok l, n') -> Forall normalized l.
Proof.
  induction items as [|it items IH]; intros idx n l n' H; cbn in H.
  - unfold ret in H. apply pair_eq in H as [H _].
    apply Ok_inj in H as <-. constructor.
  - apply bind_ok_full in H as (x & n1 & Hx & H).
    apply bind_ok_full in H as (xs & n2 & Hxs & H).
    unfold ret in H. apply pair_eq in H as [H _]. apply Ok_inj in H as <-.
    constructor; [by eapply normalize_item_normalized | by eapply IH].
Qed.

Lemma normalize_payload_spec data n l n' :
  norm_payload data n = (Ok l, n') ->
  Forall normalized l /\ newest_first l.
Proof.
  unfold normalize_payload. destruct (payload_items data) as [items|].
  - intros H. apply bind_ok_full in H as (xs & n1 & Hxs & H).
    apply normalize_items_normalized in Hxs.
    rewrite bind_lift in H.
    destruct (list_sort ts_num true xs) as [s|] eqn:Hs; [|discriminate].
    rewrite bind_lift in H. destruct (log_latest _ s); [|discriminate].
    unfold ret in H. apply pair_eq in H as [H _]. apply Ok_inj in H as <-.
    assert (Hn : Forall normalized s).
    { apply list_sort_perm in Hs. by rewrite <- Hs. }
    split; [done|].
    apply (sorted_py_leq ts_num ts_q).
    + eapply Forall_impl; [exact Hn | apply normalized_real_key].
    + eapply list_sort_sorted; [|exact Hs].
      eapply Forall_impl; [exact Hxs | apply normalized_real_key].
  - intros H. unfold ret in H. apply pair_eq in H as [H _].
    apply Ok_inj in H as <-. split; constructor.
Qed.

(** The fetcher never raises, and what it returns is a normalised batch,
    newest first. *)
Lemma fetch_spec resp n :
  exists l n', fetch resp n = (Ok l, n') /\
               Forall normalized l /\ newest_first l.
Proof.
  assert (E : exists n', (ret [] : M (list reading)) n = (Ok [], n')
              /\ Forall normalized [] /\ newest_first []).
  { exists n. repeat split; constructor. }
  unfold fetch_apex_readings.
  destruct resp as [|code body]; [eexists; exact E|].
  destruct (code =? 200) eqn:C.
  - apply Z.eqb_eq in C as ->.
    destruct body as [| |payload]; try (eexists; exact E).
    unfold catch.
    destruct (norm_payload payload n) as [[l|e] n1] eqn:H.
    + exists l, n1. split; [done|]. by eapply normalize_payload_spec.
    + exists [], n1. repeat split; constructor.
  - apply Z.eqb_neq in C.
    destruct code as [|p|p]; try (eexists; exact E).
    do 8 (destruct p as [p|p|]; try (eexists; exact E)).
    congruence.
Qed.

(** ** Rounding to an integer *)

Lemma round_half_even_nonpos q : (q <= 0)%Q -> round_half_even q <= 0.
Proof.
  destruct q as [n d]. unfold Qle, round_half_even; cbn [Qnum Qden].
  intros H.
  pose proof (Z.div_mod n (Zpos d) ltac:(lia)) as E.
  pose proof (Z.mod_pos_bound n (Zpos d) ltac:(lia)) as B.
  destruct (Z.compare_spec (2 * (n mod Zpos d)) (Zpos d));
    try destruct (Z.even (n / Zpos d)); nia.
Qed.

Lemma round_half_even_nonneg q : (0 <= q)%Q -> 0 <= round_half_even q.
Proof.
  destruct q as [n d]. unfold Qle, round_half_even; cbn [Qnum Qden].
  intros H.
  pose proof (Z.div_mod n (Zpos d) ltac:(lia)) as E.
  pose proof (Z.mod_pos_bound n (Zpos d) ltac:(lia)) as B.
  destruct (Z.compare_spec (2 * (n mod Zpos d)) (Zpos d));
    try destruct (Z.even (n / Zpos d)); nia.
Qed.

Lemma round_half_even_ge z q : (inject_Z z <= q)%Q -> z <= round_half_even q.
Proof.
  destruct q as [n d]. unfold Qle, round_half_even; cbn [Qnum Qden inject_Z].
  intros H.
  pose proof (Z.div_mod n (Zpos d) ltac:(lia)) as E.
  pose proof (Z.mod_pos_bound n (Zpos d) ltac:(lia)) as B.
  destruct (Z.compare_spec (2 * (n mod Zpos d)) (Zpos d));
    try destruct (Z.even (n / Zpos d)); nia.
Qed.

(** The rounding is a nearest integer. *)
Lemma round_half_even_nearest q :
  (Qabs (q - inject_Z (round_half_even q)) <= 1 # 2)%Q.
Proof.
  apply Qabs_Qle_condition.
  destruct q as [n d]. unfold round_half_even; cbn [Qnum Qden].
  pose proof (Z.div_mod n (Zpos d) ltac:(lia)) as E.
  pose proof (Z.mod_pos_bound n (Zpos d) ltac:(lia)) as B.
  unfold Qle, Qminus, Qplus, Qopp, inject_Z; cbn [Qnum Qden].
  destruct (Z.compare_spec (2 * (n mod Zpos d)) (Zpos d));
    try destruct (Z.even (n / Zpos d)); split; nia.
Qed.

(** ** The nearest double *)

Lemma pow2_pos e : (0 < pow2 e)%Q.
Proof. apply Qpower_0_lt. reflexivity. Qed.

Lemma pow2_plus a b : (pow2 (a + b) == pow2 a * pow2 b)%Q.
Proof. apply Qpower_plus. discriminate. Qed.

Lemma pow2_nat e : 0 <= e -> (pow2 e == inject_Z (2 ^ e))%Q.
Proof. intros H. unfold pow2. by rewrite Zpower_Qpower. Qed.

Lemma pow2_inv e : (/ pow2 e == pow2 (- e))%Q.
Proof. unfold pow2. by rewrite Qpower_opp. Qed.

Lemma pow2_le a b : a <= b -> (pow2 a <= pow2 b)%Q.
Proof.
  intros H. replace b with (a + (b - a)) by lia. rewrite pow2_plus.
  rewrite <- (Qmult_1_r (pow2 a)) at 1.
  apply Qmult_le_l; [apply pow2_pos|].
  rewrite pow2_nat by lia.
  change 1%Q with (inject_Z 1). rewrite <- Zle_Qle.
  assert (0 < 2 ^ (b - a)) by (apply Z.pow_pos_nonneg; lia). lia.
Qed.

(** The binade found for a positive rational does lie below it. *)
Lemma ilog2_le q : (0 < q)%Q -> (pow2 (ilog2 q) <= q)%Q.
Proof.
  intros Hq. unfold ilog2.
  destruct (Qle_bool _ q) eqn:E; [by apply Qle_bool_iff|]. clear E.
  destruct q as [n d]. cbn [Qnum Qden].
  assert (Hn : 0 < n) by (unfold Qlt in Hq; cbn in Hq; lia).
  pose proof (Z.log2_spec n Hn) as [A _].
  pose proof (Z.log2_spec (Zpos d) ltac:(lia)) as [_ B].
  pose proof (Z.log2_nonneg n) as An.
  pose proof (Z.log2_nonneg (Zpos d)) as Bn.
  set (a := Z.log2 n) in *. set (b := Z.log2 (Zpos d)) in *.
  assert (L : (inject_Z (Zpos d) * pow2 a <= inject_Z n * pow2 (b + 1))%Q).
  { rewrite !pow2_nat by lia. rewrite <- !inject_Z_mult, <- Zle_Qle.
    replace (Z.succ b) with (b + 1) in B by lia. nia. }
  assert (S : (pow2 a == pow2 (a - b - 1) * pow2 (b + 1))%Q).
  { rewrite <- pow2_plus. by replace (a - b - 1 + (b + 1)) with a by lia. }
  rewrite S in L.
  assert (L' : (inject_Z (Zpos d) * pow2 (a - b - 1) <= inject_Z n)%Q).
  { apply (Qmult_le_r _ _ (pow2 (b + 1))); [apply pow2_pos|].
    by rewrite <- Qmult_assoc. }
  assert (D : (n # d == inject_Z n / inject_Z (Zpos d))%Q).
  { by rewrite Qmake_Qdiv. }
  rewrite D. apply Qle_shift_div_l; [reflexivity|].
  by rewrite Qmult_comm.
Qed.

(** What [b64] returns: the value [m * 2 ^ e] it builds, or an infinity
    of the sign of that value once it is out of range. *)
Lemma b64_cases q :
  exists e x,
    e = Z.max (ilog2 (Qabs q) - 52) (-1074) /\
    (x == inject_Z (round_half_even (q / pow2 e)) * pow2 e)%Q /\
    (b64 q = Fin x \/ (b64 q = PInf /\ (0 < x)%Q)
     \/ (b64 q = NInf /\ (x < 0)%Q)).
Proof.
  eexists _, _. split; [reflexivity|]. split; [apply Qred_correct|].
  unfold b64. cbv zeta.
  destruct (Qle_bool _ _) eqn:R; [|by left].
  apply Qle_bool_iff in R.
  match goal with |- context [Qltb ?x 0] => destruct (Qltb x 0) eqn:E end.
  - right; right. split; [done|]. unfold Qltb in E.
    apply negb_true_iff in E. apply Qnot_le_lt. intros F.
    apply Qle_bool_iff in F. congruence.
  - right; left. split; [done|]. unfold Qltb in E.
    apply negb_false_iff in E. apply Qle_bool_iff in E.
    rewrite (Qabs_pos _ E) in R.
    eapply Qlt_le_trans; [apply (pow2_pos 1024) | exact R].
Qed.

Lemma b64_nonneg q : (0 <= q)%Q -> f_le (Fin 0) (b64 q) = true.
Proof.
  intros H. destruct (b64_cases q) as (e & x & _ & Hx & C).
  assert (0 <= x)%Q.
  { rewrite Hx. apply Qmult_le_0_compat; [|apply Qlt_le_weak, pow2_pos].
    change 0%Q with (inject_Z 0). rewrite <- Zle_Qle.
    apply round_half_even_nonneg.
    apply Qle_shift_div_l; [apply pow2_pos|]. by rewrite Qmult_0_l. }
  destruct C as [-> | [[-> _] | [_ C]]]; cbn.
  - by apply Qle_bool_iff.
  - done.
  - exfalso. by apply (Qlt_not_le _ _ C).
Qed.

Lemma b64_nonpos q : (q <= 0)%Q -> f_le (b64 q) (Fin 0) = true.
Proof.
  intros H. destruct (b64_cases q) as (e & x & _ & Hx & C).
  assert (x <= 0)%Q.
  { rewrite Hx. rewrite <- (Qmult_0_l (pow2 e)).
    apply Qmult_le_compat_r; [|apply Qlt_le_weak, pow2_pos].
    change 0%Q with (inject_Z 0). rewrite <- Zle_Qle.
    apply round_half_even_nonpos.
    apply Qle_shift_div_r; [apply pow2_pos|]. by rewrite Qmult_0_l. }
  destruct C as [-> | [[_ C] | [-> _]]]; cbn.
  - by apply Qle_bool_iff.
  - exfalso. by apply (Qlt_not_le _ _ C).
  - done.
Qed.

(** Rounding to a double does not cross an integer of at most 53 bits. *)
Lemma b64_ge_int z q :
  0 <= z <= 2 ^ 52 -> (inject_Z z <= q)%Q ->
  f_le (Fin (inject_Z z)) (b64 q) = true.
Proof.
  intros Hz H. destruct (b64_cases q) as (e & x & He & Hx & C).
  assert (Hq : (0 <= q)%Q).
  { eapply Qle_trans; [|exact H]. change 0%Q with (inject_Z 0).
    rewrite <- Zle_Qle. lia. }
  assert (L : (inject_Z z <= x)%Q).
  { rewrite Hx. destruct (Z.le_gt_cases e 0) as [E|E].
    - (* the grid is finer than the integers *)
      assert (M : z * 2 ^ (- e) <= round_half_even (q / pow2 e)).
      { apply round_half_even_ge. unfold Qdiv. rewrite pow2_inv.
        rewrite inject_Z_mult, <- pow2_nat by lia.
        apply Qmult_le_compat_r; [done | apply Qlt_le_weak, pow2_pos]. }
      rewrite Zle_Qle, inject_Z_mult in M.
      rewrite <- pow2_nat in M by lia.
      apply (Qmult_le_compat_r _ _ (pow2 e)) in M;
        [|apply Qlt_le_weak, pow2_pos].
      rewrite <- Qmult_assoc, <- pow2_plus in M.
      replace (- e + e) with 0 in M by lia.
      change (pow2 0) with 1%Q in M. by rewrite Qmult_1_r in M.
    - (* the binade lies above 2 ^ 52 *)
      assert (Ee : e = ilog2 (Qabs q) - 52) by lia.
      assert (Q0 : (0 < q)%Q).
      { apply Qnot_le_lt. intros F.
        assert (Z0 : (q == 0)%Q) by by apply Qle_antisym.
        assert (ilog2 (Qabs q) <= 0); [|lia].
        unfold ilog2. destruct q as [n d]. unfold Qeq in Z0; cbn in Z0.
        assert (n = 0) as -> by lia. cbn [Qabs Z.abs Qnum Qden].
        pose proof (Z.log2_nonneg (Zpos d)).
        change (Z.log2 (Z.abs 0)) with 0. destruct (Qle_bool _ _); lia. }
      assert (B : (pow2 (ilog2 (Qabs q)) <= q)%Q).
      { apply Qle_trans with (Qabs q).
        - apply ilog2_le. eapply Qlt_le_trans; [exact Q0 | apply Qle_Qabs].
        - rewrite Qabs_pos by done. apply Qle_refl. }
      replace (ilog2 (Qabs q)) with (52 + e) in B by lia.
      rewrite pow2_plus in B.
      assert (M : 2 ^ 52 <= round_half_even (q / pow2 e)).
      { apply round_half_even_ge. apply Qle_shift_div_l; [apply pow2_pos|].
        by rewrite <- pow2_nat by lia. }
      apply Qle_trans with (inject_Z (2 ^ 52) * pow2 e)%Q.
      + rewrite <- (Qmult_1_r (inject_Z z)).
        apply Qmult_le_compat_nonneg.
        * split; [|rewrite <- Zle_Qle; lia].
          change 0%Q with (inject_Z 0). rewrite <- Zle_Qle. lia.
        * split; [discriminate|]. change 1%Q with (pow2 0).
          apply pow2_le. lia.
      + apply Qmult_le_compat_r; [|apply Qlt_le_weak, pow2_pos].
        by rewrite <- Zle_Qle. }
  destruct C as [-> | [[-> _] | [_ C]]]; cbn.
  - by apply Qle_bool_iff.
  - done.
  - exfalso. apply (Qlt_not_le _ _ C).
    eapply Qle_trans; [|exact L]. change 0%Q with (inject_Z 0).
    rewrite <- Zle_Qle. lia.
Qed.

(** ** The gas channels *)

Lemma num_ok r key dflt f :
  py_float (dict_get r key dflt) = Ok f -> num r key dflt = VFloat f.
Proof. unfold num. by intros ->. Qed.

Lemma num_raise r key dflt e :
  py_float (dict_get r key dflt) = Raise e -> num r key dflt = dflt.
Proof. unfold num. by intros ->. Qed.

Lemma gas_drop_ok r key f :
  py_float (dict_get r key (VInt 0)) = Ok f ->
  gas_drop r key = Ok (clamp (f_round1 f)).
Proof. unfold gas_drop. intros H. by rewrite (num_ok _ _ _ _ H). Qed.

Lemma gas_drop_raise r key e :
  py_float (dict_get r key (VInt 0)) = Raise e ->
  gas_drop r key = Ok (VInt 0).
Proof. unfold gas_drop. intros H. by rewrite (num_raise _ _ _ _ H). Qed.

Lemma gas_baseline_ok r key f :
  py_float (dict_get r key (VInt 0)) = Ok f ->
  gas_baseline r key = Ok (VFloat (f_round1 f)).
Proof. unfold gas_baseline. intros H. by rewrite (num_ok _ _ _ _ H). Qed.

Lemma clamp_not_negative x : py_lt (clamp x) (VInt 0) = Ok false.
Proof.
  unfold clamp. destruct (f_lt (Fin 0) x) eqn:E; [|reflexivity].
  cbn. f_equal. destruct x as [q| | |]; try done.
  cbn in *. apply Qltb_lt in E. apply Qltb_ge. by apply Qlt_le_weak.
Qed.

Lemma f_le_not_lt a b : f_le a b = true -> f_lt b a = false.
Proof.
  destruct a as [x| | |], b as [y| | |]; try done.
  cbn. intros H. unfold Qltb. by rewrite H.
Qed.

Lemma f_round1_nonpos f :
  f_le f (Fin 0) = true -> f_le (f_round1 f) (Fin 0) = true.
Proof.
  destruct f as [q| | |]; try done.
  cbn [f_le f_round1]. intros H. apply Qle_bool_iff in H.
  apply b64_nonpos.
  assert (L : round_half_even (q * 10) <= 0).
  { apply round_half_even_nonpos. lra. }
  unfold Qle; cbn. lia.
Qed.

Lemma f_round1_nonneg f :
  f_lt (Fin 0) f = true -> f_le (Fin 0) (f_round1 f) = true.
Proof.
  destruct f as [q| | |]; try done.
  cbn [f_lt f_round1]. intros H. apply Qltb_lt in H.
  apply b64_nonneg.
  assert (L : 0 <= round_half_even (q * 10)).
  { apply round_half_even_nonneg. lra. }
  unfold Qle; cbn. lia.
Qed.

Lemma clamp_nonpos f : f_le f (Fin 0) = true -> clamp (f_round1 f) = VInt 0.
Proof.
  intros H. unfold clamp.
  by rewrite (f_le_not_lt _ _ (f_round1_nonpos _ H)).
Qed.

Lemma clamp_pos f :
  f_lt (Fin 0) f = true ->
  num_equal (clamp (f_round1 f)) (VFloat (f_round1 f)) /\
  (clamp (f_round1 f) = VFloat (f_round1 f) \/
   clamp (f_round1 f) = VInt 0).
Proof.
  unfold clamp. intros H.
  destruct (f_lt (Fin 0) (f_round1 f)) eqn:E.
  - split; [|by left]. eexists _, _. repeat split.
    destruct (f_round1 f) as [y| | |]; try done.
    cbn. apply Qeq_bool_iff. reflexivity.
  - split; [|by right]. eexists _, _. repeat split.
    pose proof (f_round1_nonneg _ H) as L.
    destruct (f_round1 f) as [y| | |]; try done.
    cbn in *. apply Qltb_ge in E. apply Qle_bool_iff in L.
    apply Qeq_bool_iff. symmetry. by apply Qle_antisym.
Qed.

Lemma channel_parts r p delta baseline :
  parts_of r p ->
  (delta, baseline) ∈ gas_channels ->
  exists vd vb,
    gas_drop r delta = Ok vd /\ gas_baseline r baseline = Ok vb /\
    forall now, snapshot r now p !! delta = Some vd /\
                snapshot r now p !! baseline = Some vb.
Proof.
  intros (_ & D1 & D2 & D3 & B1 & B2 & B3 & _) H.
  unfold gas_channels in H.
  repeat (apply elem_of_cons in H as [H | H];
          [apply pair_eq in H as [-> ->] |]).
  - eexists _, _. repeat split; eauto; apply snapshot_lookup.
  - eexists _, _. repeat split; eauto; apply snapshot_lookup.
  - eexists _, _. repeat split; eauto; apply snapshot_lookup.
  - by apply elem_of_nil in H.
Qed.

Lemma round_half_even_tie q :
  (Qabs (q - inject_Z (round_half_even q)) == 1 # 2)%Q ->
  Z.even (round_half_even q) = true.
Proof.
  destruct q as [n d]. unfold round_half_even; cbn [Qnum Qden].
  pose proof (Z.div_mod n (Zpos d) ltac:(lia)) as E.
  pose proof (Z.mod_pos_bound n (Zpos d) ltac:(lia)) as B.
  destruct (Z.compare_spec (2 * (n mod Zpos d)) (Zpos d)) as [C|C|C].
  - intros _. destruct (Z.even (n / Zpos d)) eqn:V; [done|].
    rewrite Z.even_add, V. reflexivity.
  - intros T. exfalso. rewrite Qabs_pos in T.
    + revert T. unfold Qeq, Qminus, Qplus, Qopp, inject_Z; cbn [Qnum Qden].
      nia.
    + unfold Qle, Qminus, Qplus, Qopp, inject_Z; cbn [Qnum Qden]. nia.
  - intros T. exfalso. rewrite Qabs_neg in T.
    + revert T. unfold Qeq, Qminus, Qplus, Qopp, inject_Z; cbn [Qnum Qden].
      nia.
    + unfold Qle, Qminus, Qplus, Qopp, inject_Z; cbn [Qnum Qden]. nia.
Qed.

(** [round(x, 1)] does round to one decimal. *)
Lemma f_round1_rounds f : rounded_one_decimal f (f_round1 f).
Proof.
  destruct f as [x| | |]; try reflexivity.
  exists (round_half_even (x * 10)). split; [reflexivity|]. split.
  - apply round_half_even_nearest.
  - apply round_half_even_tie.
Qed.

Lemma nearest_integer_unique (q : Q) (k k' : Z) :
  (Qabs (q - inject_Z k) <= 1 # 2)%Q ->
  ((Qabs (q - inject_Z k) == 1 # 2)%Q -> Z.even k = true) ->
  (Qabs (q - inject_Z k') <= 1 # 2)%Q ->
  ((Qabs (q - inject_Z k') == 1 # 2)%Q -> Z.even k' = true) ->
  k = k'.
Proof.
  intros A Ae B Be.
  pose proof A as A'. pose proof B as B'.
  apply Qabs_Qle_condition in A' as [A1 A2].
  apply Qabs_Qle_condition in B' as [B1 B2].
  assert (D : k = k' \/ k = k' + 1 \/ k' = k + 1).
  { destruct q as [n d].
    unfold Qle, Qminus, Qplus, Qopp, inject_Z in A1, A2, B1, B2.
    cbn [Qnum Qden] in A1, A2, B1, B2. nia. }
  destruct D as [D | [D | D]]; [done | exfalso | exfalso].
  - assert (E : (q - inject_Z k' == 1 # 2)%Q).
    { apply Qle_antisym; [done|]. subst k.
      rewrite inject_Z_plus in A1. change (inject_Z 1) with 1%Q in A1. lra. }
    assert (E' : (q - inject_Z k == - (1 # 2))%Q).
    { subst k. rewrite inject_Z_plus. change (inject_Z 1) with 1%Q. lra. }
    assert (Z.even k' = true) as V'.
    { apply Be. rewrite E. reflexivity. }
    assert (Z.even k = true) as V.
    { apply Ae. rewrite E'. reflexivity. }
    subst k. rewrite Z.even_add, V' in V. discriminate.
  - assert (E : (q - inject_Z k == 1 # 2)%Q).
    { apply Qle_antisym; [done|]. subst k'.
      rewrite inject_Z_plus in B1. change (inject_Z 1) with 1%Q in B1. lra. }
    assert (E' : (q - inject_Z k' == - (1 # 2))%Q).
    { subst k'. rewrite inject_Z_plus. change (inject_Z 1) with 1%Q. lra. }
    assert (Z.even k = true) as V.
    { apply Ae. rewrite E. reflexivity. }
    assert (Z.even k' = true) as V'.
    { apply Be. rewrite E'. reflexivity. }
    subst k'. rewrite Z.even_add, V in V'. discriminate.
Qed.

(** One-decimal rounding leaves no choice: it is what [round(x, 1)]
    returns. *)
Lemma rounded_one_decimal_unique f g :
  rounded_one_decimal f g -> g = f_round1 f.
Proof.
  destruct f as [x| | |]; try done.
  intros (k & -> & N & T). cbn [f_round1]. do 2 f_equal.
  eapply nearest_integer_unique; eauto.
  - apply round_half_even_nearest.
  - apply round_half_even_tie.
Qed.

(** C5.  For each gas channel: the derived delta is never negative; an
    input that coerces to a number at most 0 gives exactly the integer
    0; a positive input gives its rounding to one decimal (as a number:
    when that rounding is 0.0 the value is the integer 0); and the
    baseline is the rounding of its input, with no clamp.  The rounding
    is the double nearest to the nearest decimal with one place. *)
Theorem gas_deltas_are_clamped (r : reading) (n : nat) (d : reading)
  (delta baseline : string) :
  fst (build_derived r n) = Ok d ->
  (delta, baseline) ∈ gas_channels ->
  (exists v, d !! delta = Some v /\ py_lt v (VInt 0) = Ok false) /\
  (forall f, py_float (dict_get r delta (VInt 0)) = Ok f ->
     (f_le f (Fin 0) = true -> d !! delta = Some (VInt 0)) /\
     (f_lt (Fin 0) f = true ->
        exists g v, rounded_one_decimal f g /\
                    d !! delta = Some v /\
                    num_equal v (VFloat g) /\
                    (v = VFloat g \/ v = VInt 0))) /\
  (forall f, py_float (dict_get r baseline (VInt 0)) = Ok f ->
     exists g, rounded_one_decimal f g /\
               d !! baseline = Some (VFloat g)).
Proof.
  intros H Hc.
  apply build_derived_inv in H as (p & Hp & -> & _).
  destruct (channel_parts _ _ _ _ Hp Hc) as (vd & vb & Hd & Hb & L).
  destruct (L (clock n)) as [-> ->]. clear L.
  split; [| split].
  - exists vd. split; [done|].
    destruct (py_float (dict_get r delta (VInt 0))) as [f|e] eqn:E.
    + rewrite (gas_drop_ok _ _ _ E) in Hd. apply Ok_inj in Hd as <-.
      apply clamp_not_negative.
    + rewrite (gas_drop_raise _ _ _ E) in Hd. by apply Ok_inj in Hd as <-.
  - intros f E. rewrite (gas_drop_ok _ _ _ E) in Hd. apply Ok_inj in Hd as <-.
    split.
    + intros Hle. by rewrite clamp_nonpos.
    + intros Hlt. exists (f_round1 f), (clamp (f_round1 f)).
      split; [apply f_round1_rounds|]. split; [done|]. by apply clamp_pos.
  - intros f E. rewrite (gas_baseline_ok _ _ _ E) in Hb.
    apply Ok_inj in Hb as <-. exists (f_round1 f).
    split; [apply f_round1_rounds | done].
Qed.

(** ** Flame detection *)

(** C3 (amended).  When [flame_detected] is absent the snapshot's flag
    is false whatever [flame_raw] holds.  When it is present, a boolean
    is taken as it is, a number is true unless it is zero, a string is
    true exactly when, trimmed and lower-cased, it is one of the four
    words; the threshold [flame_raw < 2000] decides only for a value
    that is neither a number, a boolean nor a string. *)
Theorem flame_absent_means_not_detected (r : reading) (n : nat)
  (d : reading) :
  fst (build_derived r n) = Ok d ->
  (r !! "flame_detected" = None ->
     d !! "flame_detected" = Some (VBool false)) /\
  (forall v, r !! "flame_detected" = Some v ->
     (forall b, v = VBool b -> d !! "flame_detected" = Some (VBool b)) /\
     (forall z, v = VInt z ->
        d !! "flame_detected" = Some (VBool (negb (z =? 0)))) /\
     (forall f, v = VFloat f ->
        d !! "flame_detected" = Some (VBool (negb (f_eq f (Fin 0))))) /\
     (forall s, v = VStr s ->
        d !! "flame_detected"
        = Some (VBool (bool_decide (lower (strip s) ∈ flame_words)))) /\
     (v = VNone \/ (exists l, v = VList l) \/ (exists m, v = VDict m) ->
      exists b, py_lt (num r "flame_raw" (VInt 4095)) (VInt 2000) = Ok b /\
                d !! "flame_detected" = Some (VBool b))).
Proof.
  intros H.
  apply build_derived_inv in H as (p & Hp & -> & _).
  destruct Hp as (_ & _ & _ & _ & _ & _ & _ & _ & F & _).
  destruct (snapshot_lookup r (clock n) p) as (-> & _).
  unfold flame_detected_of, dict_get in F.
  split.
  - intros E. rewrite E in F. cbn in F. by apply Ok_inj in F as <-.
  - intros v E. rewrite E in F. cbn [default] in F.
    split; [| split; [| split; [| split]]].
    + intros b ->. cbn in F. by apply Ok_inj in F as <-.
    + intros z ->. cbn in F. by apply Ok_inj in F as <-.
    + intros f ->. cbn in F. apply Ok_inj in F as <-.
      by destruct f.
    + intros s ->. cbn in F. by apply Ok_inj in F as <-.
    + intros Hv. exists (p_flame p). split; [|done].
      destruct Hv as [-> | [[l ->] | [m ->]]]; exact F.
Qed.

(** ** Reading the cache *)

Lemma read_cache_some b t n :
  read_cache (cache_of b t) n
  = (Ok (Some b, freshness_label (clock n - t)), S n).
Proof.
  unfold get_cached_apex_or_fetch, cache_of, freshness_label.
  cbn [data timestamp]. rewrite bind_now.
  destruct (Qltb (clock n - t) 10); reflexivity.
Qed.

Lemma read_cache_none c n :
  data c = None \/ timestamp c = None ->
  read_cache c n = (Ok (None, "no_data"), n).
Proof.
  unfold get_cached_apex_or_fetch.
  intros [H | H]; rewrite H; [reflexivity | by destruct (data c)].
Qed.

Lemma bind_read {B} b t (k : _ -> M B) n :
  bind (read_cache (cache_of b t)) k n
  = k (Some b, freshness_label (clock n - t)) (S n).
Proof. unfold bind at 1. by rewrite read_cache_some. Qed.

(** ** The poller *)

Local Abbreviation fetch_fails :=
  (fetch_fails clock strptime_timestamp fromtimestamp_ok).

Lemma poll_cycle_empty resp c n :
  fst (fetch resp n) = Ok [] -> fst (poll resp c n) = Ok c.
Proof.
  unfold poll_cycle, catch, bind.
  destruct (fetch resp n) as [[l|e] n1]; cbn; [|done].
  intros H. apply Ok_inj in H as ->. reflexivity.
Qed.

Lemma poll_cycle_nonempty resp c n b n1 :
  fetch resp n = (Ok b, n1) -> b <> [] ->
  poll resp c n = (Ok (cache_of b (clock n1)), S n1).
Proof.
  unfold poll_cycle, catch, bind. intros -> Hb.
  destruct b; [congruence | reflexivity].
Qed.

Lemma poller_all_fail fails c :
  Forall fetch_fails fails -> forall n, fst (poller fails c n) = Ok c.
Proof.
  induction 1 as [|resp fails Hr Hf IH]; intros n; cbn; [done|].
  unfold bind. pose proof (poll_cycle_empty resp c n (Hr n)) as E.
  destruct (poll resp c n) as [[c'|e] n1]; cbn in E; [|discriminate].
  apply Ok_inj in E as ->. apply IH.
Qed.

(** C7.  A successful poll stores its batch with the capture time; a
    poll cycle whose fetch returns an empty batch leaves any cache
    entry, data and capture time, as it was; and a read after such
    polls returns the stored batch and a label that spells its age,
    prefixed [cache_age_] below 10 seconds and [cache_stale_] from 10
    seconds on. *)
Theorem stale_cache_stays_available (c0 : smart_cache)
  (resp_ok : upstream_response) (fails : list upstream_response)
  (n : nat) (b : list reading) (n1 : nat) :
  fetch resp_ok n = (Ok b, n1) ->
  b <> [] ->
  Forall fetch_fails fails ->
  let c1 := cache_of b (clock n1) in
  fst (poll resp_ok c0 n) = Ok c1 /\
  (forall c resp m,
     fst (fetch resp m) = Ok [] -> fst (poll resp c m) = Ok c) /\
  (forall m, fst (poller fails c1 m) = Ok c1) /\
  (forall m,
     let age := (clock m - clock n1)%Q in
     exists label,
       fst (read_cache c1 m) = Ok (Some b, label) /\
       ((age < 10)%Q -> label = "cache_age_" +:+ fmt0f age +:+ "s") /\
       ((10 <= age)%Q -> label = "cache_stale_" +:+ fmt0f age +:+ "s")).
Proof.
  intros Hf Hb Hfails c1. repeat split.
  - by rewrite (poll_cycle_nonempty _ _ _ _ _ Hf Hb).
  - intros c resp m He. by apply poll_cycle_empty.
  - intros m. by apply poller_all_fail.
  - intros m age. exists (freshness_label age). subst c1 age.
    rewrite read_cache_some. unfold freshness_label.
    repeat split.
    + intros H. apply Qltb_lt in H. by rewrite H.
    + intros H. apply Qltb_ge in H. by rewrite H.
Qed.

(** C8.  While no poll has succeeded the cache stays empty, a read of
    it yields the label [no_data] with no batch, and the sensor-data
    endpoint answers 503 with the data-unavailable body, which holds no
    derived field. *)
Theorem never_populated_means_no_data
  (fails : list upstream_response) (n : nat) :
  Forall fetch_fails fails ->
  fst (poller fails empty_cache n) = Ok empty_cache /\
  forall m,
    fst (read_cache empty_cache m) = Ok (None, "no_data") /\
    fst (get_sensor_data clock empty_cache m)
    = Ok {| status := 503; body := unavailable_body |} /\
    unavailable_body !! "temperature" = None /\
    unavailable_body !! "soil_moisture" = None.
Proof.
  intros H. split; [by apply poller_all_fail|].
  intros m. repeat split; vm_compute; reflexivity.
Qed.

(** ** What the poller leaves in the cache *)

Lemma poll_cycle_ok resp c n c' :
  cache_ok c -> fst (poll resp c n) = Ok c' -> cache_ok c'.
Proof.
  intros Hc H.
  destruct (fetch_spec resp n) as (l & n1 & Hf & Hn & _).
  destruct l as [|x l].
  - rewrite poll_cycle_empty in H by (by rewrite Hf).
    by apply Ok_inj in H as <-.
  - rewrite (poll_cycle_nonempty _ _ _ _ _ Hf) in H by done.
    apply Ok_inj in H as <-. right. by eexists _, _.
Qed.

Lemma poller_ok resps : forall c n c',
  cache_ok c -> fst (poller resps c n) = Ok c' -> cache_ok c'.
Proof.
  induction resps as [|resp resps IH]; intros c n c' Hc H; cbn in H.
  - by apply Ok_inj in H as <-.
  - apply bind_ok in H as (c1 & n1 & H1 & H).
    eapply IH; [|exact H]. eapply poll_cycle_ok; [exact Hc|].
    by rewrite H1.
Qed.

(** ** Reading twice *)

Lemma snapshot_now_irrelevant r now now' p :
  is_Some (r !! "timestamp") -> snapshot r now p = snapshot r now' p.
Proof. intros [v E]. unfold snapshot, dict_get. by rewrite E. Qed.

Lemma build_derived_now_irrelevant r n n' :
  is_Some (r !! "timestamp") ->
  fst (build_derived r n) = fst (build_derived r n').
Proof.
  intros H. rewrite !build_derived_eq. destruct (derive r); [|done].
  cbn [fst]. by rewrite (snapshot_now_irrelevant _ _ (clock n')).
Qed.

Lemma normalized_has_timestamp r : normalized r -> is_Some (r !! "timestamp").
Proof. intros (t & p & E & _). by rewrite E. Qed.

(** C9 (amended).  With no poll cycle in between, two calls of the
    sensor-data endpoint compute the same Derived Snapshot and give the
    same response in every field other than [_cache_status], which
    spells the age of the cache at the time of the call. *)
Theorem sensor_data_repeats_up_to_cache_status
  (resps : list upstream_response) (n0 : nat) (c : smart_cache)
  (n1 n2 : nat) :
  fst (poller resps empty_cache n0) = Ok c ->
  without_cache_status (fst (get_sensor_data clock c n1))
  = without_cache_status (fst (get_sensor_data clock c n2)) /\
  (forall latest rest, data c = Some (latest :: rest) ->
     fst (build_derived latest n1) = fst (build_derived latest n2)).
Proof.
  intros H. apply poller_ok in H; [|by left].
  destruct H as [-> | (b & t & -> & Hb & Hn)].
  - split; [vm_compute; reflexivity | discriminate].
  - destruct b as [|latest rest]; [done|].
    apply Forall_cons in Hn as [Hl _].
    apply normalized_has_timestamp in Hl.
    split.
    + unfold get_sensor_data. rewrite !bind_read. cbv beta iota.
      unfold bind. rewrite !build_derived_eq.
      destruct (derive latest) as [p|e]; [|reflexivity].
      unfold ret, without_cache_status. cbn [fst status body].
      apply (f_equal Ok). apply (f_equal (Build_http_response 200)).
      rewrite !(delete_insert_ne _ "_cache_status" "_data_source") by done.
      rewrite !delete_insert_eq.
      by rewrite (snapshot_now_irrelevant _ _ (clock (S n2))).
    + intros l r E. cbn in E. apply Some_inj in E.
      apply (f_equal head) in E. cbn in E. apply Some_inj in E as <-.
      by apply build_derived_now_irrelevant.
Qed.

(** ** The history series *)

Lemma history_points_spec key rs : forall n,
  exists pts,
    history_points clock key rs n = (Ok pts, (n + length rs)%nat) /\
    length pts = length rs /\
    (Forall normalized rs ->
     Forall (real_key Point.timestamp point_q) pts).
Proof.
  induction rs as [|r rs IH]; intros n; cbn [history_points length].
  - exists []. rewrite Nat.add_0_r. repeat split. constructor.
  - rewrite bind_time. cbv zeta. unfold bind.
    destruct (IH (S n)) as (ps & E & L & F). rewrite E. unfold ret.
    replace (n + S (length rs))%nat with (S n + length rs)%nat by lia.
    eexists. split; [reflexivity|]. split; [cbn; lia|].
    intros [Hr Hrs]%Forall_cons. constructor; [|by apply F].
    destruct (normalized_timestamp r
                (dict_get r "_ts_num" (VReal (clock n))) Hr) as [t Ht].
    unfold real_key, point_q. cbn [Point.timestamp]. by rewrite Ht.
Qed.

Lemma minimal_dataset_eq cv n :
  minimal_dataset clock cv n = (Ok (minimal_points cv (clock n)), S n).
Proof. reflexivity. Qed.

Lemma minimal_points_oldest_first cv now :
  oldest_first (minimal_points cv now).
Proof.
  unfold oldest_first, minimal_points. repeat constructor.
  unfold py_leq. cbn. f_equal. apply Qle_bool_iff. lra.
Qed.

(** What a successful answer of the analysis endpoint is made of. *)
Lemma analysis_inv st tr c n resp :
  fst (get_sensor_analysis clock st tr c n) = Ok resp ->
  resp = AnalysisUnavailable \/
  exists b t built sorted,
    c = cache_of b t /\ b <> [] /\
    fst (history_points clock (key_of resp) (take (data_points tr) b)
           (S (S n))) = Ok built /\
    list_sort Point.timestamp false built = Ok sorted /\
    history_of resp =
      (if (length sorted <? 2)%nat
       then minimal_points (current_value_of resp)
              (clock (S (S n) + length (take (data_points tr) b))%nat)
       else sorted).
Proof.
  unfold get_sensor_analysis. intros H.
  destruct c as [[b|] [t|]];
    try (unfold bind in H; rewrite read_cache_none in H by (cbn; auto);
         apply Ok_inj in H as <-; by left).
  change {| data := Some b; timestamp := Some t |} with (cache_of b t) in H.
  rewrite bind_read in H.
  destruct b as [|latest rest].
  { apply Ok_inj in H as <-. by left. }
  cbv beta iota in H. unfold bind at 1 in H.
  rewrite build_derived_eq in H.
  destruct (derive latest) as [p|e]; [|discriminate].
  cbv beta iota zeta in H.
  destruct (sensor_key st) as [k u]. cbv beta iota in H.
  destruct (history_points_spec k (take (data_points tr) (latest :: rest))
              (S (S n))) as (built & Hb & _).
  unfold bind at 1 in H. rewrite Hb in H.
  rewrite bind_lift in H.
  destruct (list_sort Point.timestamp false built) as [sorted|] eqn:Hs;
    [|discriminate].
  right. exists (latest :: rest), t, built, sorted.
  unfold bind at 1 in H.
  destruct (length sorted <? 2)%nat.
  - rewrite minimal_dataset_eq in H. rewrite bind_time in H.
    unfold ret in H. cbn [fst] in H. apply Ok_inj in H as <-.
    cbn [key_of history_of current_value_of]. rewrite Hb.
    by repeat split.
  - unfold ret at 1 in H. rewrite bind_time in H.
    unfold ret in H. cbn [fst] in H. apply Ok_inj in H as <-.
    cbn [key_of history_of current_value_of]. rewrite Hb.
    by repeat split.
Qed.

Lemma data_points_pos tr : (1 <= data_points tr)%nat.
Proof. unfold data_points. repeat destruct (String.eqb _ _); lia. Qed.

(** C4 (amended).  The batch the fetcher returns is ordered newest
    first, and the history series the analysis endpoint returns for it
    is ordered oldest first; both orders allow equal timestamps. *)
Theorem batch_and_history_are_ordered (resp : upstream_response)
  (n0 : nat) (batch : list reading) :
  fst (fetch resp n0) = Ok batch ->
  newest_first batch /\
  forall st tr t n key unit cv h ts raw,
    fst (get_sensor_analysis clock st tr (cache_of batch t) n)
    = Ok (AnalysisOk key unit cv h ts raw) ->
    oldest_first h.
Proof.
  intros Hf.
  destruct (fetch_spec resp n0) as (l & n1 & E & Hn & Hs).
  rewrite E in Hf. apply Ok_inj in Hf as ->.
  split; [done|].
  intros st tr t n key unit cv h ts raw H.
  apply analysis_inv in H as [H | (b & t' & built & sorted & Hc & _ & Hb & Hso & Hh)];
    [discriminate|].
  cbn [history_of key_of current_value_of] in *.
  assert (b = batch) as -> by (unfold cache_of in Hc; congruence).
  rewrite Hh. destruct (length sorted <? 2)%nat.
  { apply minimal_points_oldest_first. }
  destruct (history_points_spec key (take (data_points tr) batch) (S (S n)))
    as (pts & Hp & _ & Hr).
  rewrite Hp in Hb. apply Ok_inj in Hb as ->.
  assert (Hk : Forall (real_key Point.timestamp point_q) built).
  { apply Hr. by apply Forall_take. }
  apply (sorted_py_leq Point.timestamp point_q).
  - apply list_sort_perm in Hso. by rewrite <- Hso.
  - by eapply list_sort_sorted.
Qed.

(** C10.  A history series the analysis endpoint returns has at least
    two points; when fewer than two were built from the cached
    readings it is exactly the two made-up points, both carrying the
    current value (0.0 when there is none), stamped with the clock read
    at that moment minus 10 seconds and with that clock read. *)
Theorem history_has_two_points (st tr : string) (c : smart_cache)
  (n : nat) (key unit : string) (cv : pyval) (h : list Point.t)
  (ts : pyval) (raw : reading) :
  fst (get_sensor_analysis clock st tr c n)
  = Ok (AnalysisOk key unit cv h ts raw) ->
  (2 <= length h)%nat /\
  forall b, data c = Some b ->
    (length (take (data_points tr) b) < 2)%nat ->
    h = minimal_points cv (clock (n + 3)).
Proof.
  intros H.
  apply analysis_inv in H as [H | (b & t & built & sorted & -> & Hne & Hb & Hso & Hh)];
    [discriminate|].
  cbn [history_of key_of current_value_of] in *.
  destruct (history_points_spec key (take (data_points tr) b) (S (S n)))
    as (pts & Hp & Hl & _).
  rewrite Hp in Hb. apply Ok_inj in Hb as ->.
  apply list_sort_length in Hso.
  split.
  - rewrite Hh. destruct (length sorted <? 2)%nat eqn:C; [cbn; lia|].
    apply Nat.ltb_ge in C. lia.
  - intros b' Hb' Hlt. cbn in Hb'. apply Some_inj in Hb' as <-.
    assert (length (take (data_points tr) b) = 1)%nat as L1.
    { pose proof (data_points_pos tr). rewrite length_take in *.
      destruct b; [done|]. cbn [length] in *. lia. }
    rewrite Hh. rewrite L1 in *.
    assert ((length sorted <? 2)%nat = true) as -> by (apply Nat.ltb_lt; lia).
    do 2 f_equal. lia.
Qed.

(** ** The alert engine on two readings *)

(** C1 (the code departs from the claim).  [flame_reading] reports a
    flame and its snapshot has [flame_detected] set, yet one evaluation
    of the alert engine emits no alert at all and [should_alert] is
    false: the flame rule compares the boolean with the string ["Yes"]. *)
Theorem flame_detected_raises_no_alert (t : Q) (n : nat) :
  snapshot_field (fst (build_derived flame_reading n)) "flame_detected"
  = Ok (Some (VBool true)) /\
  fst (get_alerts clock (cache_of [flame_reading] t) n)
  = Ok (AlertsOk [] (VReal (1761751282971802 # 1000000)) 0 false).
Proof.
  split; [vm_compute; reflexivity |].
  unfold get_alerts. rewrite bind_read. vm_compute. reflexivity.
Qed.

(** C2 (the code departs from the claim).  A cached batch whose latest
    reading lacks the two temperature fields makes the alert evaluation
    raise [KeyError] instead of returning an alert list. *)
Theorem alerts_raise_without_temperature (t : Q) (n : nat) :
  twin_reading 1000 !! "temperature_bmp280" = None /\
  fst (get_alerts clock (cache_of sample_batch t) n) = Raise KeyError.
Proof.
  split; [vm_compute; reflexivity |].
  unfold get_alerts. rewrite bind_read. vm_compute. reflexivity.
Qed.

(** C6 (the code departs from the claim).  The coercion helper itself
    never raises, but the snapshot is not always returned: a soil
    moisture of ["nan"] coerces to [nan], and [round] without a digit
    count then raises [ValueError]. *)
Theorem build_derived_raises_on_nan_soil (n : nat) :
  num nan_soil_reading "soil_moisture" (VInt 45) = VFloat NaN /\
  fst (build_derived nan_soil_reading n) = Raise ValueError.
Proof. split; vm_compute; reflexivity. Qed.

End Properties.

(* ===================================================================== *)
(** * The statements at sample inputs *)
(* ===================================================================== *)

Local Abbreviation sample_fetch :=
  (fetch_apex_readings sample_clock sample_strptime sample_fromtimestamp_ok).
Local Abbreviation sample_poller :=
  (continuous_apex_poller sample_clock sample_strptime
     sample_fromtimestamp_ok).

Lemma returned_ok {A} (dflt : A) (r : result A) :
  is_ok r = true -> r = Ok (returned dflt r).
Proof. by destruct r. Qed.

Lemma analysis_eta (r : analysis_response) :
  is_analysis r = true ->
  AnalysisOk (key_of r) (unit_of r) (current_value_of r) (history_of r)
    (timestamp_of r) (raw_data_of r) = r.
Proof. by destruct r. Qed.

Lemma sample_derived_ok (r : reading) :
  is_ok (fst (build_derived_from_reading sample_clock r 0%nat)) = true ->
  fst (build_derived_from_reading sample_clock r 0%nat)
  = Ok (sample_derived r).
Proof. apply returned_ok. Qed.

Lemma sample_analysis_ok (c : smart_cache) (n : nat) :
  is_analysis (sample_analysis c n) = true ->
  fst (get_sensor_analysis sample_clock "temperature" "hours" c n)
  = Ok (AnalysisOk (key_of (sample_analysis c n))
          (unit_of (sample_analysis c n))
          (current_value_of (sample_analysis c n))
          (history_of (sample_analysis c n))
          (timestamp_of (sample_analysis c n))
          (raw_data_of (sample_analysis c n))).
Proof.
  intros H. rewrite (analysis_eta _ H). apply returned_ok.
  unfold sample_analysis, returned in H.
  by destruct (fst (get_sensor_analysis sample_clock _ _ c n)).
Qed.

Lemma sample_fetch_twins :
  sample_fetch (Status 200 (Json twin_payload)) 0%nat = (Ok sample_batch, 2%nat).
Proof. vm_compute. reflexivity. Qed.

Lemma failing_responses_fail :
  Forall (fetch_fails sample_clock sample_strptime sample_fromtimestamp_ok)
    failing_responses.
Proof. repeat constructor. Qed.

(** C3: the claim fails on a reading with a low raw flame value and no
    [flame_detected]: the threshold says "flame", the snapshot says
    "no flame". *)
Lemma flame_threshold_not_used_when_absent :
  low_flame_raw_reading !! "flame_detected" = None /\
  py_lt (num low_flame_raw_reading "flame_raw" (VInt 4095)) (VInt 2000)
  = Ok true /\
  snapshot_field
    (fst (build_derived_from_reading sample_clock low_flame_raw_reading
            0%nat))
    "flame_detected"
  = Ok (Some (VBool false)).
Proof. repeat split; vm_compute; reflexivity. Qed.

Lemma flame_absent_means_not_detected_witness :
  (low_flame_raw_reading !! "flame_detected" = None /\
   sample_derived low_flame_raw_reading !! "flame_detected"
   = Some (VBool false)) /\
  (null_flame_reading !! "flame_detected" = Some VNone /\
   sample_derived null_flame_reading !! "flame_detected"
   = Some (VBool true)) /\
  (off_flame_reading !! "flame_detected" = Some (VStr "off") /\
   sample_derived off_flame_reading !! "flame_detected"
   = Some (VBool false)) /\
  (yes_flame_reading !! "flame_detected" = Some (VStr (" YES" +:+ nbsp)) /\
   sample_derived yes_flame_reading !! "flame_detected"
   = Some (VBool true)) /\
  (flame_reading !! "flame_detected" = Some (VInt 1) /\
   sample_derived flame_reading !! "flame_detected" = Some (VBool true)).
Proof.
  split; [| split; [| split; [| split]]].
  - split; [vm_compute; reflexivity|].
    apply (flame_absent_means_not_detected sample_clock
             low_flame_raw_reading 0%nat);
      [apply sample_derived_ok |]; vm_compute; reflexivity.
  - split; [vm_compute; reflexivity|].
    destruct (flame_absent_means_not_detected sample_clock
                null_flame_reading 0%nat (sample_derived null_flame_reading))
      as [_ T]; [apply sample_derived_ok; vm_compute; reflexivity|].
    destruct (T VNone) as (_ & _ & _ & _ & O);
      [vm_compute; reflexivity|].
    destruct O as (b & Hb & Hd); [by left|].
    vm_compute in Hb. apply Ok_inj in Hb as <-. exact Hd.
  - split; [vm_compute; reflexivity|].
    destruct (flame_absent_means_not_detected sample_clock
                off_flame_reading 0%nat (sample_derived off_flame_reading))
      as [_ T]; [apply sample_derived_ok; vm_compute; reflexivity|].
    destruct (T (VStr "off")) as (_ & _ & _ & S & _);
      [vm_compute; reflexivity|].
    etrans; [exact (S _ eq_refl) | vm_compute; reflexivity].
  - split; [vm_compute; reflexivity|].
    destruct (flame_absent_means_not_detected sample_clock
                yes_flame_reading 0%nat (sample_derived yes_flame_reading))
      as [_ T]; [apply sample_derived_ok; vm_compute; reflexivity|].
    destruct (T (VStr (" YES" +:+ nbsp))) as (_ & _ & _ & S & _);
      [vm_compute; reflexivity|].
    etrans; [exact (S _ eq_refl) | vm_compute; reflexivity].
  - split; [vm_compute; reflexivity|].
    destruct (flame_absent_means_not_detected sample_clock
                flame_reading 0%nat (sample_derived flame_reading))
      as [_ T]; [apply sample_derived_ok; vm_compute; reflexivity|].
    destruct (T (VInt 1)) as (_ & I & _); [vm_compute; reflexivity|].
    exact (I 1 eq_refl).
Defined.

(** C4: the claim fails on a payload of two records with the same
    upstream timestamp: the batch is returned, and it is not strictly
    ordered; neither is the history series built from it. *)
Lemma twin_batch_is_not_strictly_ordered :
  fst (sample_fetch (Status 200 (Json twin_payload)) 0%nat)
  = Ok sample_batch /\
  ~ strictly_newest_first sample_batch /\
  ~ strictly_oldest_first
      (history_of (sample_analysis (cache_of sample_batch 1002) 5%nat)).
Proof.
  split; [by rewrite sample_fetch_twins|]. split.
  - intros H. apply StronglySorted_inv in H as [_ F].
    apply Forall_inv in F. vm_compute in F. discriminate F.
  - assert (E : map Point.timestamp
                  (history_of (sample_analysis (cache_of sample_batch 1002)
                                 5%nat))
                = [ VReal (1761751282971802 # 1000000);
                    VReal (1761751282971802 # 1000000) ]).
    { vm_compute. reflexivity. }
    destruct (history_of _) as [|x [|y l]]; try discriminate E.
    intros H. apply StronglySorted_inv in H as [_ F].
    apply Forall_inv in F. unfold py_less in F.
    cbn [map] in E.
    assert (Point.timestamp x = VReal (1761751282971802 # 1000000)) as Hx
      by congruence.
    assert (Point.timestamp y = VReal (1761751282971802 # 1000000)) as Hy
      by congruence.
    rewrite Hx, Hy in F. vm_compute in F. discriminate F.
Qed.

Lemma batch_and_history_are_ordered_witness :
  fst (sample_fetch (Status 200 (Json twin_payload)) 0%nat)
  = Ok sample_batch /\
  newest_first sample_batch /\
  oldest_first
    (history_of (sample_analysis (cache_of sample_batch 1002) 5%nat)).
Proof.
  assert (F : fst (sample_fetch (Status 200 (Json twin_payload)) 0%nat)
              = Ok sample_batch) by (by rewrite sample_fetch_twins).
  split; [exact F|].
  destruct (batch_and_history_are_ordered sample_clock sample_strptime
              sample_fromtimestamp_ok _ _ _ F) as [N H].
  split; [exact N|].
  set (r := sample_analysis (cache_of sample_batch 1002) 5%nat).
  apply (H "temperature" "hours" 1002%Q 5%nat (key_of r) (unit_of r)
           (current_value_of r) (history_of r) (timestamp_of r)
           (raw_data_of r)).
  apply sample_analysis_ok. vm_compute. reflexivity.
Defined.

Lemma gas_deltas_are_clamped_witness :
  (sample_derived gas_reading !! "mq135_drop" = Some (VInt 0) /\
   exists g, rounded_one_decimal (b64 (-1.25)) g /\
             g = b64 (-1.2) /\
             sample_derived gas_reading !! "mq135_baseline"
             = Some (VFloat g)) /\
  exists g v, rounded_one_decimal (b64 812.34) g /\
              g = b64 812.3 /\
              sample_derived gas_reading !! "mq2_drop" = Some v /\
              num_equal v (VFloat g).
Proof.
  assert (D : fst (build_derived_from_reading sample_clock gas_reading 0%nat)
              = Ok (sample_derived gas_reading))
    by (apply sample_derived_ok; vm_compute; reflexivity).
  split.
  - destruct (gas_deltas_are_clamped sample_clock gas_reading 0%nat
                (sample_derived gas_reading) "mq135_drop" "mq135_baseline" D)
      as (_ & T & B).
    { apply list_elem_of_here. }
    split.
    + apply (T (b64 (-3.2))); vm_compute; reflexivity.
    + destruct (B (b64 (-1.25))) as (g & Hg & Hd); [vm_compute; reflexivity|].
      exists g. split; [exact Hg|]. split; [|exact Hd].
      assert (E : sample_derived gas_reading !! "mq135_baseline"
                  = Some (VFloat (b64 (-1.2))))
        by (vm_compute; reflexivity).
      rewrite Hd in E. congruence.
  - destruct (gas_deltas_are_clamped sample_clock gas_reading 0%nat
                (sample_derived gas_reading) "mq2_drop" "mq2_baseline" D)
      as (_ & T & _).
    { apply list_elem_of_further, list_elem_of_here. }
    destruct (T (b64 812.34)) as [_ P]; [vm_compute; reflexivity|].
    destruct P as (g & v & Hg & Hv & He & Hc); [vm_compute; reflexivity|].
    exists g, v. split; [exact Hg|]. split; [|by split].
    assert (E : sample_derived gas_reading !! "mq2_drop"
                = Some (VFloat (b64 812.3)))
      by (vm_compute; reflexivity).
    rewrite Hv in E. destruct Hc as [-> | ->]; congruence.
Defined.

(** The gas fields next to a rounding boundary and out of range, as
    Python computes them: 0.05 rounds to 0.1 and 750.15 to 750.1, a text
    padded with a no-break space or written in other digits is read, a
    literal too large is an infinity, and an integer too large or a text
    [float] rejects falls back to 0. *)
Example gas_fields_at_the_boundaries :
  (sample_derived boundary_reading !! "mq135_drop" = Some (VFloat (b64 0.1)) /\
   sample_derived boundary_reading !! "mq2_drop" = Some (VFloat (b64 750)) /\
   sample_derived boundary_reading !! "mq7_drop"
   = Some (VFloat (b64 750.1)) /\
   sample_derived boundary_reading !! "mq135_baseline"
   = Some (VFloat (b64 300.1)) /\
   sample_derived boundary_reading !! "mq2_baseline"
   = Some (VFloat (b64 800)) /\
   sample_derived boundary_reading !! "mq7_baseline"
   = Some (VFloat (b64 800))) /\
  (sample_derived out_of_range_reading !! "mq135_drop" = Some (VFloat PInf) /\
   sample_derived out_of_range_reading !! "mq2_drop" = Some (VInt 0) /\
   sample_derived out_of_range_reading !! "mq7_drop" = Some (VInt 0)).
Proof. repeat split; vm_compute; reflexivity. Qed.

Lemma stale_cache_stays_available_witness :
  (sample_fetch (Status 200 (Json twin_payload)) 0%nat
   = (Ok sample_batch, 2%nat) /\
   sample_batch <> [] /\
   Forall (fetch_fails sample_clock sample_strptime sample_fromtimestamp_ok)
     failing_responses) /\
  fst (poll_cycle sample_clock sample_strptime sample_fromtimestamp_ok
         (Status 200 (Json twin_payload)) empty_cache 0%nat)
  = Ok (cache_of sample_batch (sample_clock 2)) /\
  fst (sample_poller failing_responses (cache_of sample_batch (sample_clock 2)) 3%nat)
  = Ok (cache_of sample_batch (sample_clock 2)) /\
  fst (get_cached_apex_or_fetch sample_clock (cache_of sample_batch (sample_clock 2))
         40%nat)
  = Ok (Some sample_batch, "cache_stale_38s").
Proof.
  pose proof sample_fetch_twins as F.
  assert (N : sample_batch <> []) by discriminate.
  pose proof failing_responses_fail as Fl.
  split; [by repeat split|].
  destruct (stale_cache_stays_available sample_clock sample_strptime
              sample_fromtimestamp_ok empty_cache _ _ _ _ _ F N Fl)
    as (P & _ & R & L).
  split; [exact P|]. split; [exact (R 3%nat)|].
  destruct (L 40%nat) as (label & Hr & _ & Hs).
  cbv zeta in Hr, Hs. rewrite Hr. rewrite Hs; [| vm_compute; discriminate].
  apply (f_equal (fun l => Ok (Some sample_batch, l))).
  vm_compute. reflexivity.
Defined.

Lemma never_populated_means_no_data_witness :
  Forall (fetch_fails sample_clock sample_strptime sample_fromtimestamp_ok)
    failing_responses /\
  fst (sample_poller failing_responses empty_cache 0%nat) = Ok empty_cache /\
  fst (get_cached_apex_or_fetch sample_clock empty_cache 7%nat)
  = Ok (None, "no_data") /\
  fst (get_sensor_data sample_clock empty_cache 7%nat)
  = Ok {| status := 503; body := unavailable_body |}.
Proof.
  pose proof failing_responses_fail as Fl.
  split; [exact Fl|].
  destruct (never_populated_means_no_data sample_clock sample_strptime
              sample_fromtimestamp_ok failing_responses 0%nat Fl) as [P R].
  split; [exact P|].
  destruct (R 7%nat) as (A & B & _). by split.
Defined.

(** C9: the claim fails on the cache filled from [twin_payload] at
    second 1002: a call at second 1005 and a call at second 1050 answer
    with different [_cache_status] entries. *)
Lemma cache_status_differs_between_calls :
  fst (sample_poller [Status 200 (Json twin_payload)] empty_cache 0%nat)
  = Ok (cache_of sample_batch 1002) /\
  response_field
    (fst (get_sensor_data sample_clock (cache_of sample_batch 1002) 5%nat))
    "_cache_status"
  = Ok (Some (VStr "cache_age_3s")) /\
  response_field
    (fst (get_sensor_data sample_clock (cache_of sample_batch 1002) 50%nat))
    "_cache_status"
  = Ok (Some (VStr "cache_stale_48s")) /\
  fst (get_sensor_data sample_clock (cache_of sample_batch 1002) 5%nat)
  <> fst (get_sensor_data sample_clock (cache_of sample_batch 1002) 50%nat).
Proof.
  assert (A : response_field
    (fst (get_sensor_data sample_clock (cache_of sample_batch 1002) 5%nat))
    "_cache_status"
    = Ok (Some (VStr "cache_age_3s"))) by (vm_compute; reflexivity).
  assert (B : response_field
    (fst (get_sensor_data sample_clock (cache_of sample_batch 1002) 50%nat))
    "_cache_status"
    = Ok (Some (VStr "cache_stale_48s"))) by (vm_compute; reflexivity).
  split; [vm_compute; reflexivity|]. split; [exact A|]. split; [exact B|].
  intros E. rewrite E in A. rewrite A in B. discriminate B.
Qed.

Lemma sensor_data_repeats_up_to_cache_status_witness :
  fst (sample_poller [Status 200 (Json twin_payload)] empty_cache 0%nat)
  = Ok (cache_of sample_batch 1002) /\
  without_cache_status
    (fst (get_sensor_data sample_clock (cache_of sample_batch 1002) 5%nat))
  = without_cache_status
      (fst (get_sensor_data sample_clock (cache_of sample_batch 1002)
              50%nat)).
Proof.
  assert (P : fst (sample_poller [Status 200 (Json twin_payload)]
                     empty_cache 0%nat)
              = Ok (cache_of sample_batch 1002)) by (vm_compute; reflexivity).
  split; [exact P|].
  apply (sensor_data_repeats_up_to_cache_status sample_clock sample_strptime
           sample_fromtimestamp_ok _ _ _ 5%nat 50%nat P).
Defined.

Lemma history_has_two_points_witness :
  (2 <= length (history_of
                  (sample_analysis (cache_of [flame_reading] 1000) 0%nat)))%nat
  /\
  history_of (sample_analysis (cache_of [flame_reading] 1000) 0%nat)
  = minimal_points
      (current_value_of
         (sample_analysis (cache_of [flame_reading] 1000) 0%nat))
      (sample_clock 3).
Proof.
  set (r := sample_analysis (cache_of [flame_reading] 1000) 0%nat).
  destruct (history_has_two_points sample_clock "temperature" "hours"
              (cache_of [flame_reading] 1000) 0%nat (key_of r) (unit_of r)
              (current_value_of r) (history_of r) (timestamp_of r)
              (raw_data_of r)) as [L S].
  { apply sample_analysis_ok. vm_compute. reflexivity. }
  split; [exact L|].
  apply (S [flame_reading]); [reflexivity | vm_compute; lia].
Defined.

(* ===================================================================== *)
(** * Further properties *)
(* ===================================================================== *)

Section Further.

Variable clock : nat -> Q.
Variable strptime_timestamp : string -> option Q.
Variable fromtimestamp_ok : Q -> bool.

Local Abbreviation build_derived := (build_derived_from_reading clock).
Local Abbreviation fetch :=
  (fetch_apex_readings clock strptime_timestamp fromtimestamp_ok).
Local Abbreviation read_cache := (get_cached_apex_or_fetch clock).
Local Abbreviation norm_item := (normalize_item clock strptime_timestamp).
Local Abbreviation norm_items := (normalize_items clock strptime_timestamp).
Local Abbreviation norm_payload :=
  (normalize_payload clock strptime_timestamp fromtimestamp_ok).

(** ** The fetcher and the records it is given *)

Lemma fetch_json data n :
  fetch (Status 200 (Json data)) n = catch (norm_payload data) (ret []) n.
Proof. reflexivity. Qed.

Lemma fetch_nonempty_inv resp n batch :
  fst (fetch resp n) = Ok batch -> batch <> [] ->
  exists data, resp = Status 200 (Json data).
Proof.
  intros H Hne.
  assert (E : fst ((ret [] : M (list reading)) n) = Ok batch -> False).
  { unfold ret. cbn [fst]. intros E. apply Ok_inj in E. by subst. }
  unfold fetch_apex_readings in H.
  destruct resp as [|code body]; [by apply E in H|].
  destruct (code =? 200) eqn:C.
  - apply Z.eqb_eq in C as ->.
    destruct body as [| |payload]; try (by apply E in H). by eexists.
  - apply Z.eqb_neq in C.
    destruct code as [|p|p]; try (by apply E in H).
    do 8 (destruct p as [p|p|]; try (by apply E in H)).
    congruence.
Qed.

Lemma normalize_item_dict d idx n :
  exists r n', norm_item idx (VDict d) n = (Ok r, n') /\
    forall k, k ∉ stamp_keys -> r !! k = d !! k.
Proof.
  unfold normalize_item.
  destruct (resolve_timestamp_ok clock strptime_timestamp idx d n)
    as (t & n1 & Ht).
  unfold bind at 1. rewrite Ht. rewrite bind_time. unfold ret.
  eexists _, _. split; [reflexivity|].
  intros k Hk. unfold stamp_keys in Hk.
  apply not_elem_of_cons in Hk as [K1 Hk].
  apply not_elem_of_cons in Hk as [K2 Hk].
  apply not_elem_of_cons in Hk as [K3 _].
  rewrite lookup_insert_ne by done. rewrite lookup_insert_ne by done.
  by rewrite lookup_insert_ne.
Qed.

Lemma normalize_item_copy idx it n r n' :
  norm_item idx it n = (Ok r, n') -> stamped_copy it r.
Proof.
  destruct it; try discriminate. intros H.
  destruct (normalize_item_dict d idx n) as (r' & n1 & E & Hk).
  rewrite E in H. apply pair_eq in H as [H _]. apply Ok_inj in H as <-.
  by exists d.
Qed.

Lemma normalize_items_copy items : forall idx n l n',
  norm_items idx items n = (Ok l, n') -> Forall2 stamped_copy items l.
Proof.
  induction items as [|it items IH]; intros idx n l n' H; cbn in H.
  - unfold ret in H. apply pair_eq in H as [H _].
    apply Ok_inj in H as <-. constructor.
  - apply bind_ok_full in H as (x & n1 & Hx & H).
    apply bind_ok_full in H as (xs & n2 & Hxs & H).
    unfold ret in H. apply pair_eq in H as [H _]. apply Ok_inj in H as <-.
    constructor; [by eapply normalize_item_copy | by eapply IH].
Qed.

Lemma normalize_items_raise items it : forall idx n,
  it ∈ items -> is_dict it = false ->
  exists e n', norm_items idx items n = (Raise e, n').
Proof.
  induction items as [|x items IH]; intros idx n Hin Hd.
  - by apply elem_of_nil in Hin.
  - cbn [normalize_items]. destruct (is_dict x) eqn:Hx.
    + destruct x; try discriminate.
      destruct (normalize_item_dict d idx n) as (r & n1 & E & _).
      unfold bind at 1. rewrite E.
      apply elem_of_cons in Hin as [->|Hin]; [discriminate|].
      destruct (IH (S idx) n1 Hin Hd) as (e & n2 & E2).
      unfold bind at 1. rewrite E2. by eexists _, _.
    + unfold bind at 1.
      destruct x; try discriminate; by eexists _, _.
Qed.

(** X1 — [fetch_apex_readings]: a batch that is not empty is a
    rearrangement of the records of the payload, one reading per record,
    and every reading is its record with nothing changed but the three
    entries [timestamp], [_ts_num] and [_pull_time]. *)
Theorem fetch_keeps_upstream_fields (resp : upstream_response) (n : nat)
  (batch : list reading) :
  fst (fetch resp n) = Ok batch ->
  batch <> [] ->
  exists data items copies,
    resp = Status 200 (Json data) /\
    payload_items data = Some items /\
    Forall2 stamped_copy items copies /\
    Permutation copies batch.
Proof.
  intros H Hne.
  destruct (fetch_nonempty_inv _ _ _ H Hne) as [data ->].
  rewrite fetch_json in H. unfold catch in H.
  destruct (norm_payload data n) as [[l|e] n1] eqn:E; cbn [fst] in H.
  - apply Ok_inj in H as ->. unfold normalize_payload in E.
    destruct (payload_items data) as [items|] eqn:Hp.
    + apply bind_ok_full in E as (xs & n2 & Hxs & E).
      rewrite bind_lift in E.
      destruct (list_sort ts_num true xs) as [s|] eqn:Hs; [|discriminate].
      rewrite bind_lift in E. destruct (log_latest _ s); [|discriminate].
      unfold ret in E. apply pair_eq in E as [E _]. apply Ok_inj in E as <-.
      exists data, items, xs. repeat split; [done| |].
      * by eapply normalize_items_copy.
      * by eapply list_sort_perm.
    + unfold ret in E. apply pair_eq in E as [E _]. apply Ok_inj in E.
      by subst.
  - unfold ret in H. cbn [fst] in H. apply Ok_inj in H. by subst.
Qed.

(** X2 — [fetch_apex_readings]: one record that is not a JSON object
    discards the whole payload: the batch is empty whatever the other
    records hold. *)
Theorem malformed_record_empties_batch (data : pyval) (items : list pyval)
  (it : pyval) (n : nat) :
  payload_items data = Some items ->
  it ∈ items ->
  is_dict it = false ->
  fst (fetch (Status 200 (Json data)) n) = Ok [].
Proof.
  intros Hp Hin Hd. rewrite fetch_json. unfold catch, normalize_payload.
  rewrite Hp.
  destruct (normalize_items_raise items it 0%nat n Hin Hd) as (e & n1 & E).
  unfold bind at 1. by rewrite E.
Qed.

(** ** The parts of a snapshot *)

Lemma rbind_Ok {A B} (a : A) (k : A -> result B) : (x ← Ok a; k x) = k a.
Proof. reflexivity. Qed.

Lemma derive_inv r p :
  derive r = Ok p ->
  parts_of r p /\
  band3 (p_mq135_drop p) 200 500 "Good" "Poor" "Moderate"
  = Ok (p_air_quality p) /\
  band3 (p_mq2_drop p) 300 750 "Safe" "High" "Elevated"
  = Ok (p_flammable_gas p) /\
  band3 (p_mq7_drop p) 300 750 "Safe" "High" "Elevated"
  = Ok (p_co_level p).
Proof.
  unfold derive. intros H.
  do 17 (apply rbind_ok in H as (? & ? & H)).
  apply Ok_inj in H as <-.
  unfold parts_of; cbn [p_temperature p_mq135_drop p_mq2_drop p_mq7_drop
    p_mq135_baseline p_mq2_baseline p_mq7_baseline p_light p_flame
    p_co2_level p_humidity p_pressure p_altitude p_soil_moisture
    p_air_quality p_flammable_gas p_co_level].
  repeat split; assumption.
Qed.

Lemma build_derived_parts r n d :
  fst (build_derived r n) = Ok d ->
  exists p, derive r = Ok p /\ d = snapshot r (clock n) p.
Proof.
  rewrite build_derived_eq. destruct (derive r) as [p|e]; [|discriminate].
  cbn [fst]. intros H. apply Ok_inj in H. by exists p.
Qed.

Lemma snapshot_lookup_more r now p :
  let d := snapshot r now p in
  d !! "co2_level" = Some (p_co2_level p) /\
  d !! "light" = Some (p_light p) /\
  d !! "light_raw" = Some (p_light p) /\
  d !! "pressure" = Some (p_pressure p) /\
  d !! "altitude" = Some (p_altitude p) /\
  d !! "soil_moisture" = Some (p_soil_moisture p) /\
  d !! "air_quality" = Some (p_air_quality p) /\
  d !! "flammable_gas" = Some (p_flammable_gas p) /\
  d !! "co_level" = Some (p_co_level p) /\
  d !! "flame_status" = Some (VStr (flame_status_of (p_flame p))).
Proof.
  intros d; subst d; unfold snapshot.
  destruct p as [t m1 m2 m3 b1 b2 b3 li fl co hu pr al so aq fg cl].
  generalize (dict_get r "timestamp" (dict_get r "_ts_num" (VReal now))).
  generalize (flame_status_of fl).
  intros s v. repeat split; vm_compute; reflexivity.
Qed.

Lemma num_cases r key dflt :
  (exists f, py_float (dict_get r key dflt) = Ok f /\
             num r key dflt = VFloat f) \/
  (exists e, py_float (dict_get r key dflt) = Raise e /\
             num r key dflt = dflt).
Proof.
  unfold num. destruct (py_float _) as [f|e]; [left | right]; by eexists.
Qed.

Lemma clamp_clamped x : clamped (clamp x).
Proof.
  unfold clamp. destruct (f_lt (Fin 0) x) eqn:E; [right | by left].
  by exists x.
Qed.

Lemma gas_drop_clamped r key : exists x, gas_drop r key = Ok x /\ clamped x.
Proof.
  destruct (py_float (dict_get r key (VInt 0))) as [f|e] eqn:E.
  - rewrite (gas_drop_ok _ _ _ E). eexists; split; [done|].
    apply clamp_clamped.
  - rewrite (gas_drop_raise _ _ _ E). eexists; split; [done|]. by left.
Qed.

(** On a clamped value [<=] is the negation of [>]. *)
Lemma clamped_le_gt x a :
  clamped x ->
  exists c, py_gt x (VInt a) = Ok c /\ py_le x (VInt a) = Ok (negb c).
Proof.
  intros [->|(f & -> & Hf)].
  - eexists; split; [reflexivity|]. cbn. unfold Qltb.
    by rewrite negb_involutive.
  - destruct f as [q| | |]; try discriminate.
    + eexists; split; [reflexivity|]. cbn. unfold Qltb.
      by rewrite negb_involutive.
    + by exists true.
Qed.

Lemma clamped_gt_mono x a b :
  a <= b -> clamped x ->
  py_gt x (VInt b) = Ok true -> py_gt x (VInt a) = Ok true.
Proof.
  intros Hab [->|(f & -> & Hf)].
  - cbn. intros H. apply Ok_inj in H. apply Qltb_lt in H.
    f_equal. apply Qltb_lt. unfold Qlt in *; cbn in *. lia.
  - destruct f as [q| | |]; try discriminate; [|done].
    cbn. intros H. apply Ok_inj in H. apply Qltb_lt in H.
    f_equal. apply Qltb_lt.
    eapply Qle_lt_trans; [|exact H]. unfold Qle; cbn. lia.
Qed.

Lemma band3_clamped x a b lo hi mid :
  a <= b -> clamped x ->
  exists g1 g2,
    py_gt x (VInt b) = Ok g1 /\ py_gt x (VInt a) = Ok g2 /\
    (g1 = true -> g2 = true) /\
    band3 x a b lo hi mid
    = Ok (VStr (if g1 then hi else if g2 then mid else lo)).
Proof.
  intros Hab Hx.
  destruct (clamped_le_gt x a Hx) as (g2 & G2 & L2).
  destruct (clamped_le_gt x b Hx) as (g1 & G1 & _).
  exists g1, g2. repeat split; try done.
  - intros ->. pose proof (clamped_gt_mono x a b Hab Hx G1) as E.
    rewrite G2 in E. by apply Ok_inj in E.
  - unfold band3. rewrite L2, rbind_Ok.
    destruct g2; cbn [negb].
    + by rewrite G1, rbind_Ok; destruct g1.
    + destruct g1; [|done].
      pose proof (clamped_gt_mono x a b Hab Hx G1) as E.
      rewrite G2 in E. by apply Ok_inj in E.
Qed.

Lemma co2_level_clamped x :
  clamped x ->
  exists f, co2_level_of x = Ok (VFloat f) /\ f_le (Fin 400) f = true.
Proof.
  intros [->|(f & -> & Hf)].
  - eexists; split; [reflexivity|]. vm_compute. reflexivity.
  - destruct f as [q| | |]; try discriminate.
    + eexists; split; [reflexivity|]. cbn in Hf |- *.
      apply Qltb_lt in Hf.
      change (f_le (Fin (inject_Z 400))
                (b64 (round_half_even ((inject_Z 400 + q * 1.2) * 10) # 10))
              = true).
      apply b64_ge_int; [lia|].
      assert (L : 4000 <= round_half_even ((inject_Z 400 + q * 1.2) * 10)).
      { apply round_half_even_ge. unfold inject_Z. lra. }
      unfold Qle; cbn. lia.
    + by eexists.
Qed.

Lemma f_div_nonzero a q :
  Qeq_bool q 0 = false -> exists g, f_div a (Fin q) = Ok g.
Proof. intros H. destruct a; cbn; rewrite H; by eexists. Qed.

Lemma temperature_of_ok r :
  exists v, temperature_of r = Ok v /\ (v = VNone \/ exists f, v = VFloat f).
Proof.
  unfold temperature_of.
  destruct (num_cases r "temperature_bmp280" VNone) as
    [(f1 & _ & ->)|(e1 & _ & ->)];
  destruct (num_cases r "temperature_dht22" VNone) as
    [(f2 & _ & ->)|(e2 & _ & ->)]; cbn [is_none negb andb].
  - cbn. unfold n_truediv. cbn [n_float].
    destruct (f_div_nonzero (f_add f1 f2) 2 eq_refl) as [g ->]. cbn.
    eexists; split; [reflexivity|]. right. by eexists.
  - eexists; split; [reflexivity|]. right. by eexists.
  - eexists; split; [reflexivity|]. right. by eexists.
  - eexists; split; [reflexivity|]. by left.
Qed.

Lemma gas_baseline_total r key :
  exists v, gas_baseline r key = Ok v.
Proof.
  unfold gas_baseline.
  destruct (num_cases r key (VInt 0)) as [(f & _ & ->)|(e & _ & ->)];
    by eexists.
Qed.

Lemma light_intensity_ok r :
  exists v n, light_intensity_of r = Ok v /\ as_number v = Some n.
Proof.
  unfold light_intensity_of.
  destruct (num_cases r "light_raw" VNone) as [(f & _ & ->)|(e & _ & ->)];
    cbn [is_none negb]; [by eexists _, _|].
  destruct (num_cases r "light_percent" VNone) as
    [(f & _ & ->)|(e' & _ & ->)]; cbn [is_none negb]; [|by eexists _, _].
  cbn. unfold n_truediv. cbn [n_float].
  destruct (f_div_nonzero f 100 eq_refl) as [g ->]. cbn.
  by eexists _, _.
Qed.

Lemma flame_detected_ok r : exists b, flame_detected_of r = Ok b.
Proof.
  unfold flame_detected_of.
  destruct (isinstance_int_float _); [by eexists|].
  destruct (isinstance_bool _); [by eexists|].
  destruct (num_cases r "flame_raw" (VInt 4095)) as
    [(f & _ & ->)|(e & _ & ->)];
    destruct (dict_get r "flame_detected" (VInt 0)); by eexists.
Qed.

Lemma round1_num_float r key q :
  exists f, py_round1 (num r key (VReal q)) = Ok (VFloat f).
Proof.
  destruct (num_cases r key (VReal q)) as [(f & _ & ->)|(e & _ & ->)];
    by eexists.
Qed.

(** Everything but the soil moisture always has a value. *)
Lemma derive_soil r :
  match py_round (num r "soil_moisture" (VInt 45)) with
  | Ok _ => exists p, derive r = Ok p
  | Raise e => derive r = Raise e
  end.
Proof.
  unfold derive.
  destruct (temperature_of_ok r) as (t & -> & _). rewrite rbind_Ok.
  destruct (gas_drop_clamped r "mq135_drop") as (x1 & -> & H1).
  rewrite rbind_Ok.
  destruct (gas_drop_clamped r "mq2_drop") as (x2 & -> & H2).
  rewrite rbind_Ok.
  destruct (gas_drop_clamped r "mq7_drop") as (x3 & -> & H3).
  rewrite rbind_Ok.
  destruct (gas_baseline_total r "mq135_baseline") as (b1 & ->).
  rewrite rbind_Ok.
  destruct (gas_baseline_total r "mq2_baseline") as (b2 & ->).
  rewrite rbind_Ok.
  destruct (gas_baseline_total r "mq7_baseline") as (b3 & ->).
  rewrite rbind_Ok.
  destruct (light_intensity_ok r) as (l & ? & -> & _). rewrite rbind_Ok.
  destruct (flame_detected_ok r) as (fl & ->). rewrite rbind_Ok.
  destruct (co2_level_clamped x1 H1) as (c & -> & _). rewrite rbind_Ok.
  destruct (round1_num_float r "humidity" 0) as (h & ->). rewrite rbind_Ok.
  destruct (round1_num_float r "pressure" 0) as (pr & ->). rewrite rbind_Ok.
  destruct (round1_num_float r "altitude" 0) as (al & ->). rewrite rbind_Ok.
  destruct (py_round (num r "soil_moisture" (VInt 45))) as [sm|e];
    [rewrite rbind_Ok | reflexivity].
  destruct (band3_clamped x1 200 500 "Good" "Poor" "Moderate" ltac:(lia) H1)
    as (? & ? & _ & _ & _ & ->). rewrite rbind_Ok.
  destruct (band3_clamped x2 300 750 "Safe" "High" "Elevated" ltac:(lia) H2)
    as (? & ? & _ & _ & _ & ->). rewrite rbind_Ok.
  destruct (band3_clamped x3 300 750 "Safe" "High" "Elevated" ltac:(lia) H3)
    as (? & ? & _ & _ & _ & ->). rewrite rbind_Ok.
  by eexists.
Qed.

(** X3 — [build_derived_from_reading]: the soil moisture is the only
    input that can make it raise.  It returns a snapshot exactly when the
    value that [soil_moisture] coerces to, if any, is finite; every other
    field can be missing, null, text or of any other type. *)
Theorem build_derived_fails_only_on_soil (r : reading) (n : nat) :
  (exists d, fst (build_derived r n) = Ok d) <->
  (forall f, py_float (dict_get r "soil_moisture" (VInt 45)) = Ok f ->
             exists q, f = Fin q).
Proof.
  rewrite build_derived_eq. pose proof (derive_soil r) as H.
  destruct (num_cases r "soil_moisture" (VInt 45)) as
    [(f & E & N)|(e & E & N)]; rewrite N in H.
  - destruct f as [q| | |]; cbn in H.
    + destruct H as (p & ->). split; [|by eexists].
      intros _ f' E'. rewrite E in E'. apply Ok_inj in E' as <-. by eexists.
    + rewrite H. split; [by intros (d & D)|].
      intros F. destruct (F _ E). discriminate.
    + rewrite H. split; [by intros (d & D)|].
      intros F. destruct (F _ E). discriminate.
    + rewrite H. split; [by intros (d & D)|].
      intros F. destruct (F _ E). discriminate.
  - cbn in H. destruct H as (p & ->). split; [|by eexists].
    intros _ f' E'. rewrite E in E'. discriminate.
Qed.

(** X4 — [build_derived_from_reading]: the CO2 estimate of a snapshot
    is a float that is never below 400, because it is computed from the
    clamped delta. *)
Theorem co2_level_is_at_least_400 (r : reading) (n : nat) (d : reading) :
  fst (build_derived r n) = Ok d ->
  exists f, d !! "co2_level" = Some (VFloat f) /\ f_le (Fin 400) f = true.
Proof.
  intros H. apply build_derived_parts in H as (p & Hp & ->).
  apply derive_inv in Hp as ((_ & D1 & _ & _ & _ & _ & _ & _ & _ & C & _) & _).
  destruct (gas_drop_clamped r "mq135_drop") as (x & E & Hx).
  rewrite E in D1. apply Ok_inj in D1. subst x.
  destruct (co2_level_clamped _ Hx) as (f & E' & Hf).
  rewrite E' in C. apply Ok_inj in C.
  exists f. split; [|done].
  rewrite (proj1 (snapshot_lookup_more r (clock n) p)). by rewrite <- C.
Qed.

(** ** The alert rules *)

Lemma one_alert_raises cd ts title msg st sev v u snd :
  cd !! "timestamp" = Some ts ->
  exists l, one (mk_alert cd title msg st sev v u snd) = Ok l /\
            raises l (Some (st, sev, snd, v, ts)).
Proof.
  intros T. unfold one, mk_alert, dict_item. rewrite T.
  eexists; split; reflexivity.
Qed.

Lemma no_alert_raises :
  exists l : list Alert.t, Ok [] = Ok l /\ raises l None.
Proof. by exists []. Qed.

Lemma co_rule_facts cd ts g1 g2 :
  cd !! "timestamp" = Some ts ->
  py_gt (dict_get cd "mq7_drop" (VInt 0)) (VInt 750) = Ok g1 ->
  py_gt (dict_get cd "mq7_drop" (VInt 0)) (VInt 300) = Ok g2 ->
  exists l, co_rule cd = Ok l /\
    raises l (co_alert (dict_get cd "mq7_drop" (VInt 0)) ts g1 g2).
Proof.
  intros T G1 G2. unfold co_rule, co_alert. cbv zeta. rewrite G1, rbind_Ok.
  destruct g1; [by apply one_alert_raises|]. rewrite G2, rbind_Ok.
  destruct g2; [by apply one_alert_raises | apply no_alert_raises].
Qed.

Lemma gas_rule_facts cd ts g1 g2 :
  cd !! "timestamp" = Some ts ->
  py_gt (dict_get cd "mq2_drop" (VInt 0)) (VInt 750) = Ok g1 ->
  py_gt (dict_get cd "mq2_drop" (VInt 0)) (VInt 300) = Ok g2 ->
  exists l, gas_rule cd = Ok l /\
    raises l (gas_alert (dict_get cd "mq2_drop" (VInt 0)) ts g1 g2).
Proof.
  intros T G1 G2. unfold gas_rule, gas_alert. cbv zeta. rewrite G1, rbind_Ok.
  destruct g1; [by apply one_alert_raises|]. rewrite G2, rbind_Ok.
  destruct g2; [by apply one_alert_raises | apply no_alert_raises].
Qed.

Lemma air_quality_rule_facts cd ts g1 g2 :
  cd !! "timestamp" = Some ts ->
  py_gt (dict_get cd "mq135_drop" (VInt 0)) (VInt 500) = Ok g1 ->
  py_gt (dict_get cd "mq135_drop" (VInt 0)) (VInt 200) = Ok g2 ->
  exists l, air_quality_rule cd = Ok l /\
    raises l (air_alert (dict_get cd "mq135_drop" (VInt 0)) ts g1 g2).
Proof.
  intros T G1 G2. unfold air_quality_rule, air_alert. cbv zeta. rewrite G1, rbind_Ok.
  destruct g1; [by apply one_alert_raises|]. rewrite G2, rbind_Ok.
  destruct g2; [by apply one_alert_raises | apply no_alert_raises].
Qed.

Lemma humidity_rule_facts cd ts f :
  cd !! "timestamp" = Some ts ->
  dict_get cd "humidity" (VInt 0) = VFloat f ->
  exists l, humidity_rule cd = Ok l /\ raises l (humidity_alert f ts).
Proof.
  intros T H. unfold humidity_rule, humidity_alert. cbv zeta. rewrite H.
  change (py_lt (VFloat f) (VInt 45)) with (Ok (f_lt f (Fin 45))).
  change (py_gt (VFloat f) (VInt 80)) with (Ok (f_lt (Fin 80) f)).
  change (py_gt (VFloat f) (VInt 70)) with (Ok (f_lt (Fin 70) f)).
  rewrite rbind_Ok.
  destruct (f_lt f (Fin 45)) eqn:C1; [by apply one_alert_raises|].
  rewrite rbind_Ok.
  destruct (f_lt (Fin 80) f); [by apply one_alert_raises|].
  unfold or_else. rewrite rbind_Ok, rbind_Ok.
  destruct (f_lt (Fin 70) f); [by apply one_alert_raises|].
  apply no_alert_raises.
Qed.

Lemma py_truediv_float s k v :
  py_truediv s k = Ok v -> exists f, v = VFloat f.
Proof.
  unfold py_truediv. destruct (as_number s), (as_number k); try discriminate.
  destruct (n_truediv _ _); [|discriminate].
  cbn. intros H. apply Ok_inj in H as <-. by eexists.
Qed.

Lemma temperature_rule_facts cd ts b d s f :
  cd !! "timestamp" = Some ts ->
  cd !! "temperature_bmp280" = Some b ->
  cd !! "temperature_dht22" = Some d ->
  py_add b d = Ok s ->
  py_truediv s (VInt 2) = Ok (VFloat f) ->
  exists l, temperature_rule cd = Ok l /\ raises l (temperature_alert f ts).
Proof.
  intros T B D S A. unfold temperature_rule, temperature_alert, dict_item.
  rewrite B, rbind_Ok, D, rbind_Ok, S, rbind_Ok, A, rbind_Ok.
  change (py_lt (VFloat f) (VInt 18)) with (Ok (f_lt f (Fin 18))).
  change (py_gt (VFloat f) (VInt 30)) with (Ok (f_lt (Fin 30) f)).
  change (py_lt (VFloat f) (VInt 20)) with (Ok (f_lt f (Fin 20))).
  change (py_gt (VFloat f) (VInt 27)) with (Ok (f_lt (Fin 27) f)).
  rewrite rbind_Ok.
  destruct (f_lt f (Fin 18)); [by apply one_alert_raises|].
  rewrite rbind_Ok.
  destruct (f_lt (Fin 30) f); [by apply one_alert_raises|].
  unfold or_else. rewrite rbind_Ok.
  destruct (f_lt f (Fin 20)); cbn [orb].
  - rewrite rbind_Ok. by apply one_alert_raises.
  - rewrite rbind_Ok.
    destruct (f_lt (Fin 27) f); [by apply one_alert_raises|].
    apply no_alert_raises.
Qed.

Lemma temperature_rule_inv cd l :
  temperature_rule cd = Ok l ->
  exists b d s f,
    cd !! "temperature_bmp280" = Some b /\
    cd !! "temperature_dht22" = Some d /\
    py_add b d = Ok s /\
    py_truediv s (VInt 2) = Ok (VFloat f).
Proof.
  unfold temperature_rule, dict_item. intros H.
  destruct (cd !! "temperature_bmp280") as [b|]; [|discriminate].
  rewrite rbind_Ok in H.
  destruct (cd !! "temperature_dht22") as [d|]; [|discriminate].
  rewrite rbind_Ok in H.
  destruct (py_add b d) as [s|] eqn:S; [|discriminate].
  rewrite rbind_Ok in H.
  destruct (py_truediv s (VInt 2)) as [a|] eqn:A; [|discriminate].
  destruct (py_truediv_float _ _ _ A) as [f ->].
  by exists b, d, s, f.
Qed.

Lemma flame_rule_bool cd b :
  cd !! "flame_detected" = Some (VBool b) -> flame_rule cd = Ok [].
Proof. unfold flame_rule, dict_get. by intros ->. Qed.

Lemma raises_inv l x :
  raises l x ->
  match x with
  | Some f => exists a, l = [a] /\ facts a = f
  | None => l = []
  end.
Proof.
  unfold raises. destruct x as [f|].
  - destruct l as [|a [|b l]]; cbn; try discriminate.
    intros H. exists a. split; [done|]. congruence.
  - by destruct l.
Qed.

(** The snapshot entries the rules read, seen through the merge. *)
Lemma alert_data_lookup latest now p :
  let cd := alert_data latest now p in
  cd !! "timestamp" = snapshot latest now p !! "timestamp" /\
  dict_get cd "mq7_drop" (VInt 0) = p_mq7_drop p /\
  dict_get cd "mq2_drop" (VInt 0) = p_mq2_drop p /\
  dict_get cd "mq135_drop" (VInt 0) = p_mq135_drop p /\
  dict_get cd "humidity" (VInt 0) = p_humidity p /\
  cd !! "flame_detected" = Some (VBool (p_flame p)) /\
  cd !! "temperature_bmp280" = latest !! "temperature_bmp280" /\
  cd !! "temperature_dht22" = latest !! "temperature_dht22".
Proof.
  intros cd; subst cd; unfold alert_data.
  destruct (snapshot_lookup latest now p) as
    (L1 & L2 & L3 & L4 & _ & _ & _ & L8 & _ & L10 & L11 & L12 & _).
  unfold dict_get.
  rewrite (lookup_union_Some_l _ latest _ _ L1).
  rewrite (lookup_union_Some_l _ latest _ _ L2).
  rewrite (lookup_union_Some_l _ latest _ _ L3).
  rewrite (lookup_union_Some_l _ latest _ _ L4).
  rewrite (lookup_union_Some_l _ latest _ _ L8).
  rewrite (lookup_union_Some_l _ latest _ _ L10).
  rewrite (lookup_union_r _ latest _ L11).
  rewrite (lookup_union_r _ latest _ L12).
  rewrite L10. repeat split; reflexivity.
Qed.

Lemma get_alerts_inv c n alerts ts count should_alert :
  fst (get_alerts clock c n) = Ok (AlertsOk alerts ts count should_alert) ->
  exists latest rest p,
    data c = Some (latest :: rest) /\
    derive latest = Ok p /\
    let cd := alert_data latest (clock (S n)) p in
    evaluate_rules cd = Ok alerts /\
    cd !! "timestamp" = Some ts /\
    count = length alerts /\
    should_alert = existsb Alert.sound alerts.
Proof.
  unfold get_alerts. destruct c as [[b|] [t|]].
  - change {| data := Some b; timestamp := Some t |} with (cache_of b t).
    rewrite bind_read. cbn [fst data cache_of].
    destruct b as [|latest rest]; [discriminate|].
    intros H. apply bind_ok in H as (d & n1 & Hd & H).
    rewrite build_derived_eq in Hd.
    destruct (derive latest) as [p|] eqn:Hp; [|discriminate].
    apply pair_eq in Hd as [Hd _]. apply Ok_inj in Hd as <-.
    rewrite bind_lift in H.
    destruct (evaluate_rules _) as [al|] eqn:Hal; [|discriminate].
    rewrite bind_lift in H. unfold dict_item in H.
    destruct (_ !! "timestamp") as [ts'|] eqn:Hts; [|discriminate].
    unfold ret in H. cbn [fst] in H. apply Ok_inj in H.
    exists latest, rest, p. cbv zeta.
    assert (al = alerts /\ ts' = ts /\ length al = count
            /\ existsb Alert.sound al = should_alert) as (-> & -> & <- & <-)
      by (repeat split; congruence).
    by repeat split.
  - unfold bind at 1. rewrite read_cache_none by (by right). discriminate.
  - unfold bind at 1. rewrite read_cache_none by (by left). discriminate.
  - unfold bind at 1. rewrite read_cache_none by (by left). discriminate.
Qed.

Lemma evaluate_rules_inv cd alerts :
  evaluate_rules cd = Ok alerts ->
  exists a1 a2 a3 a4 a5 a6,
    flame_rule cd = Ok a1 /\ co_rule cd = Ok a2 /\ gas_rule cd = Ok a3 /\
    temperature_rule cd = Ok a4 /\ humidity_rule cd = Ok a5 /\
    air_quality_rule cd = Ok a6 /\
    alerts = (a1 ++ a2 ++ a3 ++ a4 ++ a5 ++ a6)%list.
Proof.
  unfold evaluate_rules. intros H.
  do 6 (apply rbind_ok in H as (? & ? & H)).
  apply Ok_inj in H. by eexists _, _, _, _, _, _.
Qed.

(** What each rule makes of the data [get_alerts] gives it. *)
Lemma alert_data_timestamp latest now p :
  exists ts, alert_data latest now p !! "timestamp" = Some ts.
Proof.
  destruct (alert_data_lookup latest now p) as (-> & _).
  rewrite (proj1 (proj2 (proj2 (proj2 (proj2 (proj2 (proj2 (proj2 (proj2
    (proj2 (snapshot_lookup latest now p))))))))))).
  by eexists.
Qed.

Lemma channel_tests x a b lo hi mid label :
  a <= b -> clamped x ->
  band3 x a b lo hi mid = Ok label ->
  exists g1 g2,
    py_gt x (VInt b) = Ok g1 /\ py_gt x (VInt a) = Ok g2 /\
    (g1 = true -> g2 = true) /\
    label = VStr (if g1 then hi else if g2 then mid else lo).
Proof.
  intros Hab Hx B.
  destruct (band3_clamped x a b lo hi mid Hab Hx) as (g1 & g2 & ? & ? & ? & E).
  rewrite E in B. apply Ok_inj in B. by exists g1, g2.
Qed.

Lemma parts_clamped r p :
  derive r = Ok p ->
  clamped (p_mq135_drop p) /\ clamped (p_mq2_drop p) /\
  clamped (p_mq7_drop p).
Proof.
  intros H. apply derive_inv in H as ((_ & D1 & D2 & D3 & _) & _).
  repeat split.
  - destruct (gas_drop_clamped r "mq135_drop") as (x & E & Hx).
    rewrite E in D1. apply Ok_inj in D1. by subst.
  - destruct (gas_drop_clamped r "mq2_drop") as (x & E & Hx).
    rewrite E in D2. apply Ok_inj in D2. by subst.
  - destruct (gas_drop_clamped r "mq7_drop") as (x & E & Hx).
    rewrite E in D3. apply Ok_inj in D3. by subst.
Qed.

Lemma co_part latest now p ts :
  derive latest = Ok p ->
  alert_data latest now p !! "timestamp" = Some ts ->
  exists g1 g2 l,
    py_gt (p_mq7_drop p) (VInt 750) = Ok g1 /\
    py_gt (p_mq7_drop p) (VInt 300) = Ok g2 /\
    (g1 = true -> g2 = true) /\
    p_co_level p = VStr (if g1 then "High" else if g2 then "Elevated"
                         else "Safe") /\
    co_rule (alert_data latest now p) = Ok l /\
    raises l (co_alert (p_mq7_drop p) ts g1 g2).
Proof.
  intros Hp T. destruct (parts_clamped _ _ Hp) as (_ & _ & Hx).
  apply derive_inv in Hp as (_ & _ & _ & B).
  destruct (channel_tests _ 300 750 _ _ _ _ ltac:(lia) Hx B)
    as (g1 & g2 & G1 & G2 & M & L).
  destruct (alert_data_lookup latest now p) as (_ & E & _).
  destruct (co_rule_facts _ ts g1 g2 T) as (l & R & F);
    rewrite ?E; try done.
  rewrite E in F. by exists g1, g2, l.
Qed.

Lemma gas_part latest now p ts :
  derive latest = Ok p ->
  alert_data latest now p !! "timestamp" = Some ts ->
  exists g1 g2 l,
    py_gt (p_mq2_drop p) (VInt 750) = Ok g1 /\
    py_gt (p_mq2_drop p) (VInt 300) = Ok g2 /\
    (g1 = true -> g2 = true) /\
    p_flammable_gas p = VStr (if g1 then "High" else if g2 then "Elevated"
                              else "Safe") /\
    gas_rule (alert_data latest now p) = Ok l /\
    raises l (gas_alert (p_mq2_drop p) ts g1 g2).
Proof.
  intros Hp T. destruct (parts_clamped _ _ Hp) as (_ & Hx & _).
  apply derive_inv in Hp as (_ & _ & B & _).
  destruct (channel_tests _ 300 750 _ _ _ _ ltac:(lia) Hx B)
    as (g1 & g2 & G1 & G2 & M & L).
  destruct (alert_data_lookup latest now p) as (_ & _ & E & _).
  destruct (gas_rule_facts _ ts g1 g2 T) as (l & R & F);
    rewrite ?E; try done.
  rewrite E in F. by exists g1, g2, l.
Qed.

Lemma air_part latest now p ts :
  derive latest = Ok p ->
  alert_data latest now p !! "timestamp" = Some ts ->
  exists g1 g2 l,
    py_gt (p_mq135_drop p) (VInt 500) = Ok g1 /\
    py_gt (p_mq135_drop p) (VInt 200) = Ok g2 /\
    (g1 = true -> g2 = true) /\
    p_air_quality p = VStr (if g1 then "Poor" else if g2 then "Moderate"
                            else "Good") /\
    air_quality_rule (alert_data latest now p) = Ok l /\
    raises l (air_alert (p_mq135_drop p) ts g1 g2).
Proof.
  intros Hp T. destruct (parts_clamped _ _ Hp) as (Hx & _ & _).
  apply derive_inv in Hp as (_ & B & _ & _).
  destruct (channel_tests _ 200 500 _ _ _ _ ltac:(lia) Hx B)
    as (g1 & g2 & G1 & G2 & M & L).
  destruct (alert_data_lookup latest now p) as (_ & _ & _ & E & _).
  destruct (air_quality_rule_facts _ ts g1 g2 T) as (l & R & F);
    rewrite ?E; try done.
  rewrite E in F. by exists g1, g2, l.
Qed.

Lemma humidity_part latest now p ts :
  derive latest = Ok p ->
  alert_data latest now p !! "timestamp" = Some ts ->
  exists h l,
    p_humidity p = VFloat h /\
    humidity_rule (alert_data latest now p) = Ok l /\
    raises l (humidity_alert h ts).
Proof.
  intros Hp T.
  apply derive_inv in Hp as
    ((_ & _ & _ & _ & _ & _ & _ & _ & _ & _ & H & _) & _).
  destruct (round1_num_float latest "humidity" 0) as (h & E).
  rewrite E in H. apply Ok_inj in H.
  destruct (alert_data_lookup latest now p) as (_ & _ & _ & _ & L & _).
  rewrite <- H in L.
  destruct (humidity_rule_facts _ ts h T L) as (l & R & F).
  by exists h, l.
Qed.

Lemma temperature_part latest now p ts l :
  alert_data latest now p !! "timestamp" = Some ts ->
  temperature_rule (alert_data latest now p) = Ok l ->
  exists b d s f,
    latest !! "temperature_bmp280" = Some b /\
    latest !! "temperature_dht22" = Some d /\
    py_add b d = Ok s /\
    py_truediv s (VInt 2) = Ok (VFloat f) /\
    raises l (temperature_alert f ts).
Proof.
  intros T R.
  destruct (temperature_rule_inv _ _ R) as (b & d & s & f & B & D & S & A).
  destruct (temperature_rule_facts _ ts b d s f T B D S A) as (l' & R' & F).
  rewrite R in R'. apply Ok_inj in R' as <-.
  destruct (alert_data_lookup latest now p) as (_ & _ & _ & _ & _ & _ & LB & LD).
  rewrite LB in B. rewrite LD in D. by exists b, d, s, f.
Qed.

Lemma flame_part latest now p :
  flame_rule (alert_data latest now p) = Ok [].
Proof.
  destruct (alert_data_lookup latest now p) as (_ & _ & _ & _ & _ & L & _).
  by eapply flame_rule_bool.
Qed.

Lemma raises_severities l x :
  raises l x ->
  severities l = match x with Some f => [f.1.1.1.2] | None => [] end.
Proof.
  intros H. apply raises_inv in H. destruct x as [f|].
  - destruct H as (a & -> & <-). reflexivity.
  - by subst.
Qed.

(** X5 — [build_derived_from_reading] and the rules of [get_alerts]:
    on the data the alert endpoint builds from a reading, the category
    labels of the snapshot and the gas and air-quality rules use the
    same thresholds.  [Safe] / [Good] goes with no alert, [Elevated]
    with a high alert, [High] with a critical one, [Moderate] with a
    low and [Poor] with a medium air-quality alert; and these three
    rules always return. *)
Theorem labels_agree_with_alert_rules (latest : reading) (n : nat)
  (d : reading) :
  fst (build_derived latest n) = Ok d ->
  let current_data := d ∪ latest in
  (exists l, air_quality_rule current_data = Ok l /\
             agree air_table (d !! "air_quality") l) /\
  (exists l, gas_rule current_data = Ok l /\
             agree gas_table (d !! "flammable_gas") l) /\
  (exists l, co_rule current_data = Ok l /\
             agree gas_table (d !! "co_level") l).
Proof.
  intros H. apply build_derived_parts in H as (p & Hp & ->).
  change (snapshot latest (clock n) p ∪ latest)
    with (alert_data latest (clock n) p).
  destruct (alert_data_timestamp latest (clock n) p) as (ts & T).
  destruct (snapshot_lookup_more latest (clock n) p)
    as (_ & _ & _ & _ & _ & _ & LA & LG & LC & _).
  cbv zeta. rewrite LA, LG, LC. repeat split.
  - destruct (air_part _ _ _ _ Hp T) as (g1 & g2 & l & _ & _ & M & -> & R & F).
    exists l. split; [done|]. apply raises_severities in F.
    unfold agree, air_table.
    destruct g1; [|destruct g2]; eexists _, _;
      (split; [reflexivity|]); (split; [pick_row | exact F]).
  - destruct (gas_part _ _ _ _ Hp T) as (g1 & g2 & l & _ & _ & M & -> & R & F).
    exists l. split; [done|]. apply raises_severities in F.
    unfold agree, gas_table.
    destruct g1; [|destruct g2]; eexists _, _;
      (split; [reflexivity|]); (split; [pick_row | exact F]).
  - destruct (co_part _ _ _ _ Hp T) as (g1 & g2 & l & _ & _ & M & -> & R & F).
    exists l. split; [done|]. apply raises_severities in F.
    unfold agree, gas_table.
    destruct g1; [|destruct g2]; eexists _, _;
      (split; [reflexivity|]); (split; [pick_row | exact F]).
Qed.

Lemma raises_part name ts l x :
  raises l x ->
  (forall st sev snd v t, x = Some (st, sev, snd, v, t) ->
     st = name /\ t = ts /\
     (snd = true <->
      sev = "critical" \/ sev = "high" \/
      (st = "air_quality" /\ sev = "medium"))) ->
  sublist (map Alert.sensor_type l) [name] /\
  Forall (fun a => Alert.timestamp a = ts /\ (Alert.sound a = true <-> loud a))
    l.
Proof.
  intros H C. apply raises_inv in H. destruct x as [[[[[st sev] snd] v] t]|].
  - destruct H as (a & -> & F).
    destruct (C _ _ _ _ _ eq_refl) as (-> & -> & S).
    unfold facts in F.
    assert (Alert.sensor_type a = name /\ Alert.severity a = sev /\
            Alert.sound a = snd /\ Alert.timestamp a = ts)
      as (E1 & E2 & E3 & E4) by (repeat split; congruence).
    split.
    + cbn. rewrite E1. reflexivity.
    + constructor; [|constructor]. split; [done|].
      unfold loud. by rewrite E1, E2, E3.
  - subst l. split; [apply sublist_nil_l | constructor].
Qed.

Lemma co_alert_part x ts g1 g2 l :
  raises l (co_alert x ts g1 g2) ->
  sublist (map Alert.sensor_type l) ["carbon_monoxide"] /\
  Forall (fun a => Alert.timestamp a = ts /\ (Alert.sound a = true <-> loud a))
    l.
Proof.
  intros H. apply (raises_part _ _ _ _ H). unfold co_alert.
  destruct g1; [|destruct g2]; try discriminate; rule_facts.
Qed.

Lemma gas_alert_part x ts g1 g2 l :
  raises l (gas_alert x ts g1 g2) ->
  sublist (map Alert.sensor_type l) ["flammable_gas"] /\
  Forall (fun a => Alert.timestamp a = ts /\ (Alert.sound a = true <-> loud a))
    l.
Proof.
  intros H. apply (raises_part _ _ _ _ H). unfold gas_alert.
  destruct g1; [|destruct g2]; try discriminate; rule_facts.
Qed.

Lemma air_alert_part x ts g1 g2 l :
  raises l (air_alert x ts g1 g2) ->
  sublist (map Alert.sensor_type l) ["air_quality"] /\
  Forall (fun a => Alert.timestamp a = ts /\ (Alert.sound a = true <-> loud a))
    l.
Proof.
  intros H. apply (raises_part _ _ _ _ H). unfold air_alert.
  destruct g1; [|destruct g2]; try discriminate; rule_facts.
Qed.

Lemma temperature_alert_part f ts l :
  raises l (temperature_alert f ts) ->
  sublist (map Alert.sensor_type l) ["temperature"] /\
  Forall (fun a => Alert.timestamp a = ts /\ (Alert.sound a = true <-> loud a))
    l.
Proof.
  intros H. apply (raises_part _ _ _ _ H). unfold temperature_alert.
  destruct (f_lt f (Fin 18)); [rule_facts|].
  destruct (f_lt (Fin 30) f); [rule_facts|].
  destruct (f_lt f (Fin 20) || f_lt (Fin 27) f); [rule_facts | discriminate].
Qed.

Lemma humidity_alert_part f ts l :
  raises l (humidity_alert f ts) ->
  sublist (map Alert.sensor_type l) ["humidity"] /\
  Forall (fun a => Alert.timestamp a = ts /\ (Alert.sound a = true <-> loud a))
    l.
Proof.
  intros H. apply (raises_part _ _ _ _ H). unfold humidity_alert.
  destruct (f_lt f (Fin 45)); [rule_facts|].
  destruct (f_lt (Fin 80) f); [rule_facts|].
  destruct (f_lt (Fin 70) f); [rule_facts | discriminate].
Qed.

Lemma temp_avg_present cd b d :
  cd !! "temperature_bmp280" = Some b ->
  cd !! "temperature_dht22" = Some d ->
  temp_avg_of cd = (s ← py_add b d; py_truediv s (VInt 2)).
Proof. unfold temp_avg_of, dict_get. by intros -> ->. Qed.

(** The alerts of one evaluation, rule by rule. *)
Lemma alerts_anatomy latest now p alerts ts :
  derive latest = Ok p ->
  evaluate_rules (alert_data latest now p) = Ok alerts ->
  alert_data latest now p !! "timestamp" = Some ts ->
  exists a2 a3 a4 a5 a6 c1 c2 g1 g2 q1 q2 f h,
    alerts = (a2 ++ a3 ++ a4 ++ a5 ++ a6)%list /\
    py_gt (p_mq7_drop p) (VInt 750) = Ok c1 /\
    raises a2 (co_alert (p_mq7_drop p) ts c1 c2) /\
    py_gt (p_mq2_drop p) (VInt 750) = Ok g1 /\
    raises a3 (gas_alert (p_mq2_drop p) ts g1 g2) /\
    raises a4 (temperature_alert f ts) /\
    raises a5 (humidity_alert h ts) /\
    raises a6 (air_alert (p_mq135_drop p) ts q1 q2) /\
    py_gt (p_mq7_drop p) (VInt 300) = Ok c2 /\
    py_gt (p_mq2_drop p) (VInt 300) = Ok g2 /\
    py_gt (p_mq135_drop p) (VInt 500) = Ok q1 /\
    py_gt (p_mq135_drop p) (VInt 200) = Ok q2 /\
    p_humidity p = VFloat h /\
    temp_avg_of latest = Ok (VFloat f).
Proof.
  intros Hp R T.
  apply evaluate_rules_inv in R as
    (a1 & a2 & a3 & a4 & a5 & a6 & R1 & R2 & R3 & R4 & R5 & R6 & ->).
  rewrite flame_part in R1. apply Ok_inj in R1 as <-.
  destruct (co_part _ _ _ _ Hp T) as (c1 & c2 & l2 & C1 & C2 & _ & _ & E2 & F2).
  rewrite R2 in E2. apply Ok_inj in E2 as <-.
  destruct (gas_part _ _ _ _ Hp T) as (g1 & g2 & l3 & G1 & G2 & _ & _ & E3 & F3).
  rewrite R3 in E3. apply Ok_inj in E3 as <-.
  destruct (temperature_part _ _ _ _ _ T R4)
    as (b & d & s & f & B & D & S & A & F4).
  destruct (humidity_part _ _ _ _ Hp T) as (h & l5 & H & E5 & F5).
  rewrite R5 in E5. apply Ok_inj in E5 as <-.
  destruct (air_part _ _ _ _ Hp T) as (q1 & q2 & l6 & Q1 & Q2 & _ & _ & E6 & F6).
  rewrite R6 in E6. apply Ok_inj in E6 as <-.
  exists a2, a3, a4, a5, a6, c1, c2, g1, g2, q1, q2, f, h.
  repeat split; try done.
  by rewrite (temp_avg_present _ _ _ B D), S, rbind_Ok.
Qed.

(** X6 — [get_alerts]: whenever the endpoint answers with alerts, there
    is at most one alert per sensor, the sensors come in the order
    carbon monoxide, flammable gas, temperature, humidity, air quality
    (so at most five alerts, none of them for the flame sensor),
    [alert_count] is their number, every alert carries the timestamp of
    the response, an alert has its sound flag set exactly when it is
    critical or high or reports poor air quality, and [should_alert] is
    true exactly when there is such an alert. *)
Theorem alerts_follow_the_rule_order (c : smart_cache) (n : nat)
  (alerts : list Alert.t) (ts : pyval) (count : nat) (should_alert : bool) :
  fst (get_alerts clock c n) = Ok (AlertsOk alerts ts count should_alert) ->
  sublist (map Alert.sensor_type alerts) rule_order /\
  count = length alerts /\
  Forall (fun a => Alert.timestamp a = ts /\ (Alert.sound a = true <-> loud a))
    alerts /\
  (should_alert = true <-> Exists loud alerts).
Proof.
  intros H.
  apply get_alerts_inv in H as (latest & rest & p & _ & Hp & R & T & -> & ->).
  destruct (alerts_anatomy _ _ _ _ _ Hp R T) as
    (a2 & a3 & a4 & a5 & a6 & c1 & c2 & g1 & g2 & q1 & q2 & f & h
     & -> & _ & F2 & _ & F3 & F4 & F5 & F6 & _).
  apply co_alert_part in F2 as [S2 A2].
  apply gas_alert_part in F3 as [S3 A3].
  apply temperature_alert_part in F4 as [S4 A4].
  apply humidity_alert_part in F5 as [S5 A5].
  apply air_alert_part in F6 as [S6 A6].
  assert (A : Forall (fun a => Alert.timestamp a = ts /\
                               (Alert.sound a = true <-> loud a))
                (a2 ++ a3 ++ a4 ++ a5 ++ a6)).
  { repeat (apply Forall_app; split); assumption. }
  repeat split; [|done| |].
  - rewrite !map_app.
    change rule_order with
      (["carbon_monoxide"] ++ ["flammable_gas"] ++ ["temperature"]
       ++ ["humidity"] ++ ["air_quality"])%list.
    repeat (apply sublist_app; [assumption|]). assumption.
  - intros E. apply existsb_exists in E as (a & Ha & Sa).
    apply list_elem_of_In in Ha.
    apply Exists_exists. exists a. split; [done|].
    rewrite Forall_forall in A. by apply (A a Ha).
  - intros E. apply Exists_exists in E as (a & Ha & La).
    apply existsb_exists. exists a. split; [by apply list_elem_of_In|].
    rewrite Forall_forall in A. by apply (A a Ha).
Qed.

(** X7 — [build_derived_from_reading] and [get_alerts]: when the
    latest reading's [mq2_drop] (or [mq7_drop]) coerces to a number
    whose rounding to one decimal exceeds 750 and the endpoint answers,
    the answer holds a critical alert for that channel that carries the
    rounded value and has its sound flag set, and [should_alert] is
    true. *)
Theorem critical_gas_always_sounds (latest : reading) (rest : list reading)
  (t : Q) (n : nat) (alerts : list Alert.t) (ts : pyval) (count : nat)
  (should_alert : bool) (key sensor : string) (f : pyfloat) :
  fst (get_alerts clock (cache_of (latest :: rest) t) n)
  = Ok (AlertsOk alerts ts count should_alert) ->
  (key, sensor) ∈ gas_alert_channels ->
  py_float (dict_get latest key (VInt 0)) = Ok f ->
  f_lt (Fin 750) (f_round1 f) = true ->
  should_alert = true /\
  exists a, a ∈ alerts /\
            facts a = (sensor, "critical", true, VFloat (f_round1 f), ts).
Proof.
  intros H Hk Hf Hc.
  apply get_alerts_inv in H as (l' & r' & p & D & Hp & R & T & -> & ->).
  cbn [data cache_of] in D. assert (l' = latest) as -> by congruence.
  destruct (alerts_anatomy _ _ _ _ _ Hp R T) as
    (a2 & a3 & a4 & a5 & a6 & c1 & c2 & g1 & g2 & q1 & q2 & f' & h
     & -> & C1 & F2 & G1 & F3 & _).
  pose proof (derive_inv _ _ Hp) as ((_ & _ & D2 & D3 & _) & _).
  assert (Hx : clamp (f_round1 f) = VFloat (f_round1 f)).
  { unfold clamp.
    assert (f_lt (Fin 0) (f_round1 f) = true) as ->; [|done].
    destruct (f_round1 f) as [q| | |]; try done.
    cbn in Hc |- *. apply Qltb_lt in Hc. apply Qltb_lt. lra. }
  assert (W : exists a, a ∈ (a2 ++ a3 ++ a4 ++ a5 ++ a6)%list /\
                facts a = (sensor, "critical", true, VFloat (f_round1 f), ts)).
  { unfold gas_alert_channels in Hk.
    apply elem_of_cons in Hk as [Hk|Hk];
      [|apply elem_of_cons in Hk as [Hk|Hk]; [|by apply elem_of_nil in Hk]];
      apply pair_eq in Hk as [-> ->].
    - rewrite (gas_drop_ok _ _ _ Hf), Hx in D2. apply Ok_inj in D2.
      rewrite <- D2 in G1, F3.
      change (py_gt (VFloat (f_round1 f)) (VInt 750))
        with (Ok (f_lt (Fin 750) (f_round1 f))) in G1.
      rewrite Hc in G1. apply Ok_inj in G1 as <-.
      apply raises_inv in F3 as (a & -> & Fa). exists a. split; [|done].
      apply elem_of_app. right. apply elem_of_app. left.
      apply list_elem_of_here.
    - rewrite (gas_drop_ok _ _ _ Hf), Hx in D3. apply Ok_inj in D3.
      rewrite <- D3 in C1, F2.
      change (py_gt (VFloat (f_round1 f)) (VInt 750))
        with (Ok (f_lt (Fin 750) (f_round1 f))) in C1.
      rewrite Hc in C1. apply Ok_inj in C1 as <-.
      apply raises_inv in F2 as (a & -> & Fa). exists a. split; [|done].
      apply elem_of_app. left. apply list_elem_of_here. }
  split; [|exact W].
  destruct W as (a & Ha & Fa). apply existsb_exists. exists a.
  split; [by apply list_elem_of_In|]. unfold facts in Fa. congruence.
Qed.

(** ** The merged response of [get_sensor_data] *)

Lemma snapshot_dom r now p k :
  snapshot r now p !! k = None <-> k ∉ derived_keys.
Proof. unfold snapshot. rewrite <- not_elem_of_list_to_map. reflexivity. Qed.

Lemma public_fields_lookup latest k :
  public_fields latest !! k
  = if startswith "_" k then None else latest !! k.
Proof.
  unfold public_fields. destruct (startswith "_" k) eqn:S.
  - apply map_lookup_filter_None. right. intros x _ P.
    change (startswith "_" k = false) in P. congruence.
  - destruct (latest !! k) as [x|] eqn:L.
    + apply map_lookup_filter_Some. by split.
    + apply map_lookup_filter_None. by left.
Qed.

Lemma merged_lookup latest now p k :
  (snapshot latest now p ∪ public_fields latest) !! k
  = if bool_decide (k ∈ derived_keys) then snapshot latest now p !! k
    else if startswith "_" k then None
    else latest !! k.
Proof.
  case_bool_decide as Hk.
  - destruct (snapshot latest now p !! k) as [x|] eqn:E.
    + by apply lookup_union_Some_l.
    + by apply snapshot_dom in E.
  - rewrite lookup_union_r by (by apply snapshot_dom).
    apply public_fields_lookup.
Qed.

(** X8 — [get_sensor_data]: the body of a 200 answer, entry by entry.
    [_data_source] is ["apex"], [_cache_status] is the freshness label,
    each of the 22 snapshot keys holds the derived value (whatever the
    raw record has under that name), every other key that starts with an
    underscore is absent (so [_ts_num] and [_pull_time] never leak), and
    any other key holds the raw record's value. *)
Theorem sensor_data_body_entries (latest : reading) (rest : list reading)
  (t : Q) (n : nat) (resp : http_response) :
  fst (get_sensor_data clock (cache_of (latest :: rest) t) n) = Ok resp ->
  status resp = 200 /\
  exists d,
    fst (build_derived latest (S n)) = Ok d /\
    forall k,
      body resp !! k =
        if String.eqb k "_data_source" then Some (VStr "apex")
        else if String.eqb k "_cache_status"
             then Some (VStr (freshness_label (clock n - t)))
        else if bool_decide (k ∈ derived_keys) then d !! k
        else if startswith "_" k then None
        else latest !! k.
Proof.
  unfold get_sensor_data. rewrite bind_read. cbv beta iota.
  unfold bind. rewrite build_derived_eq.
  destruct (derive latest) as [p|e]; [|discriminate].
  unfold ret. cbn [fst]. intros H. apply Ok_inj in H as <-.
  cbn [status body]. split; [reflexivity|].
  eexists. split; [reflexivity|]. intros k.
  destruct (String.eqb_spec k "_data_source") as [->|N1].
  { by rewrite lookup_insert_eq. }
  rewrite lookup_insert_ne by done.
  destruct (String.eqb_spec k "_cache_status") as [->|N2].
  { by rewrite lookup_insert_eq. }
  rewrite lookup_insert_ne by done.
  apply merged_lookup.
Qed.

(** ** The values of the analysis endpoint *)

Lemma sensor_key_range st : (sensor_key st).1 ∈ derived_keys.
Proof.
  unfold sensor_key. cbv zeta.
  repeat lazymatch goal with
         | |- (if ?b then _ else _).1 ∈ _ => destruct b
         end; cbn [fst]; unfold derived_keys; pick_row.
Qed.

Lemma float_of_float v w : float_of v = Ok w -> is_float w.
Proof.
  unfold float_of. destruct (py_float v) as [f|]; [|discriminate].
  cbn. intros H. apply Ok_inj in H as <-. by exists f.
Qed.

Lemma try_float_of v q : is_float (try_except (float_of v) (VReal q)).
Proof.
  destruct (float_of v) as [w|] eqn:E; cbn.
  - by eapply float_of_float.
  - by eexists.
Qed.

Lemma extract_float_or_none rd key :
  extract_value_for_sensor rd key = VNone \/
  is_float (extract_value_for_sensor rd key).
Proof.
  assert (T : forall r : result pyval,
            (forall w, r = Ok w -> w = VNone \/ is_float w) ->
            try_except r VNone = VNone \/ is_float (try_except r VNone)).
  { intros [w|e] Hr; cbn; [by apply Hr | by left]. }
  assert (F : forall v w, float_of v = Ok w -> w = VNone \/ is_float w).
  { intros v w E. right. by eapply float_of_float. }
  unfold extract_value_for_sensor. apply T. intros w.
  destruct (String.eqb key "temperature").
  { destruct (negb (is_none (dict_get rd "temperature" VNone))); [apply F|].
    destruct (negb (is_none (dict_get rd "temperature_bmp280" VNone)));
      destruct (negb (is_none (dict_get rd "temperature_dht22" VNone)));
      cbn [andb]; try apply F.
    - intros H. apply rbind_ok in H as (x & _ & H).
      apply rbind_ok in H as (y & _ & H). apply rbind_ok in H as (s' & _ & H).
      right. by eapply py_truediv_float.
    - intros H. apply Ok_inj in H as <-. by left. }
  destruct (String.eqb key "light").
  { destruct (negb (is_none (dict_get rd "light_raw" VNone))); [apply F|].
    destruct (negb (is_none (dict_get rd "light" VNone))); [apply F|].
    destruct (negb (is_none (dict_get rd "light_percent" VNone))).
    - intros H. apply rbind_ok in H as (x & _ & H).
      apply rbind_ok in H as (y & _ & H).
      right. by eapply py_truediv_float.
    - intros H. apply Ok_inj in H as <-. by left. }
  destruct (dict_has rd key).
  { intros H. apply rbind_ok in H as (x & _ & H). by eapply F. }
  destruct (dict_has rd (key +:+ "_raw")).
  { intros H. apply rbind_ok in H as (x & _ & H). by eapply F. }
  intros H. apply Ok_inj in H as <-. by left.
Qed.

Lemma history_points_float key rs : forall n pts n',
  history_points clock key rs n = (Ok pts, n') ->
  Forall (fun pt => is_float (Point.value pt)) pts.
Proof.
  induction rs as [|r rs IH]; intros n pts n' H; cbn [history_points] in H.
  - unfold ret in H. apply pair_eq in H as [H _]. apply Ok_inj in H as <-.
    constructor.
  - rewrite bind_time in H. cbv zeta in H.
    apply bind_ok_full in H as (ps & n1 & Hps & H).
    unfold ret in H. apply pair_eq in H as [H _]. apply Ok_inj in H as <-.
    constructor; [|by eapply IH]. cbn [Point.value].
    destruct (extract_float_or_none r key) as [->|F].
    + cbn [is_none]. apply try_float_of.
    + destruct F as [f ->]. cbn [is_none]. by exists f.
Qed.

(** What a successful answer of the analysis endpoint is made of. *)
Lemma analysis_anatomy st tr c n key unit cv h ts raw :
  fst (get_sensor_analysis clock st tr c n)
  = Ok (AnalysisOk key unit cv h ts raw) ->
  exists latest rest t p built sorted,
    c = cache_of (latest :: rest) t /\
    derive latest = Ok p /\
    sensor_key st = (key, unit) /\
    raw = <["_cache_status" := VStr (freshness_label (clock n - t))]>
            (<["_data_source" := VStr "apex"]>
               (snapshot latest (clock (S n)) p ∪ public_fields latest)) /\
    cv = (if is_none (extract_value_for_sensor raw key) && dict_has raw key
          then try_except (float_of (dict_get raw key VNone)) (VReal 0)
          else extract_value_for_sensor raw key) /\
    history_points clock key (take (data_points tr) (latest :: rest))
      (S (S n))
    = (Ok built,
       (S (S n) + length (take (data_points tr) (latest :: rest)))%nat) /\
    list_sort Point.timestamp false built = Ok sorted /\
    h = (if (length sorted <? 2)%nat
         then minimal_points cv
                (clock (S (S n)
                        + length (take (data_points tr) (latest :: rest)))%nat)
         else sorted).
Proof.
  unfold get_sensor_analysis. intros H.
  destruct c as [[b|] [t|]];
    try (unfold bind in H; rewrite read_cache_none in H by (cbn; auto);
         discriminate).
  change {| data := Some b; timestamp := Some t |} with (cache_of b t) in H.
  rewrite bind_read in H.
  destruct b as [|latest rest]; [discriminate|].
  cbv beta iota in H. unfold bind at 1 in H.
  rewrite build_derived_eq in H.
  destruct (derive latest) as [p|e] eqn:Hp; [|discriminate].
  cbv beta iota zeta in H.
  destruct (sensor_key st) as [k u]. cbv beta iota in H.
  destruct (history_points_spec clock k
              (take (data_points tr) (latest :: rest)) (S (S n)))
    as (built & Hb & _).
  unfold bind at 1 in H. rewrite Hb in H.
  rewrite bind_lift in H.
  destruct (list_sort Point.timestamp false built) as [sorted|] eqn:Hs;
    [|discriminate].
  exists latest, rest, t, p, built, sorted.
  unfold bind at 1 in H.
  destruct (length sorted <? 2)%nat.
  - rewrite minimal_dataset_eq in H. rewrite bind_time in H.
    unfold ret in H. cbn [fst] in H. apply Ok_inj in H.
    pose proof (f_equal key_of H) as E1. pose proof (f_equal unit_of H) as E2.
    pose proof (f_equal current_value_of H) as E3.
    pose proof (f_equal history_of H) as E4.
    pose proof (f_equal raw_data_of H) as E6.
    cbn [key_of unit_of current_value_of history_of raw_data_of] in *.
    subst key unit raw. rewrite <- E4, E3. by repeat split.
  - unfold ret at 1 in H. rewrite bind_time in H.
    unfold ret in H. cbn [fst] in H. apply Ok_inj in H.
    pose proof (f_equal key_of H) as E1. pose proof (f_equal unit_of H) as E2.
    pose proof (f_equal current_value_of H) as E3.
    pose proof (f_equal history_of H) as E4.
    pose proof (f_equal raw_data_of H) as E6.
    cbn [key_of unit_of current_value_of history_of raw_data_of] in *.
    subst key unit raw. rewrite <- E4. by repeat split.
Qed.

(** X9 — [get_sensor_analysis]: whatever sensor is asked for and
    whatever the cached readings hold, [current_value] and the value of
    every point of [historical_data] are floats, never null. *)
Theorem analysis_values_are_floats (st tr : string) (c : smart_cache)
  (n : nat) (key unit : string) (cv : pyval) (h : list Point.t)
  (ts : pyval) (raw : reading) :
  fst (get_sensor_analysis clock st tr c n)
  = Ok (AnalysisOk key unit cv h ts raw) ->
  is_float cv /\ Forall (fun pt => is_float (Point.value pt)) h.
Proof.
  intros H.
  apply analysis_anatomy in H as
    (latest & rest & t & p & built & sorted & -> & Hp & K & Hraw & Hcv
     & Hb & Hs & ->).
  assert (Hkey : dict_has raw key = true).
  { pose proof (sensor_key_range st) as R. rewrite K in R. cbn [fst] in R.
    assert (key <> "_cache_status" /\ key <> "_data_source") as [N1 N2].
    { split; intros ->; unfold derived_keys in R;
        repeat (apply elem_of_cons in R as [R|R]; [discriminate|]);
        by apply elem_of_nil in R. }
    unfold dict_has. rewrite Hraw.
    rewrite lookup_insert_ne by done. rewrite lookup_insert_ne by done.
    rewrite merged_lookup. rewrite bool_decide_eq_true_2 by done.
    destruct (snapshot latest (clock (S n)) p !! key) eqn:E; [done|].
    by apply snapshot_dom in E. }
  assert (Fcv : is_float cv).
  { rewrite Hcv, Hkey.
    destruct (extract_float_or_none raw key) as [->|F].
    - cbn [is_none andb]. apply try_float_of.
    - destruct F as [f Ef]. rewrite Ef. cbn [is_none andb]. by exists f. }
  split; [done|].
  destruct (length sorted <? 2)%nat.
  - unfold minimal_points. destruct Fcv as [f ->]. cbn [is_none].
    repeat constructor; by exists f.
  - apply history_points_float in Hb.
    apply list_sort_perm in Hs. by rewrite <- Hs.
Qed.

(** X10 — [get_sensor_analysis]: the history series has one point per
    cached reading, up to the number of points of the time range, and
    two points when that leaves fewer than two. *)
Theorem history_length (st tr : string) (c : smart_cache) (n : nat)
  (key unit : string) (cv : pyval) (h : list Point.t) (ts : pyval)
  (raw : reading) (b : list reading) :
  fst (get_sensor_analysis clock st tr c n)
  = Ok (AnalysisOk key unit cv h ts raw) ->
  data c = Some b ->
  length h = Nat.max 2 (Nat.min (data_points tr) (length b)).
Proof.
  intros H D.
  apply analysis_anatomy in H as
    (latest & rest & t & p & built & sorted & -> & _ & _ & _ & _
     & Hb & Hs & ->).
  cbn [data cache_of] in D. apply Some_inj in D as <-.
  destruct (history_points_spec clock key
              (take (data_points tr) (latest :: rest)) (S (S n)))
    as (pts & Hp & Hl & _).
  rewrite Hp in Hb. apply pair_eq in Hb as [Hb _]. apply Ok_inj in Hb as ->.
  apply list_sort_length in Hs. rewrite length_take in Hl.
  destruct (length sorted <? 2)%nat eqn:C.
  - apply Nat.ltb_lt in C. unfold minimal_points. cbn [length] in *. lia.
  - apply Nat.ltb_ge in C. lia.
Qed.

(** ** The status helpers *)

(** X11 — [_get_temperature_status] and the temperature rule of
    [get_alerts] use the same bands.  On data for which the rule
    returns, the status of the averaged temperature is Optimal exactly
    when no alert is raised, Acceptable with a medium alert and Critical
    with a high one; the one exception is an average that is not a
    number, which is Critical without any alert. *)
Theorem temperature_status_matches_alert (cd : reading) (ts : pyval)
  (alerts : list Alert.t) :
  cd !! "timestamp" = Some ts ->
  temperature_rule cd = Ok alerts ->
  exists f s,
    temp_avg_of cd = Ok (VFloat f) /\
    _get_temperature_status (VFloat f) = Ok s /\
    if is_nan f then s = "Critical" /\ alerts = []
    else (s, severities alerts) ∈ range_table.
Proof.
  intros T R.
  destruct (temperature_rule_inv _ _ R) as (b & d & s & f & B & D & S & A).
  destruct (temperature_rule_facts _ ts b d s f T B D S A) as (l & R' & F).
  rewrite R in R'. apply Ok_inj in R' as <-.
  exists f. rewrite (temp_avg_present _ _ _ B D), S, rbind_Ok, A.
  destruct f as [q| | |].
  - pose proof (raises_severities _ _ F) as V. rewrite V. clear V F R.
    unfold temperature_alert, _get_temperature_status, and_then, or_else.
    cbn. split_comparisons;
      solve [ exfalso; lra
            | eexists; split; [reflexivity|]; split; [reflexivity|];
              unfold range_table; pick_row ].
  - rewrite (raises_severities _ _ F).
    exists "Critical". repeat split. unfold range_table. pick_row.
  - rewrite (raises_severities _ _ F).
    exists "Critical". repeat split. unfold range_table. pick_row.
  - apply raises_inv in F. cbn in F. by exists "Critical".
Qed.

(** X12 — [_get_humidity_status] and the humidity rule of
    [get_alerts] agree except on a gap.  For a humidity that is a
    float, the rule always returns, and: a value strictly between 70
    and 71 is Critical for the status helper while the rule raises only
    a medium alert; any other number is Optimal exactly when no alert is
    raised, Acceptable with a medium alert, Critical with a high one;
    and a value that is not a number is Critical without any alert. *)
Theorem humidity_status_gap (cd : reading) (ts : pyval) (f : pyfloat) :
  cd !! "timestamp" = Some ts ->
  dict_get cd "humidity" (VInt 0) = VFloat f ->
  exists alerts s,
    humidity_rule cd = Ok alerts /\
    _get_humidity_status (VFloat f) = Ok s /\
    if is_nan f then s = "Critical" /\ alerts = []
    else if f_lt (Fin 70) f && f_lt f (Fin 71)
         then s = "Critical" /\ severities alerts = ["medium"]
         else (s, severities alerts) ∈ range_table.
Proof.
  intros T H.
  destruct (humidity_rule_facts _ ts f T H) as (l & R & F).
  exists l. rewrite R.
  destruct f as [q| | |].
  - pose proof (raises_severities _ _ F) as V. rewrite V. clear V F R.
    unfold humidity_alert, _get_humidity_status, and_then.
    cbn. split_comparisons;
      solve [ exfalso; lra
            | eexists; split; [reflexivity|]; split; [reflexivity|];
              first [ split; reflexivity | unfold range_table; pick_row ] ].
  - rewrite (raises_severities _ _ F).
    exists "Critical". repeat split. unfold range_table. pick_row.
  - rewrite (raises_severities _ _ F).
    exists "Critical". repeat split. unfold range_table. pick_row.
  - apply raises_inv in F. cbn in F. by exists "Critical".
Qed.

Lemma temperature_status_total f :
  exists s, _get_temperature_status (VFloat f) = Ok s /\ s ∈ status_labels.
Proof.
  destruct f as [q| | |]; try known_label.
  unfold _get_temperature_status, and_then, or_else. cbn.
  split_comparisons; known_label.
Qed.

Lemma humidity_status_total f :
  exists s, _get_humidity_status (VFloat f) = Ok s /\ s ∈ status_labels.
Proof.
  destruct f as [q| | |]; try known_label.
  unfold _get_humidity_status, and_then. cbn.
  split_comparisons; known_label.
Qed.

Lemma co2_status_total f :
  exists s, _get_co2_status (VFloat f) = Ok s /\ s ∈ status_labels.
Proof.
  destruct f as [q| | |]; try known_label.
  unfold _get_co2_status, and_then. cbn.
  split_comparisons; known_label.
Qed.

Lemma light_status_total f :
  exists s, _get_light_status (VFloat f) = Ok s /\ s ∈ status_labels.
Proof.
  destruct f as [q| | |]; try known_label.
  unfold _get_light_status. cbn.
  split_comparisons; known_label.
Qed.

Lemma soil_moisture_status_total f :
  exists s, _get_soil_moisture_status (VFloat f) = Ok s /\ s ∈ status_labels.
Proof.
  destruct f as [q| | |]; try known_label.
  unfold _get_soil_moisture_status, and_then, or_else. cbn.
  split_comparisons; known_label.
Qed.

Lemma pressure_status_total f :
  exists s, pressure_status (VFloat f) = Ok s /\ s ∈ status_labels.
Proof.
  destruct f as [q| | |]; try known_label.
  unfold pressure_status, and_then. cbn.
  split_comparisons; known_label.
Qed.

Lemma air_label_total f :
  exists s, band_label (VFloat f) 200 500 "Good" "Poor" "Moderate" = Ok s /\
            s ∈ status_labels.
Proof.
  destruct f as [q| | |]; try known_label.
  unfold band_label. cbn. split_comparisons; known_label.
Qed.

Lemma gas_label_total f :
  exists s, band_label (VFloat f) 300 750 "Safe" "High" "Elevated" = Ok s /\
            s ∈ status_labels.
Proof.
  destruct f as [q| | |]; try known_label.
  unfold band_label. cbn. split_comparisons; known_label.
Qed.

Lemma label_known v r :
  (exists s, r = Ok s /\ s ∈ status_labels) ->
  exists parts, label r = Ok parts /\ known_status v parts.
Proof.
  intros (s & -> & Hs). exists [Lit s]. split; [reflexivity|].
  right. by exists s.
Qed.

(** X13 — the status functions of [get_sensor_analysis]: whatever
    sensor name is asked for, the status function picked for it returns
    on every float, so the status of a float is one of the known labels
    (or the formatted altitude) and never falls back to ['Unknown']. *)
Theorem status_of_a_float_is_known (sensor_type : string) (f : pyfloat) :
  exists parts,
    status_fn sensor_type (VFloat f) = Ok parts /\
    analysis_status sensor_type (VFloat f) = parts /\
    known_status (VFloat f) parts.
Proof.
  assert (E : exists parts, status_fn sensor_type (VFloat f) = Ok parts /\
                known_status (VFloat f) parts).
  { unfold status_fn. cbv zeta.
    repeat lazymatch goal with
           | |- exists _, (if ?b then _ else _) = _ /\ _ => destruct b
           end;
      first [ apply label_known;
              first [ apply temperature_status_total
                    | apply humidity_status_total
                    | apply co2_status_total
                    | apply light_status_total
                    | apply soil_moisture_status_total
                    | apply pressure_status_total
                    | apply air_label_total
                    | apply gas_label_total ]
            | eexists; split; [reflexivity|]; right; eexists;
              split; [reflexivity|];
              destruct (truthy (VFloat f)); unfold status_labels; pick_row
            | eexists; split; [reflexivity|]; by left ]. }
  destruct E as (parts & E & K). exists parts. repeat split; try done.
  unfold analysis_status. cbn [is_none negb]. by rewrite E.
Qed.

(** ** The figures of the report *)

Lemma status_entry_all_analysis v1 s1 v2 s2 v3 s3 v4 s4 :
  let a : reading :=
    list_to_map
      [ ("temperature", analysis_entry v1 (VStr s1) "°C");
        ("humidity", analysis_entry v2 (VStr s2) "%");
        ("air_quality", analysis_entry v3 (VStr s3) "ppm");
        ("light", analysis_entry v4 (VStr s4) "lux") ] in
  status_entry a "temperature" = Ok (VStr s1) /\
  status_entry a "humidity" = Ok (VStr s2) /\
  status_entry a "air_quality" = Ok (VStr s3) /\
  status_entry a "light" = Ok (VStr s4).
Proof. repeat split; vm_compute; reflexivity. Qed.



(** X15 — the report of [export_greenhouse_report]: on the analysis
    the report builds from the sensor data the health score is always
    returned; and when the data has neither temperature field, the
    defaults of 0 make the temperature status Critical, so the score is
    at most 70. *)
Theorem report_scores_missing_temperature (sensor_data a : reading) :
  all_analysis sensor_data = Ok a ->
  exists s,
    _calculate_health_score a = Ok s /\
    (sensor_data !! "temperature_bmp280" = None ->
     sensor_data !! "temperature_dht22" = None ->
     status_entry a "temperature" = Ok (VStr "Critical") /\ s <= 70).
Proof.
  unfold all_analysis. cbv zeta. intros H.
  apply rbind_ok in H as (avg & Havg & H).
  apply rbind_ok in H as (s1 & H1 & H). apply rbind_ok in H as (s2 & H2 & H).
  apply rbind_ok in H as (s3 & H3 & H). apply rbind_ok in H as (s4 & H4 & H).
  apply Ok_inj in H as <-.
  destruct (status_entry_all_analysis avg s1
              (dict_get sensor_data "humidity" (VInt 0)) s2
              (dict_get sensor_data "mq135_drop" (VInt 0)) s3
              (dict_get sensor_data "light" (VInt 0)) s4)
    as (E1 & E2 & E3 & E4).
  cbv zeta in E1, E2, E3, E4.
  unfold _calculate_health_score. cbv zeta.
  rewrite E1, rbind_Ok, E2, rbind_Ok, E3, rbind_Ok, E4, rbind_Ok.
  eexists. split; [reflexivity|]. intros B D.
  unfold temp_avg_of, dict_get in Havg. rewrite B, D in Havg.
  cbn in Havg. apply Ok_inj in Havg as <-.
  cbn in H1. apply Ok_inj in H1 as <-.
  split; [reflexivity|].
  change (py_eq_str (VStr "Critical") "Critical") with true. cbv iota.
  repeat match goal with
         | |- context [if ?b then _ else _] => destruct b
         end; lia.
Qed.

(** ** The alert summary of the report *)

Lemma summary_alert_part level type msg :
  level ∈ summary_levels -> summary_part (summary_alert level type msg).
Proof. intros H. split; [cbn; lia | constructor; [exact H | constructor]]. Qed.

Lemma summary_nil_part : summary_part [].
Proof. split; [cbn; lia | constructor]. Qed.

Lemma summary_temperature_part sd l :
  summary_temperature sd = Ok l -> summary_part l.
Proof.
  unfold summary_temperature. intros H.
  apply rbind_ok in H as (avg & _ & H). apply rbind_ok in H as (c1 & _ & H).
  destruct c1; [revert H; summary_leaf|].
  apply rbind_ok in H as (c2 & _ & H).
  destruct c2; [revert H; summary_leaf|].
  apply rbind_ok in H as (c3 & _ & H).
  destruct c3; revert H; summary_leaf.
Qed.

Lemma summary_humidity_part sd l :
  summary_humidity sd = Ok l -> summary_part l.
Proof.
  unfold summary_humidity. cbv zeta. intros H.
  apply rbind_ok in H as (c1 & _ & H).
  destruct c1; [revert H; summary_leaf|].
  apply rbind_ok in H as (c2 & _ & H).
  destruct c2; [revert H; summary_leaf|].
  apply rbind_ok in H as (c3 & _ & H).
  destruct c3; revert H; summary_leaf.
Qed.

Lemma summary_air_quality_part sd l :
  summary_air_quality sd = Ok l -> summary_part l.
Proof.
  unfold summary_air_quality. cbv zeta. intros H.
  apply rbind_ok in H as (c1 & _ & H).
  destruct c1; [revert H; summary_leaf|].
  apply rbind_ok in H as (c2 & _ & H).
  destruct c2; revert H; summary_leaf.
Qed.

Lemma summary_gas_part sd l : summary_gas sd = Ok l -> summary_part l.
Proof.
  unfold summary_gas. cbv zeta. intros H.
  apply rbind_ok in H as (c1 & _ & H).
  destruct c1; [revert H; summary_leaf|].
  apply rbind_ok in H as (c2 & _ & H).
  destruct c2; revert H; summary_leaf.
Qed.

Lemma summary_co_part sd l : summary_co sd = Ok l -> summary_part l.
Proof.
  unfold summary_co. cbv zeta. intros H.
  apply rbind_ok in H as (c1 & _ & H).
  destruct c1; [revert H; summary_leaf|].
  apply rbind_ok in H as (c2 & _ & H).
  destruct c2; revert H; summary_leaf.
Qed.

Lemma summary_flame_part sd : summary_part (summary_flame sd).
Proof.
  unfold summary_flame. destruct (truthy _).
  - apply summary_alert_part. unfold summary_levels. pick_row.
  - apply summary_nil_part.
Qed.

Lemma summary_part_app l k :
  Forall (fun a => Summary.level a ∈ summary_levels) l ->
  Forall (fun a => Summary.level a ∈ summary_levels) k ->
  Forall (fun a => Summary.level a ∈ summary_levels) (l ++ k).
Proof. intros. by apply Forall_app. Qed.

Lemma count_level_app lv l k :
  count_level lv (l ++ k) = (count_level lv l + count_level lv k)%nat.
Proof. unfold count_level. by rewrite List.filter_app, length_app. Qed.

Lemma count_levels l :
  Forall (fun a => Summary.level a ∈ summary_levels) l ->
  (count_level "CRITICAL" l + count_level "WARNING" l
   + count_level "INFO" l = length l)%nat.
Proof.
  induction 1 as [|a l Ha _ IH]; [reflexivity|].
  change (a :: l) with ([a] ++ l)%list.
  rewrite !count_level_app, length_app, <- IH.
  assert (count_level "CRITICAL" [a] + count_level "WARNING" [a]
          + count_level "INFO" [a] = 1)%nat as E; [|cbn [length]; lia].
  unfold summary_levels in Ha. unfold count_level. cbn [List.filter].
  repeat (apply elem_of_cons in Ha as [->|Ha]; [reflexivity|]).
  by apply elem_of_nil in Ha.
Qed.

Lemma summary_inv sd s :
  _generate_alert_summary sd = Ok s ->
  exists a1 a2 a3 a4 a5,
    summary_temperature sd = Ok a1 /\ summary_humidity sd = Ok a2 /\
    summary_air_quality sd = Ok a3 /\ summary_gas sd = Ok a4 /\
    summary_co sd = Ok a5 /\
    Summary.alerts s = (a1 ++ a2 ++ a3 ++ a4 ++ a5 ++ summary_flame sd)%list /\
    Summary.total_alerts s = length (Summary.alerts s) /\
    Summary.critical_count s = count_level "CRITICAL" (Summary.alerts s) /\
    Summary.warning_count s = count_level "WARNING" (Summary.alerts s).
Proof.
  unfold _generate_alert_summary. intros H.
  do 5 (apply rbind_ok in H as (? & ? & H)).
  cbv zeta in H. apply Ok_inj in H as <-.
  eexists _, _, _, _, _. by repeat split.
Qed.

(** X16 — [_generate_alert_summary]: in a summary that is returned
    [total_alerts] is the number of alerts and is at most 6; every
    alert is critical, a warning or an info, so the critical and the
    warning count never add up to more than the total; and a truthy
    [flame_detected] always puts the fire alert last and counts as
    critical. *)
Theorem alert_summary_counts (sensor_data : reading) (s : Summary.t) :
  _generate_alert_summary sensor_data = Ok s ->
  Summary.total_alerts s = length (Summary.alerts s) /\
  (Summary.total_alerts s <= 6)%nat /\
  (Summary.critical_count s + Summary.warning_count s
   + count_level "INFO" (Summary.alerts s) = Summary.total_alerts s)%nat /\
  (truthy (dict_get sensor_data "flame_detected" VNone) = true ->
   (1 <= Summary.critical_count s)%nat /\
   last (Summary.alerts s)
   = Some {| Summary.level := "CRITICAL"; Summary.type := "FIRE";
             Summary.message := [Lit "⚠️ FIRE DETECTED"] |}).
Proof.
  intros H.
  apply summary_inv in H as
    (a1 & a2 & a3 & a4 & a5 & H1 & H2 & H3 & H4 & H5 & -> & -> & -> & ->).
  apply summary_temperature_part in H1 as [L1 F1].
  apply summary_humidity_part in H2 as [L2 F2].
  apply summary_air_quality_part in H3 as [L3 F3].
  apply summary_gas_part in H4 as [L4 F4].
  apply summary_co_part in H5 as [L5 F5].
  destruct (summary_flame_part sensor_data) as [L6 F6].
  repeat split.
  - rewrite !length_app. lia.
  - apply count_levels. repeat (apply Forall_app; split); assumption.
  - unfold summary_flame in *. rewrite H. rewrite !count_level_app.
    change (count_level "CRITICAL"
              (summary_alert "CRITICAL" "FIRE" [Lit "⚠️ FIRE DETECTED"]))
      with 1%nat. lia.
  - unfold summary_flame. rewrite H. unfold summary_alert.
    rewrite !app_assoc. apply last_snoc.
Qed.

Lemma summary_temperature_fired sd f ts :
  temp_avg_of sd = Ok (VFloat f) ->
  exists l, summary_temperature sd = Ok l /\
            length l = fired (temperature_alert f ts).
Proof.
  intros A. unfold summary_temperature. rewrite A, rbind_Ok.
  change (py_lt (VFloat f) (VInt 18)) with (Ok (f_lt f (Fin 18))).
  change (py_gt (VFloat f) (VInt 30)) with (Ok (f_lt (Fin 30) f)).
  change (py_lt (VFloat f) (VInt 20)) with (Ok (f_lt f (Fin 20))).
  change (py_gt (VFloat f) (VInt 27)) with (Ok (f_lt (Fin 27) f)).
  unfold temperature_alert, or_else. rewrite !rbind_Ok.
  destruct (f_lt f (Fin 18)), (f_lt (Fin 30) f), (f_lt f (Fin 20)),
    (f_lt (Fin 27) f); by eexists.
Qed.

Lemma summary_humidity_fired sd h ts :
  dict_get sd "humidity" (VInt 0) = VFloat h ->
  exists l, summary_humidity sd = Ok l /\
            length l = fired (humidity_alert h ts).
Proof.
  intros H. unfold summary_humidity. cbv zeta. rewrite H.
  change (py_lt (VFloat h) (VInt 45)) with (Ok (f_lt h (Fin 45))).
  change (py_gt (VFloat h) (VInt 80)) with (Ok (f_lt (Fin 80) h)).
  change (py_gt (VFloat h) (VInt 70)) with (Ok (f_lt (Fin 70) h)).
  unfold humidity_alert. rewrite !rbind_Ok.
  destruct (f_lt h (Fin 45)), (f_lt (Fin 80) h), (f_lt (Fin 70) h);
    by eexists.
Qed.

Lemma summary_air_quality_fired sd ts q1 q2 :
  py_gt (dict_get sd "mq135_drop" (VInt 0)) (VInt 500) = Ok q1 ->
  py_gt (dict_get sd "mq135_drop" (VInt 0)) (VInt 200) = Ok q2 ->
  exists l, summary_air_quality sd = Ok l /\
    length l = fired (air_alert (dict_get sd "mq135_drop" (VInt 0)) ts q1 q2).
Proof.
  intros Q1 Q2. unfold summary_air_quality, air_alert. cbv zeta.
  rewrite Q1, Q2, !rbind_Ok. destruct q1, q2; by eexists.
Qed.

Lemma summary_gas_fired sd ts g1 g2 :
  py_gt (dict_get sd "mq2_drop" (VInt 0)) (VInt 750) = Ok g1 ->
  py_gt (dict_get sd "mq2_drop" (VInt 0)) (VInt 300) = Ok g2 ->
  exists l, summary_gas sd = Ok l /\
    length l = fired (gas_alert (dict_get sd "mq2_drop" (VInt 0)) ts g1 g2).
Proof.
  intros G1 G2. unfold summary_gas, gas_alert. cbv zeta.
  rewrite G1, G2, !rbind_Ok. destruct g1, g2; by eexists.
Qed.

Lemma summary_co_fired sd ts c1 c2 :
  py_gt (dict_get sd "mq7_drop" (VInt 0)) (VInt 750) = Ok c1 ->
  py_gt (dict_get sd "mq7_drop" (VInt 0)) (VInt 300) = Ok c2 ->
  exists l, summary_co sd = Ok l /\
    length l = fired (co_alert (dict_get sd "mq7_drop" (VInt 0)) ts c1 c2).
Proof.
  intros C1 C2. unfold summary_co, co_alert. cbv zeta.
  rewrite C1, C2, !rbind_Ok. destruct c1, c2; by eexists.
Qed.

(** The summary of the data the alert rules were evaluated on. *)
Lemma summary_of_alert_data latest now p ts c1 c2 g1 g2 q1 q2 f h :
  py_gt (p_mq7_drop p) (VInt 750) = Ok c1 ->
  py_gt (p_mq7_drop p) (VInt 300) = Ok c2 ->
  py_gt (p_mq2_drop p) (VInt 750) = Ok g1 ->
  py_gt (p_mq2_drop p) (VInt 300) = Ok g2 ->
  py_gt (p_mq135_drop p) (VInt 500) = Ok q1 ->
  py_gt (p_mq135_drop p) (VInt 200) = Ok q2 ->
  p_humidity p = VFloat h ->
  temp_avg_of latest = Ok (VFloat f) ->
  exists s,
    _generate_alert_summary (alert_data latest now p) = Ok s /\
    Summary.total_alerts s
    = (fired (co_alert (p_mq7_drop p) ts c1 c2)
       + fired (gas_alert (p_mq2_drop p) ts g1 g2)
       + fired (temperature_alert f ts) + fired (humidity_alert h ts)
       + fired (air_alert (p_mq135_drop p) ts q1 q2)
       + (if p_flame p then 1 else 0))%nat.
Proof.
  intros C1 C2 G1 G2 Q1 Q2 H A.
  destruct (alert_data_lookup latest now p)
    as (_ & E7 & E2 & E135 & EH & EF & EB & ED).
  assert (A' : temp_avg_of (alert_data latest now p) = Ok (VFloat f)).
  { unfold temp_avg_of, dict_get in A |- *. by rewrite EB, ED. }
  rewrite <- E7 in C1, C2. rewrite <- E2 in G1, G2.
  rewrite <- E135 in Q1, Q2. rewrite H in EH.
  destruct (summary_temperature_fired _ f ts A') as (l1 & S1 & L1).
  destruct (summary_humidity_fired _ h ts EH) as (l2 & S2 & L2).
  destruct (summary_air_quality_fired _ ts q1 q2 Q1 Q2) as (l3 & S3 & L3).
  destruct (summary_gas_fired _ ts g1 g2 G1 G2) as (l4 & S4 & L4).
  destruct (summary_co_fired _ ts c1 c2 C1 C2) as (l5 & S5 & L5).
  rewrite E135 in L3. rewrite E2 in L4. rewrite E7 in L5.
  unfold _generate_alert_summary.
  rewrite S1, rbind_Ok, S2, rbind_Ok, S3, rbind_Ok, S4, rbind_Ok, S5, rbind_Ok.
  eexists. split; [reflexivity|]. cbn [Summary.total_alerts].
  rewrite !length_app, L1, L2, L3, L4, L5.
  unfold summary_flame, dict_get. rewrite EF.
  destruct (p_flame p); cbn; lia.
Qed.

Lemma raises_length l x : raises l x -> length l = fired x.
Proof.
  intros H. apply raises_inv in H. destruct x as [f|].
  - by destruct H as (a & -> & _).
  - by subst.
Qed.

(** X17 — the report and the alerts endpoint on the same reading:
    whenever [get_alerts] answers with alerts, the alert summary of the
    report built from the same reading is returned too, and its total
    is the alert count of the endpoint plus one when the snapshot has
    [flame_detected] set: the two use the same thresholds, but only
    the report raises an alert for the flame. *)
Theorem report_summary_counts_the_alerts (latest : reading)
  (rest : list reading) (t : Q) (n : nat) (alerts : list Alert.t)
  (ts : pyval) (count : nat) (should_alert : bool) (m : nat)
  (d : reading) :
  fst (get_alerts clock (cache_of (latest :: rest) t) n)
  = Ok (AlertsOk alerts ts count should_alert) ->
  fst (build_derived latest m) = Ok d ->
  exists s flame,
    _generate_alert_summary (d ∪ latest) = Ok s /\
    d !! "flame_detected" = Some (VBool flame) /\
    Summary.total_alerts s = (count + (if flame then 1 else 0))%nat.
Proof.
  intros H Hd.
  apply get_alerts_inv in H as (l' & r' & p & D & Hp & R & T & -> & _).
  cbn [data cache_of] in D. assert (l' = latest) as -> by congruence.
  apply build_derived_parts in Hd as (p' & Hp' & ->).
  rewrite Hp in Hp'. apply Ok_inj in Hp' as <-.
  destruct (alerts_anatomy _ _ _ _ _ Hp R T) as
    (a2 & a3 & a4 & a5 & a6 & c1 & c2 & g1 & g2 & q1 & q2 & f & h
     & -> & C1 & F2 & G1 & F3 & F4 & F5 & F6 & C2 & G2 & Q1 & Q2 & H & A).
  destruct (summary_of_alert_data latest (clock m) p ts
              c1 c2 g1 g2 q1 q2 f h C1 C2 G1 G2 Q1 Q2 H A) as (s & S & E).
  exists s, (p_flame p). split; [exact S|].
  split; [apply snapshot_lookup|].
  rewrite E, !length_app.
  rewrite (raises_length _ _ F2), (raises_length _ _ F3),
    (raises_length _ _ F4), (raises_length _ _ F5), (raises_length _ _ F6).
  lia.
Qed.

(** ** The connection pool *)

Section PoolProps.

Variable exchange : connection -> upstream_response.

Local Abbreviation fetch_pooled :=
  (fetch_through_pool clock strptime_timestamp fromtimestamp_ok exchange).
Local Abbreviation read_resp :=
  (read_response clock strptime_timestamp fromtimestamp_ok).

Lemma read_response_batch host code body s n :
  batch_of (read_resp host code body s n) = fetch (Status code body) n.
Proof.
  unfold read_response, fetch_apex_readings, batch_of.
  destruct (code =? 200) eqn:C.
  - apply Z.eqb_eq in C as ->.
    destruct body as [| |payload]; try reflexivity.
    unfold catch, bind.
    destruct (norm_payload payload n) as [[l|e] n1]; reflexivity.
  - apply Z.eqb_neq in C.
    destruct code as [|p|p]; try reflexivity.
    do 8 (destruct p as [p|p|]; try reflexivity).
    congruence.
Qed.

Lemma read_response_state host code body s n :
  exists l s' n',
    read_resp host code body s n = (Ok (l, s'), n') /\
    (s' = s \/ s' = drop_connection host s /\ l = []) /\
    (code <> 200 -> s' = s) /\
    (code = 200 -> body = GzipError -> s' = s) /\
    (code = 200 -> body = NotJson -> s' = drop_connection host s) /\
    (l <> [] -> s' = s).
Proof.
  unfold read_response.
  destruct (code =? 200) eqn:C.
  - apply Z.eqb_eq in C as ->.
    destruct body as [| |payload].
    + eexists _, _, _. split; [reflexivity|]. by repeat split; auto.
    + eexists _, _, _. split; [reflexivity|]. by repeat split; auto.
    + unfold catch, bind.
      destruct (norm_payload payload n) as [[l|e] n1].
      * eexists _, _, _. split; [reflexivity|]. by repeat split; auto.
      * eexists _, _, _. split; [reflexivity|]. by repeat split; auto.
  - apply Z.eqb_neq in C.
    eexists _, _, _. split; [reflexivity|]. repeat split; auto; done.
Qed.

Lemma get_apex_connection_spec host s :
  let c1 := fst (get_apex_connection host s) in
  let s1 := snd (get_apex_connection host s) in
  get_apex_connection host s1 = (c1, s1) /\
  pool s1 !! host = Some c1 /\
  (forall h, h <> host -> pool s1 !! h = pool s !! h) /\
  (created s <= created s1 <= S (created s))%nat /\
  (forall c, pool s !! host = Some c -> c1 = c /\ s1 = s).
Proof.
  cbv zeta. unfold get_apex_connection.
  destruct (pool s !! host) as [c|] eqn:E;
    cbn [fst snd new_connection pool created].
  - rewrite E. split; [reflexivity|]. split; [reflexivity|].
    split; [reflexivity|]. split; [lia|].
    intros c' [= <-]. by split.
  - rewrite lookup_insert_eq. split; [reflexivity|]. split; [reflexivity|].
    split; [intros h N; by rewrite lookup_insert_ne|]. split; [lia|].
    intros c' [=].
Qed.

(** X21 — [get_apex_connection]: the pool hands out one connection
    per host.  A call leaves the host in the pool, touches no other
    host and creates at most one connection; a second call for the same
    host returns the very same connection and changes nothing. *)
Theorem pooled_connection_is_reused (host : string) (s : pool_state) :
  let c1 := fst (get_apex_connection host s) in
  let s1 := snd (get_apex_connection host s) in
  get_apex_connection host s1 = (c1, s1) /\
  pool s1 !! host = Some c1 /\
  (forall h, h <> host -> pool s1 !! h = pool s !! h) /\
  (created s <= created s1 <= S (created s))%nat /\
  (forall c, pool s !! host = Some c -> c1 = c /\ s1 = s).
Proof. apply get_apex_connection_spec. Qed.

(** X22 — [fetch_apex_readings]: the connection handling does not
    change what is fetched.  The batch, and the number of clock reads,
    are those of the normalisation run on the response of the pooled
    connection, or on the response of the one retry when the first
    exchange failed. *)
Theorem pooled_fetch_returns_the_same_batch (host : string) (timeout : Z)
  (s : pool_state) (n : nat) :
  batch_of (fetch_pooled host timeout s n)
  = fetch (effective_response exchange host timeout s) n.
Proof.
  unfold fetch_through_pool, effective_response.
  destruct (get_apex_connection host s) as [conn s1].
  destruct (exchange conn) as [|code body].
  - cbn [new_connection fst].
    destruct (exchange _) as [|code body]; [reflexivity|].
    apply read_response_batch.
  - apply read_response_batch.
Qed.

(** X23 — [fetch_apex_readings] and the pool: a fetch always returns,
    and afterwards no other host has been touched; the host's entry is
    either gone or still the connection the fetch started with, so the
    connection of a retry is never pooled; it is gone whenever the first
    exchange failed and whenever a 200 response could not be decoded; it
    is kept when the status is not 200 and when the batch is not empty;
    and at most two connections were created. *)
Theorem pool_after_a_fetch (host : string) (timeout : Z) (s : pool_state)
  (n : nat) :
  let conn := fst (get_apex_connection host s) in
  exists batch s' n',
    fetch_pooled host timeout s n = (Ok (batch, s'), n') /\
    (forall h, h <> host -> pool s' !! h = pool s !! h) /\
    (pool s' !! host = None \/ pool s' !! host = Some conn) /\
    (exchange conn = TransportError -> pool s' !! host = None) /\
    (exchange conn = Status 200 NotJson -> pool s' !! host = None) /\
    (forall code body, exchange conn = Status code body -> code <> 200 ->
       pool s' !! host = Some conn) /\
    (exchange conn <> TransportError -> batch <> [] ->
       pool s' !! host = Some conn) /\
    (created s <= created s' <= created s + 2)%nat.
Proof.
  destruct (get_apex_connection_spec host s) as (_ & P1 & P2 & P3 & _).
  cbv zeta in P1, P2, P3 |- *.
  unfold fetch_through_pool.
  destruct (get_apex_connection host s) as [conn s1].
  cbn [fst snd] in *.
  assert (D : forall s0, pool (drop_connection host s0) !! host = None).
  { intros s0. apply lookup_delete_eq. }
  assert (O : forall s0 h, h <> host ->
              pool (drop_connection host s0) !! h = pool s0 !! h).
  { intros s0 h N. cbn. by rewrite lookup_delete_ne. }
  destruct (exchange conn) as [|code body] eqn:X.
  - cbn [new_connection].
    set (s2 := {| pool := pool (drop_connection host s1);
                  created := S (created (drop_connection host s1)) |}).
    assert (D2 : pool s2 !! host = None) by apply D.
    assert (O2 : forall h, h <> host -> pool s2 !! h = pool s !! h).
    { intros h N. cbn [s2 pool]. rewrite O by done. by apply P2. }
    assert (C2 : created s2 = S (created s1)) by reflexivity.
    assert (G : forall l s' n',
              s' = s2 \/ s' = drop_connection host s2 ->
              exists (batch : list reading) (s'' : pool_state) (n'' : nat),
                (Ok (l, s') : result (list reading * pool_state), n')
                = (Ok (batch, s''), n'') /\
                (forall h, h <> host -> pool s'' !! h = pool s !! h) /\
                (pool s'' !! host = None \/ pool s'' !! host = Some conn) /\
                (TransportError = TransportError -> pool s'' !! host = None) /\
                (TransportError = Status 200 NotJson ->
                 pool s'' !! host = None) /\
                (forall code body, TransportError = Status code body ->
                   code <> 200 -> pool s'' !! host = Some conn) /\
                (TransportError <> TransportError -> batch <> [] ->
                   pool s'' !! host = Some conn) /\
                (created s <= created s'' <= created s + 2)%nat).
    { intros l s' n' Hs. exists l, s', n'. split; [reflexivity|].
      assert (pool s' !! host = None) as N0
        by (destruct Hs as [->| ->]; [exact D2 | apply D]).
      split.
      { intros h N. destruct Hs as [->| ->]; [by apply O2|].
        rewrite O by done. by apply O2. }
      split; [by left|]. split; [done|]. split; [done|].
      split; [intros ? ? [=]|]. split; [intros N; by destruct N|].
      destruct Hs as [->| ->]; cbn [drop_connection created]; lia. }
    match goal with
    | |- context [match exchange ?c with _ => _ end] =>
        destruct (exchange c) as [|code body]
    end.
    + apply G. by right.
    + destruct (read_response_state host code body s2 n)
        as (l & s' & n' & E & Hs & _).
      rewrite E. apply G. destruct Hs as [->|[-> _]]; auto.
  - destruct (read_response_state host code body s1 n)
      as (l & s' & n' & E & Hs & Hc & _ & Hj & Hl).
    exists l, s', n'. split; [exact E|].
    split.
    { intros h N. destruct Hs as [->|[-> _]]; [by apply P2|].
      rewrite O by done. by apply P2. }
    split; [destruct Hs as [->|[-> _]]; auto|].
    split; [discriminate|].
    split; [intros [= -> ->]; rewrite Hj by done; apply D|].
    split; [intros code' body' [= -> ->] N; by rewrite Hc|].
    split; [intros _ N; by rewrite Hl|].
    destruct Hs as [->|[-> _]]; cbn [drop_connection created]; lia.
Qed.

End PoolProps.

(** ** The AI endpoint *)

Section AiProps.

Variable get_gemini_analysis :
  string -> pyval -> string -> string -> list pyval -> result string.

Local Abbreviation ai_only := (get_sensor_ai_only clock get_gemini_analysis).

Lemma alert_data_temperature latest now p :
  dict_get (alert_data latest now p) "temperature" (VInt 0) = p_temperature p.
Proof.
  unfold alert_data, dict_get.
  destruct (snapshot_lookup latest now p)
    as (_ & _ & _ & _ & _ & _ & _ & _ & L & _).
  by rewrite (lookup_union_Some_l _ latest _ _ L).
Qed.

(** X24 — [get_sensor_ai_only]: for a sensor name that contains
    [temp], a latest reading in which neither temperature field coerces
    to a number always gets the answer 500, whatever the AI service
    would say: the derived temperature is then null, and computing its
    status raises before the service is called. *)
Theorem ai_fails_without_temperature (sensor_type : string)
  (latest : reading) (rest : list reading) (t : Q) (n : nat) :
  contains "temp" (lower sensor_type) = true ->
  num latest "temperature_bmp280" VNone = VNone ->
  num latest "temperature_dht22" VNone = VNone ->
  fst (ai_only sensor_type (cache_of (latest :: rest) t) n) = Ok AiFailed.
Proof.
  intros Hs Hb Hd. unfold get_sensor_ai_only, catch.
  rewrite bind_read. cbn [fst]. unfold bind at 1.
  rewrite build_derived_eq.
  destruct (derive latest) as [p|e] eqn:Hp; [|reflexivity].
  cbv zeta.
  change (snapshot latest (clock (S n)) p ∪ latest)
    with (alert_data latest (clock (S n)) p).
  rewrite bind_lift. unfold ai_current. cbv zeta. rewrite Hs.
  rewrite alert_data_temperature.
  apply derive_inv in Hp as ((T & _) & _).
  unfold temperature_of in T. rewrite Hb, Hd in T. cbn in T.
  apply Ok_inj in T as <-. reflexivity.
Qed.

(** X25 — [get_sensor_ai_only]: for a sensor name that contains
    [temp], the history handed to the AI service is read from the
    [temperature] entry of the cached readings; when no cached reading
    has such an entry (upstream records carry the two sensor fields
    only) every answer of the endpoint comes from a call of the service
    with a history of zeros, one per reading up to ten, next to the
    derived temperature as current value. *)
Theorem ai_temperature_history_is_zero (sensor_type : string)
  (latest : reading) (rest : list reading) (t : Q) (n : nat)
  (text : string) (ts : Q) (name : string) :
  contains "temp" (lower sensor_type) = true ->
  Forall (fun r => r !! "temperature" = None) (latest :: rest) ->
  fst (ai_only sensor_type (cache_of (latest :: rest) t) n)
  = Ok (AiOk text ts name) ->
  exists d current_value status,
    fst (build_derived latest (S n)) = Ok d /\
    d !! "temperature" = Some current_value /\
    _get_temperature_status current_value = Ok status /\
    get_gemini_analysis sensor_type current_value "°C" status
      (repeat (VInt 0) (Nat.min 10 (S (length rest))))
    = Ok text /\
    name = sensor_type.
Proof.
  intros Hs Hr. unfold get_sensor_ai_only, catch.
  rewrite bind_read. cbn [fst]. unfold bind at 1.
  rewrite build_derived_eq.
  destruct (derive latest) as [p|e] eqn:Hp; [|discriminate].
  cbv zeta.
  change (snapshot latest (clock (S n)) p ∪ latest)
    with (alert_data latest (clock (S n)) p).
  rewrite bind_lift. unfold ai_current. cbv zeta. rewrite Hs.
  rewrite alert_data_temperature.
  destruct (_get_temperature_status (p_temperature p)) as [status|] eqn:St;
    [|discriminate].
  rewrite rbind_Ok. cbv beta iota. rewrite bind_lift.
  assert (Hh : map (ai_history_value (lower sensor_type))
                 (take 10 (latest :: rest))
               = repeat (VInt 0) (Nat.min 10 (S (length rest)))).
  { change (S (length rest)) with (length (latest :: rest)).
    revert Hr. generalize (latest :: rest). generalize 10%nat.
    intros k l. revert k.
    induction l as [|r l IH]; intros k Hr.
    - by destruct k.
    - destruct k as [|k]; [reflexivity|].
      apply Forall_cons in Hr as [Hr1 Hr2].
      cbn [take map length Nat.min repeat]. rewrite (IH k Hr2).
      unfold ai_history_value. cbv zeta. rewrite Hs.
      unfold dict_get. by rewrite Hr1. }
  rewrite Hh.
  destruct (get_gemini_analysis _ _ _ _ _) as [txt|] eqn:G; [|discriminate].
  rewrite bind_time. unfold ret. cbn [fst]. intros H. apply Ok_inj in H.
  assert (txt = text /\ name = sensor_type) as [-> ->]
    by (split; congruence).
  exists (snapshot latest (clock (S n)) p), (p_temperature p), status.
  split; [reflexivity|].
  split; [apply snapshot_lookup|]. by repeat split.
Qed.

End AiProps.

(** ** The item list *)

Lemma find_item_app i l k :
  find_item i (l ++ k)
  = match find_item i l with
    | Ok None => find_item i k
    | r => r
    end.
Proof.
  induction l as [|x l IH]; [reflexivity|].
  cbn [app find_item]. destruct (get_id x) as [v|e]; [|reflexivity].
  rewrite !rbind_Ok. destruct (py_eq_int v i); [reflexivity | exact IH].
Qed.

Lemma add_item_inv new_item items items' resp :
  add_item new_item items = Ok (items', resp) ->
  exists x, items' = (items ++ [x])%list /\ resp = (201, x) /\
    (is_dict new_item = false -> x = new_item).
Proof.
  unfold add_item. intros H.
  apply rbind_ok in H as (c & Hc & H). apply rbind_ok in H as (x & Hx & H).
  apply Ok_inj in H. exists x.
  assert (items' = (items ++ [x])%list /\ resp = (201, x)) as [-> ->]
    by (split; congruence).
  repeat split. intros D. destruct c.
  - by apply Ok_inj in Hx.
  - destruct new_item; try discriminate.
Qed.

(** X18 — [add_item] and [get_item]: posting an item never changes
    the answer for an id that could already be looked up.  The list is
    only appended to and the first match wins, so an item posted with
    an id that is in use is stored but never returned. *)
Theorem add_item_keeps_existing_lookups (new_item : pyval)
  (items items' : list pyval) (resp : Z * pyval) (item_id : Z) :
  add_item new_item items = Ok (items', resp) ->
  find_item item_id items <> Ok None ->
  length items' = S (length items) /\
  get_item item_id items' = get_item item_id items.
Proof.
  intros H F. apply add_item_inv in H as (x & -> & _ & _).
  split; [rewrite length_app; cbn; lia|].
  unfold get_item. rewrite find_item_app.
  destruct (find_item item_id items) as [[y|]|e]; done.
Qed.

(** X19 — [add_item] then [get_item]: an object posted without an
    [id] gets the id [len(items) + 1], is answered with status 201, and
    is what [get_item] returns for that id, provided the id was not in
    use before. *)
Theorem add_item_then_get_item (d : gmap string pyval)
  (items : list pyval) :
  d !! "id" = None ->
  find_item (Z.of_nat (length items) + 1) items = Ok None ->
  let stored := VDict (<["id" := VInt (Z.of_nat (length items) + 1)]> d) in
  add_item (VDict d) items = Ok ((items ++ [stored])%list, (201, stored)) /\
  get_item (Z.of_nat (length items) + 1) (items ++ [stored])
  = Ok (200, stored).
Proof.
  intros Hd Hf. cbv zeta. split.
  - unfold add_item, has_id, dict_has. by rewrite Hd.
  - unfold get_item. rewrite find_item_app, Hf.
    cbn [find_item get_id]. unfold dict_item. rewrite lookup_insert_eq.
    rewrite rbind_Ok.
    assert (py_eq_int (VInt (Z.of_nat (length items) + 1))
              (Z.of_nat (length items) + 1) = true) as ->.
    { unfold py_eq_int. cbn. apply Qeq_bool_iff. reflexivity. }
    rewrite rbind_Ok.
    assert (truthy
              (VDict (<["id" := VInt (Z.of_nat (length items) + 1)]> d))
            = true) as ->; [|reflexivity].
    cbn [truthy].
    destruct (map_to_list _) eqn:E; [|reflexivity].
    apply map_to_list_empty_iff in E. by apply insert_non_empty in E.
Qed.

(** X20 — [add_item] accepts some bodies that are not objects (a
    string that contains [id], a list that holds ["id"]); once such a
    body is in the list, looking up any id that no earlier item has
    raises [TypeError] instead of answering 404. *)
Theorem non_object_item_breaks_lookups (new_item : pyval)
  (items items' : list pyval) (resp : Z * pyval) (item_id : Z) :
  add_item new_item items = Ok (items', resp) ->
  is_dict new_item = false ->
  find_item item_id items = Ok None ->
  resp = (201, new_item) /\
  get_item item_id items' = Raise TypeError.
Proof.
  intros H D F. apply add_item_inv in H as (x & -> & -> & Hx).
  rewrite (Hx D). split; [reflexivity|].
  unfold get_item. rewrite find_item_app, F. cbn [find_item].
  by destruct new_item.
Qed.

End Further.

(* ===================================================================== *)
(** * The further statements at sample inputs *)
(* ===================================================================== *)

Lemma alerts_eta (r : alerts_response) :
  is_alerts r = true ->
  AlertsOk (alerts_of r) (alerts_timestamp_of r) (alert_count_of r)
    (should_alert_of r) = r.
Proof. by destruct r. Qed.

Lemma sample_alerts_ok (c : smart_cache) (n : nat) :
  is_alerts (sample_alerts c n) = true ->
  fst (get_alerts sample_clock c n)
  = Ok (AlertsOk (alerts_of (sample_alerts c n))
          (alerts_timestamp_of (sample_alerts c n))
          (alert_count_of (sample_alerts c n))
          (should_alert_of (sample_alerts c n))).
Proof.
  intros H. rewrite (alerts_eta _ H). unfold sample_alerts in *.
  destruct (fst (get_alerts sample_clock c n)); [reflexivity | discriminate].
Qed.

Lemma fetch_keeps_upstream_fields_witness :
  exists data items copies,
    Status 200 (Json twin_payload) = Status 200 (Json data) /\
    payload_items data = Some items /\
    Forall2 stamped_copy items copies /\
    Permutation copies sample_batch.
Proof.
  apply (fetch_keeps_upstream_fields sample_clock sample_strptime
           sample_fromtimestamp_ok _ 0%nat).
  - by rewrite sample_fetch_twins.
  - discriminate.
Defined.

Lemma malformed_record_empties_batch_witness :
  fst (fetch_apex_readings sample_clock sample_strptime
         sample_fromtimestamp_ok (Status 200 (Json broken_payload)) 0%nat)
  = Ok [].
Proof.
  apply (malformed_record_empties_batch sample_clock sample_strptime
           sample_fromtimestamp_ok broken_payload
           [stamped "2025-10-29T15:21:22.971802Z"; VInt 5] (VInt 5)).
  - reflexivity.
  - apply list_elem_of_further, list_elem_of_here.
  - reflexivity.
Defined.

Lemma co2_level_is_at_least_400_witness :
  exists f, sample_derived gas_reading !! "co2_level" = Some (VFloat f) /\
            f_le (Fin 400) f = true.
Proof.
  apply (co2_level_is_at_least_400 sample_clock gas_reading 0%nat).
  apply sample_derived_ok. vm_compute. reflexivity.
Defined.

Lemma labels_agree_with_alert_rules_witness :
  (exists l, air_quality_rule (sample_derived alarm_reading ∪ alarm_reading)
             = Ok l /\
             agree air_table (sample_derived alarm_reading !! "air_quality") l)
  /\
  (exists l, gas_rule (sample_derived alarm_reading ∪ alarm_reading) = Ok l /\
             agree gas_table
               (sample_derived alarm_reading !! "flammable_gas") l) /\
  (exists l, co_rule (sample_derived alarm_reading ∪ alarm_reading) = Ok l /\
             agree gas_table (sample_derived alarm_reading !! "co_level") l).
Proof.
  apply (labels_agree_with_alert_rules sample_clock alarm_reading 0%nat).
  apply sample_derived_ok. vm_compute. reflexivity.
Defined.

Lemma alerts_follow_the_rule_order_witness :
  sublist
    (map Alert.sensor_type
       (alerts_of (sample_alerts (cache_of [alarm_reading] 1000) 0%nat)))
    rule_order /\
  alert_count_of (sample_alerts (cache_of [alarm_reading] 1000) 0%nat)
  = length (alerts_of (sample_alerts (cache_of [alarm_reading] 1000) 0%nat))
  /\
  Forall
    (fun a =>
       Alert.timestamp a
       = alerts_timestamp_of
           (sample_alerts (cache_of [alarm_reading] 1000) 0%nat) /\
       (Alert.sound a = true <-> loud a))
    (alerts_of (sample_alerts (cache_of [alarm_reading] 1000) 0%nat)) /\
  (should_alert_of (sample_alerts (cache_of [alarm_reading] 1000) 0%nat)
   = true <->
   Exists loud
     (alerts_of (sample_alerts (cache_of [alarm_reading] 1000) 0%nat))).
Proof.
  apply (alerts_follow_the_rule_order sample_clock
           (cache_of [alarm_reading] 1000) 0%nat).
  apply sample_alerts_ok. vm_compute. reflexivity.
Defined.

Lemma critical_gas_always_sounds_witness :
  should_alert_of (sample_alerts (cache_of [boundary_alarm_reading] 1000) 0%nat)
  = true /\
  exists a,
    a ∈ alerts_of
          (sample_alerts (cache_of [boundary_alarm_reading] 1000) 0%nat) /\
    facts a
    = ("carbon_monoxide", "critical", true,
       VFloat (f_round1 (b64 750.15)),
       alerts_timestamp_of
         (sample_alerts (cache_of [boundary_alarm_reading] 1000) 0%nat)).
Proof.
  apply (critical_gas_always_sounds sample_clock boundary_alarm_reading []
           1000%Q 0%nat _ _
           (alert_count_of
              (sample_alerts (cache_of [boundary_alarm_reading] 1000) 0%nat))
           _ "mq7_drop").
  - apply sample_alerts_ok. vm_compute. reflexivity.
  - apply list_elem_of_further, list_elem_of_here.
  - vm_compute. reflexivity.
  - vm_compute. reflexivity.
Defined.

(** The same reading under Python's own arithmetic: 750.15 rounds to
    750.1, which is critical, and the text rounds to 750.0, which is
    high. *)
Example boundary_alarm_levels :
  f_round1 (b64 750.15) = b64 750.1 /\
  map (fun a => (Alert.sensor_type a, Alert.severity a, Alert.value a))
    (alerts_of (sample_alerts (cache_of [boundary_alarm_reading] 1000) 0%nat))
  = [ ("carbon_monoxide", "critical", VFloat (b64 750.1));
      ("flammable_gas", "high", VFloat (b64 750)) ].
Proof. split; vm_compute; reflexivity. Qed.

Lemma build_derived_fails_only_on_soil_witness :
  (exists d,
     fst (build_derived_from_reading sample_clock out_of_range_reading 0%nat)
     = Ok d) /\
  ~ (exists d,
       fst (build_derived_from_reading sample_clock huge_soil_reading 0%nat)
       = Ok d) /\
  ~ (exists d,
       fst (build_derived_from_reading sample_clock nan_soil_reading 0%nat)
       = Ok d).
Proof.
  split; [| split].
  - apply (build_derived_fails_only_on_soil sample_clock).
    intros f E. vm_compute in E. discriminate.
  - intros H.
    destruct (proj1 (build_derived_fails_only_on_soil sample_clock
                       huge_soil_reading 0%nat) H PInf) as [q E];
      [vm_compute; reflexivity | discriminate].
  - intros H.
    destruct (proj1 (build_derived_fails_only_on_soil sample_clock
                       nan_soil_reading 0%nat) H NaN) as [q E];
      [vm_compute; reflexivity | discriminate].
Defined.

Lemma sensor_data_body_entries_witness :
  status (sample_response (cache_of [flame_reading] 1000) 0%nat) = 200 /\
  exists d,
    fst (build_derived_from_reading sample_clock flame_reading 1%nat)
    = Ok d /\
    forall k,
      body (sample_response (cache_of [flame_reading] 1000) 0%nat) !! k =
        if String.eqb k "_data_source" then Some (VStr "apex")
        else if String.eqb k "_cache_status"
             then Some (VStr (freshness_label (sample_clock 0 - 1000)))
        else if bool_decide (k ∈ derived_keys) then d !! k
        else if startswith "_" k then None
        else flame_reading !! k.
Proof.
  apply (sensor_data_body_entries sample_clock flame_reading [] 1000%Q 0%nat).
  apply returned_ok. vm_compute. reflexivity.
Defined.

Lemma analysis_values_are_floats_witness :
  is_float
    (current_value_of
       (sample_analysis (cache_of [flame_reading] 1000) 0%nat)) /\
  Forall (fun pt => is_float (Point.value pt))
    (history_of (sample_analysis (cache_of [flame_reading] 1000) 0%nat)).
Proof.
  set (r := sample_analysis (cache_of [flame_reading] 1000) 0%nat).
  apply (analysis_values_are_floats sample_clock "temperature" "hours"
           (cache_of [flame_reading] 1000) 0%nat (key_of r) (unit_of r)
           (current_value_of r) (history_of r) (timestamp_of r)
           (raw_data_of r)).
  apply sample_analysis_ok. vm_compute. reflexivity.
Defined.

Lemma history_length_witness :
  length (history_of (sample_analysis (cache_of sample_batch 1002) 5%nat))
  = Nat.max 2 (Nat.min (data_points "hours") (length sample_batch)).
Proof.
  set (r := sample_analysis (cache_of sample_batch 1002) 5%nat).
  apply (history_length sample_clock "temperature" "hours"
           (cache_of sample_batch 1002) 5%nat (key_of r) (unit_of r)
           (current_value_of r) (history_of r) (timestamp_of r)
           (raw_data_of r)).
  - apply sample_analysis_ok. vm_compute. reflexivity.
  - reflexivity.
Defined.

Lemma temperature_status_matches_alert_witness :
  exists f s,
    temp_avg_of alarm_reading = Ok (VFloat f) /\
    _get_temperature_status (VFloat f) = Ok s /\
    if is_nan f
    then s = "Critical" /\ returned [] (temperature_rule alarm_reading) = []
    else (s, severities (returned [] (temperature_rule alarm_reading)))
         ∈ range_table.
Proof.
  apply (temperature_status_matches_alert alarm_reading (VReal 1000)).
  - vm_compute. reflexivity.
  - apply returned_ok. vm_compute. reflexivity.
Defined.

Lemma humidity_status_gap_witness :
  exists alerts s,
    humidity_rule alarm_reading = Ok alerts /\
    _get_humidity_status (VFloat (Fin 70.5)) = Ok s /\
    s = "Critical" /\ severities alerts = ["medium"].
Proof.
  apply (humidity_status_gap alarm_reading (VReal 1000) (Fin 70.5));
    vm_compute; reflexivity.
Defined.


Lemma report_scores_missing_temperature_witness :
  exists s,
    _calculate_health_score (returned ∅ (all_analysis gas_reading)) = Ok s /\
    status_entry (returned ∅ (all_analysis gas_reading)) "temperature"
    = Ok (VStr "Critical") /\
    s <= 70.
Proof.
  destruct (report_scores_missing_temperature gas_reading
              (returned ∅ (all_analysis gas_reading))) as (s & Hs & Hm).
  { apply returned_ok. vm_compute. reflexivity. }
  exists s. split; [exact Hs|]. apply Hm; vm_compute; reflexivity.
Defined.

Lemma alert_summary_counts_witness :
  let s := returned no_summary (_generate_alert_summary alarm_reading) in
  Summary.total_alerts s = length (Summary.alerts s) /\
  (Summary.total_alerts s <= 6)%nat /\
  (Summary.critical_count s + Summary.warning_count s
   + count_level "INFO" (Summary.alerts s) = Summary.total_alerts s)%nat /\
  (1 <= Summary.critical_count s)%nat /\
  last (Summary.alerts s)
  = Some {| Summary.level := "CRITICAL"; Summary.type := "FIRE";
            Summary.message := [Lit "⚠️ FIRE DETECTED"] |}.
Proof.
  cbv zeta.
  destruct (alert_summary_counts alarm_reading
              (returned no_summary (_generate_alert_summary alarm_reading)))
    as (H1 & H2 & H3 & H4).
  { apply returned_ok. vm_compute. reflexivity. }
  repeat split; try assumption; apply H4; vm_compute; reflexivity.
Defined.

Lemma report_summary_counts_the_alerts_witness :
  exists s flame,
    _generate_alert_summary (sample_derived alarm_reading ∪ alarm_reading)
    = Ok s /\
    sample_derived alarm_reading !! "flame_detected" = Some (VBool flame) /\
    Summary.total_alerts s
    = (alert_count_of (sample_alerts (cache_of [alarm_reading] 1000) 0%nat)
       + (if flame then 1 else 0))%nat.
Proof.
  apply (report_summary_counts_the_alerts sample_clock alarm_reading []
           1000%Q 0%nat
           (alerts_of (sample_alerts (cache_of [alarm_reading] 1000) 0%nat))
           (alerts_timestamp_of
              (sample_alerts (cache_of [alarm_reading] 1000) 0%nat))
           _
           (should_alert_of
              (sample_alerts (cache_of [alarm_reading] 1000) 0%nat))
           0%nat).
  - apply sample_alerts_ok. vm_compute. reflexivity.
  - apply sample_derived_ok. vm_compute. reflexivity.
Defined.

Lemma add_item_keeps_existing_lookups_witness :
  length (returned ([], (0, VNone)) (add_item duplicate_item initial_items)).1
  = S (length initial_items) /\
  get_item 1
    (returned ([], (0, VNone)) (add_item duplicate_item initial_items)).1
  = get_item 1 initial_items.
Proof.
  apply (add_item_keeps_existing_lookups duplicate_item initial_items _
           (returned ([], (0, VNone))
              (add_item duplicate_item initial_items)).2).
  - rewrite <- surjective_pairing. apply returned_ok. vm_compute. reflexivity.
  - intros H. apply (f_equal found) in H. vm_compute in H. discriminate.
Defined.

Lemma add_item_then_get_item_witness :
  add_item (VDict unnumbered_item) initial_items
  = Ok ((initial_items
         ++ [VDict (<["id" := VInt (Z.of_nat (length initial_items) + 1)]>
                      unnumbered_item)])%list,
        (201,
         VDict (<["id" := VInt (Z.of_nat (length initial_items) + 1)]>
                  unnumbered_item))) /\
  get_item (Z.of_nat (length initial_items) + 1)
    (initial_items
     ++ [VDict (<["id" := VInt (Z.of_nat (length initial_items) + 1)]>
                  unnumbered_item)])
  = Ok (200,
        VDict (<["id" := VInt (Z.of_nat (length initial_items) + 1)]>
                 unnumbered_item)).
Proof.
  apply (add_item_then_get_item unnumbered_item initial_items);
    vm_compute; reflexivity.
Defined.

Lemma non_object_item_breaks_lookups_witness :
  (returned ([], (0, VNone)) (add_item (VStr "video") initial_items)).2
  = (201, VStr "video") /\
  get_item 7
    (returned ([], (0, VNone)) (add_item (VStr "video") initial_items)).1
  = Raise TypeError.
Proof.
  apply (non_object_item_breaks_lookups (VStr "video") initial_items).
  - rewrite <- surjective_pairing. apply returned_ok. vm_compute. reflexivity.
  - reflexivity.
  - vm_compute. reflexivity.
Defined.

Lemma ai_fails_without_temperature_witness :
  fst (get_sensor_ai_only sample_clock sample_gemini "Temperature"
         (cache_of [gas_reading] 1000) 0%nat)
  = Ok AiFailed.
Proof.
  apply (ai_fails_without_temperature sample_clock sample_gemini
           "Temperature" gas_reading [] 1000%Q 0%nat);
    vm_compute; reflexivity.
Defined.

Lemma ai_temperature_history_is_zero_witness :
  exists d current_value status,
    fst (build_derived_from_reading sample_clock flame_reading 1%nat)
    = Ok d /\
    d !! "temperature" = Some current_value /\
    _get_temperature_status current_value = Ok status /\
    sample_gemini "Temperature" current_value "°C" status
      (repeat (VInt 0) (Nat.min 10 (S (length (@nil reading)))))
    = Ok "steady" /\
    "Temperature" = "Temperature".
Proof.
  apply (ai_temperature_history_is_zero sample_clock sample_gemini
           "Temperature" flame_reading [] 1000%Q 0%nat "steady"
           (sample_clock 2) "Temperature").
  - vm_compute. reflexivity.
  - constructor; [vm_compute; reflexivity | constructor].
  - vm_compute. reflexivity.
Defined.
